(** * Categorized-Quiz: the quiz controller of [script.js], embedded and verified

    The script is one [DOMContentLoaded] closure over a handful of mutable
    variables ([currentQuestions], [score], [questionIndex], [highScore],
    [questionStartTime]) and a dozen DOM elements.  The embedding keeps that
    shape: one record [State] holds the closure variables together with the
    part of the page the handlers read and write, every handler is a function
    from [State] to [State], and the browser's event loop becomes a [step]
    function over the events the page can receive (a click on a child of
    [#answers], a timer that fires, a response that arrives).

    The browser itself is not part of the repository.  What the handlers need
    from it is modelled in [Module Dom]:
    - the tokenization a [<textarea>] performs when its [innerHTML] is
      assigned ([decodeHTML] reads the result back through [value]);
    - the parse of the markup assigned to the [innerHTML] of a button, for
      markup that opens no tag, and the escaping [innerHTML] performs when
      it is read;
    - [Date.now], [Math.random] and the network, which are inputs of the
      events. *)

From Stdlib Require Import ZArith QArith Qround String Ascii DecimalString.
From stdpp Require Import base list strings.

Local Open Scope Z_scope.

(** ** The platform: HTML tokenization and serialisation *)

Module Dom.

(** A JavaScript string is modelled by the [string] of the bytes of its
    UTF-8 encoding: two JavaScript strings (of whole code points, as JSON
    text decodes to) are [===] exactly when these bytes are the same. *)

Definition LF : ascii := "010"%char.
Definition CR : ascii := "013"%char.
Definition NUL : ascii := "000"%char.

(** The UTF-8 encoding of a code point. *)
Definition utf8 (c : N) : string :=
  if (c <? 128)%N then String (ascii_of_N c) EmptyString
  else if (c <? 2048)%N then
    String (ascii_of_N (192 + c / 64))
      (String (ascii_of_N (128 + c mod 64)) EmptyString)
  else if (c <? 65536)%N then
    String (ascii_of_N (224 + c / 4096))
      (String (ascii_of_N (128 + (c / 64) mod 64))
         (String (ascii_of_N (128 + c mod 64)) EmptyString))
  else
    String (ascii_of_N (240 + c / 262144))
      (String (ascii_of_N (128 + (c / 4096) mod 64))
         (String (ascii_of_N (128 + (c / 64) mod 64))
            (String (ascii_of_N (128 + c mod 64)) EmptyString))).

Fixpoint utf8s (cs : list N) : string :=
  match cs with
  | [] => EmptyString
  | c :: cs => utf8 c +:+ utf8s cs
  end.

(** U+FFFD, the replacement character. *)
Definition replacement : string := utf8 65533.

(** Newline normalisation, which the parser applies to its input and a
    [<textarea>] to its value: a carriage return becomes a line feed, and
    the line feed that follows a carriage return is dropped. *)
Fixpoint normalizeFrom (afterCR : bool) (s : string) : string :=
  match s with
  | EmptyString => EmptyString
  | String c rest =>
      if Ascii.eqb c CR then String LF (normalizeFrom true rest)
      else if Ascii.eqb c LF && afterCR then normalizeFrom false rest
      else String c (normalizeFrom false rest)
  end.

Definition normalizeNewlines (s : string) : string := normalizeFrom false s.

(** [s] begins with [pattern]. *)
Fixpoint startsWith (pattern s : string) {struct pattern} : bool :=
  match pattern, s with
  | EmptyString, _ => true
  | String p pattern, String c s => Ascii.eqb p c && startsWith pattern s
  | String _ _, EmptyString => false
  end.

(** The named character references of the HTML standard, each with the
    code points it stands for; the names include the semicolon, which the
    106 names of the older standards may omit. *)
Definition namedCharacterReferences : list (string * list N) :=
  [("AElig", [198]); ("AElig;", [198]); ("AMP", [38]); ("AMP;", [38]);
   ("Aacute", [193]); ("Aacute;", [193]); ("Abreve;", [258]);
   ("Acirc", [194]); ("Acirc;", [194]); ("Acy;", [1040]); ("Afr;", [120068]);
   ("Agrave", [192]); ("Agrave;", [192]); ("Alpha;", [913]);
   ("Amacr;", [256]); ("And;", [10835]); ("Aogon;", [260]);
   ("Aopf;", [120120]); ("ApplyFunction;", [8289]); ("Aring", [197]);
   ("Aring;", [197]); ("Ascr;", [119964]); ("Assign;", [8788]);
   ("Atilde", [195]); ("Atilde;", [195]); ("Auml", [196]); ("Auml;", [196]);
   ("Backslash;", [8726]); ("Barv;", [10983]); ("Barwed;", [8966]);
   ("Bcy;", [1041]); ("Because;", [8757]); ("Bernoullis;", [8492]);
   ("Beta;", [914]); ("Bfr;", [120069]); ("Bopf;", [120121]);
   ("Breve;", [728]); ("Bscr;", [8492]); ("Bumpeq;", [8782]);
   ("CHcy;", [1063]); ("COPY", [169]); ("COPY;", [169]); ("Cacute;", [262]);
   ("Cap;", [8914]); ("CapitalDifferentialD;", [8517]); ("Cayleys;", [8493]);
   ("Ccaron;", [268]); ("Ccedil", [199]); ("Ccedil;", [199]);
   ("Ccirc;", [264]); ("Cconint;", [8752]); ("Cdot;", [266]);
   ("Cedilla;", [184]); ("CenterDot;", [183]); ("Cfr;", [8493]);
   ("Chi;", [935]); ("CircleDot;", [8857]); ("CircleMinus;", [8854]);
   ("CirclePlus;", [8853]); ("CircleTimes;", [8855]);
   ("ClockwiseContourIntegral;", [8754]); ("CloseCurlyDoubleQuote;", [8221]);
   ("CloseCurlyQuote;", [8217]); ("Colon;", [8759]); ("Colone;", [10868]);
   ("Congruent;", [8801]); ("Conint;", [8751]); ("ContourIntegral;", [8750]);
   ("Copf;", [8450]); ("Coproduct;", [8720]);
   ("CounterClockwiseContourIntegral;", [8755]); ("Cross;", [10799]);
   ("Cscr;", [119966]); ("Cup;", [8915]); ("CupCap;", [8781]);
   ("DD;", [8517]); ("DDotrahd;", [10513]); ("DJcy;", [1026]);
   ("DScy;", [1029]); ("DZcy;", [1039]); ("Dagger;", [8225]);
   ("Darr;", [8609]); ("Dashv;", [10980]); ("Dcaron;", [270]);
   ("Dcy;", [1044]); ("Del;", [8711]); ("Delta;", [916]); ("Dfr;", [120071]);
   ("DiacriticalAcute;", [180]); ("DiacriticalDot;", [729]);
   ("DiacriticalDoubleAcute;", [733]); ("DiacriticalGrave;", [96]);
   ("DiacriticalTilde;", [732]); ("Diamond;", [8900]);
   ("DifferentialD;", [8518]); ("Dopf;", [120123]); ("Dot;", [168]);
   ("DotDot;", [8412]); ("DotEqual;", [8784]);
   ("DoubleContourIntegral;", [8751]); ("DoubleDot;", [168]);
   ("DoubleDownArrow;", [8659]); ("DoubleLeftArrow;", [8656]);
   ("DoubleLeftRightArrow;", [8660]); ("DoubleLeftTee;", [10980]);
   ("DoubleLongLeftArrow;", [10232]); ("DoubleLongLeftRightArrow;", [10234]);
   ("DoubleLongRightArrow;", [10233]); ("DoubleRightArrow;", [8658]);
   ("DoubleRightTee;", [8872]); ("DoubleUpArrow;", [8657]);
   ("DoubleUpDownArrow;", [8661]); ("DoubleVerticalBar;", [8741]);
   ("DownArrow;", [8595]); ("DownArrowBar;", [10515]);
   ("DownArrowUpArrow;", [8693]); ("DownBreve;", [785]);
   ("DownLeftRightVector;", [10576]); ("DownLeftTeeVector;", [10590]);
   ("DownLeftVector;", [8637]); ("DownLeftVectorBar;", [10582]);
   ("DownRightTeeVector;", [10591]); ("DownRightVector;", [8641]);
   ("DownRightVectorBar;", [10583]); ("DownTee;", [8868]);
   ("DownTeeArrow;", [8615]); ("Downarrow;", [8659]); ("Dscr;", [119967]);
   ("Dstrok;", [272]); ("ENG;", [330]); ("ETH", [208]); ("ETH;", [208]);
   ("Eacute", [201]); ("Eacute;", [201]); ("Ecaron;", [282]);
   ("Ecirc", [202]); ("Ecirc;", [202]); ("Ecy;", [1069]); ("Edot;", [278]);
   ("Efr;", [120072]); ("Egrave", [200]); ("Egrave;", [200]);
   ("Element;", [8712]); ("Emacr;", [274]); ("EmptySmallSquare;", [9723]);
   ("EmptyVerySmallSquare;", [9643]); ("Eogon;", [280]); ("Eopf;", [120124]);
   ("Epsilon;", [917]); ("Equal;", [10869]); ("EqualTilde;", [8770]);
   ("Equilibrium;", [8652]); ("Escr;", [8496]); ("Esim;", [10867]);
   ("Eta;", [919]); ("Euml", [203]); ("Euml;", [203]); ("Exists;", [8707]);
   ("ExponentialE;", [8519]); ("Fcy;", [1060]); ("Ffr;", [120073]);
   ("FilledSmallSquare;", [9724]); ("FilledVerySmallSquare;", [9642]);
   ("Fopf;", [120125]); ("ForAll;", [8704]); ("Fouriertrf;", [8497]);
   ("Fscr;", [8497]); ("GJcy;", [1027]); ("GT", [62]); ("GT;", [62]);
   ("Gamma;", [915]); ("Gammad;", [988]); ("Gbreve;", [286]);
   ("Gcedil;", [290]); ("Gcirc;", [284]); ("Gcy;", [1043]); ("Gdot;", [288]);
   ("Gfr;", [120074]); ("Gg;", [8921]); ("Gopf;", [120126]);
   ("GreaterEqual;", [8805]); ("GreaterEqualLess;", [8923]);
   ("GreaterFullEqual;", [8807]); ("GreaterGreater;", [10914]);
   ("GreaterLess;", [8823]); ("GreaterSlantEqual;", [10878]);
   ("GreaterTilde;", [8819]); ("Gscr;", [119970]); ("Gt;", [8811]);
   ("HARDcy;", [1066]); ("Hacek;", [711]); ("Hat;", [94]); ("Hcirc;", [292]);
   ("Hfr;", [8460]); ("HilbertSpace;", [8459]); ("Hopf;", [8461]);
   ("HorizontalLine;", [9472]); ("Hscr;", [8459]); ("Hstrok;", [294]);
   ("HumpDownHump;", [8782]); ("HumpEqual;", [8783]); ("IEcy;", [1045]);
   ("IJlig;", [306]); ("IOcy;", [1025]); ("Iacute", [205]);
   ("Iacute;", [205]); ("Icirc", [206]); ("Icirc;", [206]); ("Icy;", [1048]);
   ("Idot;", [304]); ("Ifr;", [8465]); ("Igrave", [204]); ("Igrave;", [204]);
   ("Im;", [8465]); ("Imacr;", [298]); ("ImaginaryI;", [8520]);
   ("Implies;", [8658]); ("Int;", [8748]); ("Integral;", [8747]);
   ("Intersection;", [8898]); ("InvisibleComma;", [8291]);
   ("InvisibleTimes;", [8290]); ("Iogon;", [302]); ("Iopf;", [120128]);
   ("Iota;", [921]); ("Iscr;", [8464]); ("Itilde;", [296]);
   ("Iukcy;", [1030]); ("Iuml", [207]); ("Iuml;", [207]); ("Jcirc;", [308]);
   ("Jcy;", [1049]); ("Jfr;", [120077]); ("Jopf;", [120129]);
   ("Jscr;", [119973]); ("Jsercy;", [1032]); ("Jukcy;", [1028]);
   ("KHcy;", [1061]); ("KJcy;", [1036]); ("Kappa;", [922]);
   ("Kcedil;", [310]); ("Kcy;", [1050]); ("Kfr;", [120078]);
   ("Kopf;", [120130]); ("Kscr;", [119974]); ("LJcy;", [1033]); ("LT", [60]);
   ("LT;", [60]); ("Lacute;", [313]); ("Lambda;", [923]); ("Lang;", [10218]);
   ("Laplacetrf;", [8466]); ("Larr;", [8606]); ("Lcaron;", [317]);
   ("Lcedil;", [315]); ("Lcy;", [1051]); ("LeftAngleBracket;", [10216]);
   ("LeftArrow;", [8592]); ("LeftArrowBar;", [8676]);
   ("LeftArrowRightArrow;", [8646]); ("LeftCeiling;", [8968]);
   ("LeftDoubleBracket;", [10214]); ("LeftDownTeeVector;", [10593]);
   ("LeftDownVector;", [8643]); ("LeftDownVectorBar;", [10585]);
   ("LeftFloor;", [8970]); ("LeftRightArrow;", [8596]);
   ("LeftRightVector;", [10574]); ("LeftTee;", [8867]);
   ("LeftTeeArrow;", [8612]); ("LeftTeeVector;", [10586]);
   ("LeftTriangle;", [8882]); ("LeftTriangleBar;", [10703]);
   ("LeftTriangleEqual;", [8884]); ("LeftUpDownVector;", [10577]);
   ("LeftUpTeeVector;", [10592]); ("LeftUpVector;", [8639]);
   ("LeftUpVectorBar;", [10584]); ("LeftVector;", [8636]);
   ("LeftVectorBar;", [10578]); ("Leftarrow;", [8656]);
   ("Leftrightarrow;", [8660]); ("LessEqualGreater;", [8922]);
   ("LessFullEqual;", [8806]); ("LessGreater;", [8822]);
   ("LessLess;", [10913]); ("LessSlantEqual;", [10877]);
   ("LessTilde;", [8818]); ("Lfr;", [120079]); ("Ll;", [8920]);
   ("Lleftarrow;", [8666]); ("Lmidot;", [319]); ("LongLeftArrow;", [10229]);
   ("LongLeftRightArrow;", [10231]); ("LongRightArrow;", [10230]);
   ("Longleftarrow;", [10232]); ("Longleftrightarrow;", [10234]);
   ("Longrightarrow;", [10233]); ("Lopf;", [120131]);
   ("LowerLeftArrow;", [8601]); ("LowerRightArrow;", [8600]);
   ("Lscr;", [8466]); ("Lsh;", [8624]); ("Lstrok;", [321]); ("Lt;", [8810]);
   ("Map;", [10501]); ("Mcy;", [1052]); ("MediumSpace;", [8287]);
   ("Mellintrf;", [8499]); ("Mfr;", [120080]); ("MinusPlus;", [8723]);
   ("Mopf;", [120132]); ("Mscr;", [8499]); ("Mu;", [924]); ("NJcy;", [1034]);
   ("Nacute;", [323]); ("Ncaron;", [327]); ("Ncedil;", [325]);
   ("Ncy;", [1053]); ("NegativeMediumSpace;", [8203]);
   ("NegativeThickSpace;", [8203]); ("NegativeThinSpace;", [8203]);
   ("NegativeVeryThinSpace;", [8203]); ("NestedGreaterGreater;", [8811]);
   ("NestedLessLess;", [8810]); ("NewLine;", [10]); ("Nfr;", [120081]);
   ("NoBreak;", [8288]); ("NonBreakingSpace;", [160]); ("Nopf;", [8469]);
   ("Not;", [10988]); ("NotCongruent;", [8802]); ("NotCupCap;", [8813]);
   ("NotDoubleVerticalBar;", [8742]); ("NotElement;", [8713]);
   ("NotEqual;", [8800]); ("NotEqualTilde;", [8770; 824]);
   ("NotExists;", [8708]); ("NotGreater;", [8815]);
   ("NotGreaterEqual;", [8817]); ("NotGreaterFullEqual;", [8807; 824]);
   ("NotGreaterGreater;", [8811; 824]); ("NotGreaterLess;", [8825]);
   ("NotGreaterSlantEqual;", [10878; 824]); ("NotGreaterTilde;", [8821]);
   ("NotHumpDownHump;", [8782; 824]); ("NotHumpEqual;", [8783; 824]);
   ("NotLeftTriangle;", [8938]); ("NotLeftTriangleBar;", [10703; 824]);
   ("NotLeftTriangleEqual;", [8940]); ("NotLess;", [8814]);
   ("NotLessEqual;", [8816]); ("NotLessGreater;", [8824]);
   ("NotLessLess;", [8810; 824]); ("NotLessSlantEqual;", [10877; 824]);
   ("NotLessTilde;", [8820]); ("NotNestedGreaterGreater;", [10914; 824]);
   ("NotNestedLessLess;", [10913; 824]); ("NotPrecedes;", [8832]);
   ("NotPrecedesEqual;", [10927; 824]); ("NotPrecedesSlantEqual;", [8928]);
   ("NotReverseElement;", [8716]); ("NotRightTriangle;", [8939]);
   ("NotRightTriangleBar;", [10704; 824]); ("NotRightTriangleEqual;", [8941]);
   ("NotSquareSubset;", [8847; 824]); ("NotSquareSubsetEqual;", [8930]);
   ("NotSquareSuperset;", [8848; 824]); ("NotSquareSupersetEqual;", [8931]);
   ("NotSubset;", [8834; 8402]); ("NotSubsetEqual;", [8840]);
   ("NotSucceeds;", [8833]); ("NotSucceedsEqual;", [10928; 824]);
   ("NotSucceedsSlantEqual;", [8929]); ("NotSucceedsTilde;", [8831; 824]);
   ("NotSuperset;", [8835; 8402]); ("NotSupersetEqual;", [8841]);
   ("NotTilde;", [8769]); ("NotTildeEqual;", [8772]);
   ("NotTildeFullEqual;", [8775]); ("NotTildeTilde;", [8777]);
   ("NotVerticalBar;", [8740]); ("Nscr;", [119977]); ("Ntilde", [209]);
   ("Ntilde;", [209]); ("Nu;", [925]); ("OElig;", [338]); ("Oacute", [211]);
   ("Oacute;", [211]); ("Ocirc", [212]); ("Ocirc;", [212]); ("Ocy;", [1054]);
   ("Odblac;", [336]); ("Ofr;", [120082]); ("Ograve", [210]);
   ("Ograve;", [210]); ("Omacr;", [332]); ("Omega;", [937]);
   ("Omicron;", [927]); ("Oopf;", [120134]);
   ("OpenCurlyDoubleQuote;", [8220]); ("OpenCurlyQuote;", [8216]);
   ("Or;", [10836]); ("Oscr;", [119978]); ("Oslash", [216]);
   ("Oslash;", [216]); ("Otilde", [213]); ("Otilde;", [213]);
   ("Otimes;", [10807]); ("Ouml", [214]); ("Ouml;", [214]);
   ("OverBar;", [8254]); ("OverBrace;", [9182]); ("OverBracket;", [9140]);
   ("OverParenthesis;", [9180]); ("PartialD;", [8706]); ("Pcy;", [1055]);
   ("Pfr;", [120083]); ("Phi;", [934]); ("Pi;", [928]); ("PlusMinus;", [177]);
   ("Poincareplane;", [8460]); ("Popf;", [8473]); ("Pr;", [10939]);
   ("Precedes;", [8826]); ("PrecedesEqual;", [10927]);
   ("PrecedesSlantEqual;", [8828]); ("PrecedesTilde;", [8830]);
   ("Prime;", [8243]); ("Product;", [8719]); ("Proportion;", [8759]);
   ("Proportional;", [8733]); ("Pscr;", [119979]); ("Psi;", [936]);
   ("QUOT", [34]); ("QUOT;", [34]); ("Qfr;", [120084]); ("Qopf;", [8474]);
   ("Qscr;", [119980]); ("RBarr;", [10512]); ("REG", [174]); ("REG;", [174]);
   ("Racute;", [340]); ("Rang;", [10219]); ("Rarr;", [8608]);
   ("Rarrtl;", [10518]); ("Rcaron;", [344]); ("Rcedil;", [342]);
   ("Rcy;", [1056]); ("Re;", [8476]); ("ReverseElement;", [8715]);
   ("ReverseEquilibrium;", [8651]); ("ReverseUpEquilibrium;", [10607]);
   ("Rfr;", [8476]); ("Rho;", [929]); ("RightAngleBracket;", [10217]);
   ("RightArrow;", [8594]); ("RightArrowBar;", [8677]);
   ("RightArrowLeftArrow;", [8644]); ("RightCeiling;", [8969]);
   ("RightDoubleBracket;", [10215]); ("RightDownTeeVector;", [10589]);
   ("RightDownVector;", [8642]); ("RightDownVectorBar;", [10581]);
   ("RightFloor;", [8971]); ("RightTee;", [8866]); ("RightTeeArrow;", [8614]);
   ("RightTeeVector;", [10587]); ("RightTriangle;", [8883]);
   ("RightTriangleBar;", [10704]); ("RightTriangleEqual;", [8885]);
   ("RightUpDownVector;", [10575]); ("RightUpTeeVector;", [10588]);
   ("RightUpVector;", [8638]); ("RightUpVectorBar;", [10580]);
   ("RightVector;", [8640]); ("RightVectorBar;", [10579]);
   ("Rightarrow;", [8658]); ("Ropf;", [8477]); ("RoundImplies;", [10608]);
   ("Rrightarrow;", [8667]); ("Rscr;", [8475]); ("Rsh;", [8625]);
   ("RuleDelayed;", [10740]); ("SHCHcy;", [1065]); ("SHcy;", [1064]);
   ("SOFTcy;", [1068]); ("Sacute;", [346]); ("Sc;", [10940]);
   ("Scaron;", [352]); ("Scedil;", [350]); ("Scirc;", [348]);
   ("Scy;", [1057]); ("Sfr;", [120086]); ("ShortDownArrow;", [8595]);
   ("ShortLeftArrow;", [8592]); ("ShortRightArrow;", [8594]);
   ("ShortUpArrow;", [8593]); ("Sigma;", [931]); ("SmallCircle;", [8728]);
   ("Sopf;", [120138]); ("Sqrt;", [8730]); ("Square;", [9633]);
   ("SquareIntersection;", [8851]); ("SquareSubset;", [8847]);
   ("SquareSubsetEqual;", [8849]); ("SquareSuperset;", [8848]);
   ("SquareSupersetEqual;", [8850]); ("SquareUnion;", [8852]);
   ("Sscr;", [119982]); ("Star;", [8902]); ("Sub;", [8912]);
   ("Subset;", [8912]); ("SubsetEqual;", [8838]); ("Succeeds;", [8827]);
   ("SucceedsEqual;", [10928]); ("SucceedsSlantEqual;", [8829]);
   ("SucceedsTilde;", [8831]); ("SuchThat;", [8715]); ("Sum;", [8721]);
   ("Sup;", [8913]); ("Superset;", [8835]); ("SupersetEqual;", [8839]);
   ("Supset;", [8913]); ("THORN", [222]); ("THORN;", [222]);
   ("TRADE;", [8482]); ("TSHcy;", [1035]); ("TScy;", [1062]); ("Tab;", [9]);
   ("Tau;", [932]); ("Tcaron;", [356]); ("Tcedil;", [354]); ("Tcy;", [1058]);
   ("Tfr;", [120087]); ("Therefore;", [8756]); ("Theta;", [920]);
   ("ThickSpace;", [8287; 8202]); ("ThinSpace;", [8201]); ("Tilde;", [8764]);
   ("TildeEqual;", [8771]); ("TildeFullEqual;", [8773]);
   ("TildeTilde;", [8776]); ("Topf;", [120139]); ("TripleDot;", [8411]);
   ("Tscr;", [119983]); ("Tstrok;", [358]); ("Uacute", [218]);
   ("Uacute;", [218]); ("Uarr;", [8607]); ("Uarrocir;", [10569]);
   ("Ubrcy;", [1038]); ("Ubreve;", [364]); ("Ucirc", [219]);
   ("Ucirc;", [219]); ("Ucy;", [1059]); ("Udblac;", [368]);
   ("Ufr;", [120088]); ("Ugrave", [217]); ("Ugrave;", [217]);
   ("Umacr;", [362]); ("UnderBar;", [95]); ("UnderBrace;", [9183]);
   ("UnderBracket;", [9141]); ("UnderParenthesis;", [9181]);
   ("Union;", [8899]); ("UnionPlus;", [8846]); ("Uogon;", [370]);
   ("Uopf;", [120140]); ("UpArrow;", [8593]); ("UpArrowBar;", [10514]);
   ("UpArrowDownArrow;", [8645]); ("UpDownArrow;", [8597]);
   ("UpEquilibrium;", [10606]); ("UpTee;", [8869]); ("UpTeeArrow;", [8613]);
   ("Uparrow;", [8657]); ("Updownarrow;", [8661]);
   ("UpperLeftArrow;", [8598]); ("UpperRightArrow;", [8599]);
   ("Upsi;", [978]); ("Upsilon;", [933]); ("Uring;", [366]);
   ("Uscr;", [119984]); ("Utilde;", [360]); ("Uuml", [220]); ("Uuml;", [220]);
   ("VDash;", [8875]); ("Vbar;", [10987]); ("Vcy;", [1042]);
   ("Vdash;", [8873]); ("Vdashl;", [10982]); ("Vee;", [8897]);
   ("Verbar;", [8214]); ("Vert;", [8214]); ("VerticalBar;", [8739]);
   ("VerticalLine;", [124]); ("VerticalSeparator;", [10072]);
   ("VerticalTilde;", [8768]); ("VeryThinSpace;", [8202]); ("Vfr;", [120089]);
   ("Vopf;", [120141]); ("Vscr;", [119985]); ("Vvdash;", [8874]);
   ("Wcirc;", [372]); ("Wedge;", [8896]); ("Wfr;", [120090]);
   ("Wopf;", [120142]); ("Wscr;", [119986]); ("Xfr;", [120091]);
   ("Xi;", [926]); ("Xopf;", [120143]); ("Xscr;", [119987]);
   ("YAcy;", [1071]); ("YIcy;", [1031]); ("YUcy;", [1070]); ("Yacute", [221]);
   ("Yacute;", [221]); ("Ycirc;", [374]); ("Ycy;", [1067]);
   ("Yfr;", [120092]); ("Yopf;", [120144]); ("Yscr;", [119988]);
   ("Yuml;", [376]); ("ZHcy;", [1046]); ("Zacute;", [377]);
   ("Zcaron;", [381]); ("Zcy;", [1047]); ("Zdot;", [379]);
   ("ZeroWidthSpace;", [8203]); ("Zeta;", [918]); ("Zfr;", [8488]);
   ("Zopf;", [8484]); ("Zscr;", [119989]); ("aacute", [225]);
   ("aacute;", [225]); ("abreve;", [259]); ("ac;", [8766]);
   ("acE;", [8766; 819]); ("acd;", [8767]); ("acirc", [226]);
   ("acirc;", [226]); ("acute", [180]); ("acute;", [180]); ("acy;", [1072]);
   ("aelig", [230]); ("aelig;", [230]); ("af;", [8289]); ("afr;", [120094]);
   ("agrave", [224]); ("agrave;", [224]); ("alefsym;", [8501]);
   ("aleph;", [8501]); ("alpha;", [945]); ("amacr;", [257]);
   ("amalg;", [10815]); ("amp", [38]); ("amp;", [38]); ("and;", [8743]);
   ("andand;", [10837]); ("andd;", [10844]); ("andslope;", [10840]);
   ("andv;", [10842]); ("ang;", [8736]); ("ange;", [10660]);
   ("angle;", [8736]); ("angmsd;", [8737]); ("angmsdaa;", [10664]);
   ("angmsdab;", [10665]); ("angmsdac;", [10666]); ("angmsdad;", [10667]);
   ("angmsdae;", [10668]); ("angmsdaf;", [10669]); ("angmsdag;", [10670]);
   ("angmsdah;", [10671]); ("angrt;", [8735]); ("angrtvb;", [8894]);
   ("angrtvbd;", [10653]); ("angsph;", [8738]); ("angst;", [197]);
   ("angzarr;", [9084]); ("aogon;", [261]); ("aopf;", [120146]);
   ("ap;", [8776]); ("apE;", [10864]); ("apacir;", [10863]); ("ape;", [8778]);
   ("apid;", [8779]); ("apos;", [39]); ("approx;", [8776]);
   ("approxeq;", [8778]); ("aring", [229]); ("aring;", [229]);
   ("ascr;", [119990]); ("ast;", [42]); ("asymp;", [8776]);
   ("asympeq;", [8781]); ("atilde", [227]); ("atilde;", [227]);
   ("auml", [228]); ("auml;", [228]); ("awconint;", [8755]);
   ("awint;", [10769]); ("bNot;", [10989]); ("backcong;", [8780]);
   ("backepsilon;", [1014]); ("backprime;", [8245]); ("backsim;", [8765]);
   ("backsimeq;", [8909]); ("barvee;", [8893]); ("barwed;", [8965]);
   ("barwedge;", [8965]); ("bbrk;", [9141]); ("bbrktbrk;", [9142]);
   ("bcong;", [8780]); ("bcy;", [1073]); ("bdquo;", [8222]);
   ("becaus;", [8757]); ("because;", [8757]); ("bemptyv;", [10672]);
   ("bepsi;", [1014]); ("bernou;", [8492]); ("beta;", [946]);
   ("beth;", [8502]); ("between;", [8812]); ("bfr;", [120095]);
   ("bigcap;", [8898]); ("bigcirc;", [9711]); ("bigcup;", [8899]);
   ("bigodot;", [10752]); ("bigoplus;", [10753]); ("bigotimes;", [10754]);
   ("bigsqcup;", [10758]); ("bigstar;", [9733]); ("bigtriangledown;", [9661]);
   ("bigtriangleup;", [9651]); ("biguplus;", [10756]); ("bigvee;", [8897]);
   ("bigwedge;", [8896]); ("bkarow;", [10509]); ("blacklozenge;", [10731]);
   ("blacksquare;", [9642]); ("blacktriangle;", [9652]);
   ("blacktriangledown;", [9662]); ("blacktriangleleft;", [9666]);
   ("blacktriangleright;", [9656]); ("blank;", [9251]); ("blk12;", [9618]);
   ("blk14;", [9617]); ("blk34;", [9619]); ("block;", [9608]);
   ("bne;", [61; 8421]); ("bnequiv;", [8801; 8421]); ("bnot;", [8976]);
   ("bopf;", [120147]); ("bot;", [8869]); ("bottom;", [8869]);
   ("bowtie;", [8904]); ("boxDL;", [9559]); ("boxDR;", [9556]);
   ("boxDl;", [9558]); ("boxDr;", [9555]); ("boxH;", [9552]);
   ("boxHD;", [9574]); ("boxHU;", [9577]); ("boxHd;", [9572]);
   ("boxHu;", [9575]); ("boxUL;", [9565]); ("boxUR;", [9562]);
   ("boxUl;", [9564]); ("boxUr;", [9561]); ("boxV;", [9553]);
   ("boxVH;", [9580]); ("boxVL;", [9571]); ("boxVR;", [9568]);
   ("boxVh;", [9579]); ("boxVl;", [9570]); ("boxVr;", [9567]);
   ("boxbox;", [10697]); ("boxdL;", [9557]); ("boxdR;", [9554]);
   ("boxdl;", [9488]); ("boxdr;", [9484]); ("boxh;", [9472]);
   ("boxhD;", [9573]); ("boxhU;", [9576]); ("boxhd;", [9516]);
   ("boxhu;", [9524]); ("boxminus;", [8863]); ("boxplus;", [8862]);
   ("boxtimes;", [8864]); ("boxuL;", [9563]); ("boxuR;", [9560]);
   ("boxul;", [9496]); ("boxur;", [9492]); ("boxv;", [9474]);
   ("boxvH;", [9578]); ("boxvL;", [9569]); ("boxvR;", [9566]);
   ("boxvh;", [9532]); ("boxvl;", [9508]); ("boxvr;", [9500]);
   ("bprime;", [8245]); ("breve;", [728]); ("brvbar", [166]);
   ("brvbar;", [166]); ("bscr;", [119991]); ("bsemi;", [8271]);
   ("bsim;", [8765]); ("bsime;", [8909]); ("bsol;", [92]);
   ("bsolb;", [10693]); ("bsolhsub;", [10184]); ("bull;", [8226]);
   ("bullet;", [8226]); ("bump;", [8782]); ("bumpE;", [10926]);
   ("bumpe;", [8783]); ("bumpeq;", [8783]); ("cacute;", [263]);
   ("cap;", [8745]); ("capand;", [10820]); ("capbrcup;", [10825]);
   ("capcap;", [10827]); ("capcup;", [10823]); ("capdot;", [10816]);
   ("caps;", [8745; 65024]); ("caret;", [8257]); ("caron;", [711]);
   ("ccaps;", [10829]); ("ccaron;", [269]); ("ccedil", [231]);
   ("ccedil;", [231]); ("ccirc;", [265]); ("ccups;", [10828]);
   ("ccupssm;", [10832]); ("cdot;", [267]); ("cedil", [184]);
   ("cedil;", [184]); ("cemptyv;", [10674]); ("cent", [162]);
   ("cent;", [162]); ("centerdot;", [183]); ("cfr;", [120096]);
   ("chcy;", [1095]); ("check;", [10003]); ("checkmark;", [10003]);
   ("chi;", [967]); ("cir;", [9675]); ("cirE;", [10691]); ("circ;", [710]);
   ("circeq;", [8791]); ("circlearrowleft;", [8634]);
   ("circlearrowright;", [8635]); ("circledR;", [174]); ("circledS;", [9416]);
   ("circledast;", [8859]); ("circledcirc;", [8858]);
   ("circleddash;", [8861]); ("cire;", [8791]); ("cirfnint;", [10768]);
   ("cirmid;", [10991]); ("cirscir;", [10690]); ("clubs;", [9827]);
   ("clubsuit;", [9827]); ("colon;", [58]); ("colone;", [8788]);
   ("coloneq;", [8788]); ("comma;", [44]); ("commat;", [64]);
   ("comp;", [8705]); ("compfn;", [8728]); ("complement;", [8705]);
   ("complexes;", [8450]); ("cong;", [8773]); ("congdot;", [10861]);
   ("conint;", [8750]); ("copf;", [120148]); ("coprod;", [8720]);
   ("copy", [169]); ("copy;", [169]); ("copysr;", [8471]); ("crarr;", [8629]);
   ("cross;", [10007]); ("cscr;", [119992]); ("csub;", [10959]);
   ("csube;", [10961]); ("csup;", [10960]); ("csupe;", [10962]);
   ("ctdot;", [8943]); ("cudarrl;", [10552]); ("cudarrr;", [10549]);
   ("cuepr;", [8926]); ("cuesc;", [8927]); ("cularr;", [8630]);
   ("cularrp;", [10557]); ("cup;", [8746]); ("cupbrcap;", [10824]);
   ("cupcap;", [10822]); ("cupcup;", [10826]); ("cupdot;", [8845]);
   ("cupor;", [10821]); ("cups;", [8746; 65024]); ("curarr;", [8631]);
   ("curarrm;", [10556]); ("curlyeqprec;", [8926]); ("curlyeqsucc;", [8927]);
   ("curlyvee;", [8910]); ("curlywedge;", [8911]); ("curren", [164]);
   ("curren;", [164]); ("curvearrowleft;", [8630]);
   ("curvearrowright;", [8631]); ("cuvee;", [8910]); ("cuwed;", [8911]);
   ("cwconint;", [8754]); ("cwint;", [8753]); ("cylcty;", [9005]);
   ("dArr;", [8659]); ("dHar;", [10597]); ("dagger;", [8224]);
   ("daleth;", [8504]); ("darr;", [8595]); ("dash;", [8208]);
   ("dashv;", [8867]); ("dbkarow;", [10511]); ("dblac;", [733]);
   ("dcaron;", [271]); ("dcy;", [1076]); ("dd;", [8518]);
   ("ddagger;", [8225]); ("ddarr;", [8650]); ("ddotseq;", [10871]);
   ("deg", [176]); ("deg;", [176]); ("delta;", [948]); ("demptyv;", [10673]);
   ("dfisht;", [10623]); ("dfr;", [120097]); ("dharl;", [8643]);
   ("dharr;", [8642]); ("diam;", [8900]); ("diamond;", [8900]);
   ("diamondsuit;", [9830]); ("diams;", [9830]); ("die;", [168]);
   ("digamma;", [989]); ("disin;", [8946]); ("div;", [247]);
   ("divide", [247]); ("divide;", [247]); ("divideontimes;", [8903]);
   ("divonx;", [8903]); ("djcy;", [1106]); ("dlcorn;", [8990]);
   ("dlcrop;", [8973]); ("dollar;", [36]); ("dopf;", [120149]);
   ("dot;", [729]); ("doteq;", [8784]); ("doteqdot;", [8785]);
   ("dotminus;", [8760]); ("dotplus;", [8724]); ("dotsquare;", [8865]);
   ("doublebarwedge;", [8966]); ("downarrow;", [8595]);
   ("downdownarrows;", [8650]); ("downharpoonleft;", [8643]);
   ("downharpoonright;", [8642]); ("drbkarow;", [10512]); ("drcorn;", [8991]);
   ("drcrop;", [8972]); ("dscr;", [119993]); ("dscy;", [1109]);
   ("dsol;", [10742]); ("dstrok;", [273]); ("dtdot;", [8945]);
   ("dtri;", [9663]); ("dtrif;", [9662]); ("duarr;", [8693]);
   ("duhar;", [10607]); ("dwangle;", [10662]); ("dzcy;", [1119]);
   ("dzigrarr;", [10239]); ("eDDot;", [10871]); ("eDot;", [8785]);
   ("eacute", [233]); ("eacute;", [233]); ("easter;", [10862]);
   ("ecaron;", [283]); ("ecir;", [8790]); ("ecirc", [234]); ("ecirc;", [234]);
   ("ecolon;", [8789]); ("ecy;", [1101]); ("edot;", [279]); ("ee;", [8519]);
   ("efDot;", [8786]); ("efr;", [120098]); ("eg;", [10906]);
   ("egrave", [232]); ("egrave;", [232]); ("egs;", [10902]);
   ("egsdot;", [10904]); ("el;", [10905]); ("elinters;", [9191]);
   ("ell;", [8467]); ("els;", [10901]); ("elsdot;", [10903]);
   ("emacr;", [275]); ("empty;", [8709]); ("emptyset;", [8709]);
   ("emptyv;", [8709]); ("emsp13;", [8196]); ("emsp14;", [8197]);
   ("emsp;", [8195]); ("eng;", [331]); ("ensp;", [8194]); ("eogon;", [281]);
   ("eopf;", [120150]); ("epar;", [8917]); ("eparsl;", [10723]);
   ("eplus;", [10865]); ("epsi;", [949]); ("epsilon;", [949]);
   ("epsiv;", [1013]); ("eqcirc;", [8790]); ("eqcolon;", [8789]);
   ("eqsim;", [8770]); ("eqslantgtr;", [10902]); ("eqslantless;", [10901]);
   ("equals;", [61]); ("equest;", [8799]); ("equiv;", [8801]);
   ("equivDD;", [10872]); ("eqvparsl;", [10725]); ("erDot;", [8787]);
   ("erarr;", [10609]); ("escr;", [8495]); ("esdot;", [8784]);
   ("esim;", [8770]); ("eta;", [951]); ("eth", [240]); ("eth;", [240]);
   ("euml", [235]); ("euml;", [235]); ("euro;", [8364]); ("excl;", [33]);
   ("exist;", [8707]); ("expectation;", [8496]); ("exponentiale;", [8519]);
   ("fallingdotseq;", [8786]); ("fcy;", [1092]); ("female;", [9792]);
   ("ffilig;", [64259]); ("fflig;", [64256]); ("ffllig;", [64260]);
   ("ffr;", [120099]); ("filig;", [64257]); ("fjlig;", [102; 106]);
   ("flat;", [9837]); ("fllig;", [64258]); ("fltns;", [9649]);
   ("fnof;", [402]); ("fopf;", [120151]); ("forall;", [8704]);
   ("fork;", [8916]); ("forkv;", [10969]); ("fpartint;", [10765]);
   ("frac12", [189]); ("frac12;", [189]); ("frac13;", [8531]);
   ("frac14", [188]); ("frac14;", [188]); ("frac15;", [8533]);
   ("frac16;", [8537]); ("frac18;", [8539]); ("frac23;", [8532]);
   ("frac25;", [8534]); ("frac34", [190]); ("frac34;", [190]);
   ("frac35;", [8535]); ("frac38;", [8540]); ("frac45;", [8536]);
   ("frac56;", [8538]); ("frac58;", [8541]); ("frac78;", [8542]);
   ("frasl;", [8260]); ("frown;", [8994]); ("fscr;", [119995]);
   ("gE;", [8807]); ("gEl;", [10892]); ("gacute;", [501]); ("gamma;", [947]);
   ("gammad;", [989]); ("gap;", [10886]); ("gbreve;", [287]);
   ("gcirc;", [285]); ("gcy;", [1075]); ("gdot;", [289]); ("ge;", [8805]);
   ("gel;", [8923]); ("geq;", [8805]); ("geqq;", [8807]);
   ("geqslant;", [10878]); ("ges;", [10878]); ("gescc;", [10921]);
   ("gesdot;", [10880]); ("gesdoto;", [10882]); ("gesdotol;", [10884]);
   ("gesl;", [8923; 65024]); ("gesles;", [10900]); ("gfr;", [120100]);
   ("gg;", [8811]); ("ggg;", [8921]); ("gimel;", [8503]); ("gjcy;", [1107]);
   ("gl;", [8823]); ("glE;", [10898]); ("gla;", [10917]); ("glj;", [10916]);
   ("gnE;", [8809]); ("gnap;", [10890]); ("gnapprox;", [10890]);
   ("gne;", [10888]); ("gneq;", [10888]); ("gneqq;", [8809]);
   ("gnsim;", [8935]); ("gopf;", [120152]); ("grave;", [96]);
   ("gscr;", [8458]); ("gsim;", [8819]); ("gsime;", [10894]);
   ("gsiml;", [10896]); ("gt", [62]); ("gt;", [62]); ("gtcc;", [10919]);
   ("gtcir;", [10874]); ("gtdot;", [8919]); ("gtlPar;", [10645]);
   ("gtquest;", [10876]); ("gtrapprox;", [10886]); ("gtrarr;", [10616]);
   ("gtrdot;", [8919]); ("gtreqless;", [8923]); ("gtreqqless;", [10892]);
   ("gtrless;", [8823]); ("gtrsim;", [8819]); ("gvertneqq;", [8809; 65024]);
   ("gvnE;", [8809; 65024]); ("hArr;", [8660]); ("hairsp;", [8202]);
   ("half;", [189]); ("hamilt;", [8459]); ("hardcy;", [1098]);
   ("harr;", [8596]); ("harrcir;", [10568]); ("harrw;", [8621]);
   ("hbar;", [8463]); ("hcirc;", [293]); ("hearts;", [9829]);
   ("heartsuit;", [9829]); ("hellip;", [8230]); ("hercon;", [8889]);
   ("hfr;", [120101]); ("hksearow;", [10533]); ("hkswarow;", [10534]);
   ("hoarr;", [8703]); ("homtht;", [8763]); ("hookleftarrow;", [8617]);
   ("hookrightarrow;", [8618]); ("hopf;", [120153]); ("horbar;", [8213]);
   ("hscr;", [119997]); ("hslash;", [8463]); ("hstrok;", [295]);
   ("hybull;", [8259]); ("hyphen;", [8208]); ("iacute", [237]);
   ("iacute;", [237]); ("ic;", [8291]); ("icirc", [238]); ("icirc;", [238]);
   ("icy;", [1080]); ("iecy;", [1077]); ("iexcl", [161]); ("iexcl;", [161]);
   ("iff;", [8660]); ("ifr;", [120102]); ("igrave", [236]);
   ("igrave;", [236]); ("ii;", [8520]); ("iiiint;", [10764]);
   ("iiint;", [8749]); ("iinfin;", [10716]); ("iiota;", [8489]);
   ("ijlig;", [307]); ("imacr;", [299]); ("image;", [8465]);
   ("imagline;", [8464]); ("imagpart;", [8465]); ("imath;", [305]);
   ("imof;", [8887]); ("imped;", [437]); ("in;", [8712]); ("incare;", [8453]);
   ("infin;", [8734]); ("infintie;", [10717]); ("inodot;", [305]);
   ("int;", [8747]); ("intcal;", [8890]); ("integers;", [8484]);
   ("intercal;", [8890]); ("intlarhk;", [10775]); ("intprod;", [10812]);
   ("iocy;", [1105]); ("iogon;", [303]); ("iopf;", [120154]);
   ("iota;", [953]); ("iprod;", [10812]); ("iquest", [191]);
   ("iquest;", [191]); ("iscr;", [119998]); ("isin;", [8712]);
   ("isinE;", [8953]); ("isindot;", [8949]); ("isins;", [8948]);
   ("isinsv;", [8947]); ("isinv;", [8712]); ("it;", [8290]);
   ("itilde;", [297]); ("iukcy;", [1110]); ("iuml", [239]); ("iuml;", [239]);
   ("jcirc;", [309]); ("jcy;", [1081]); ("jfr;", [120103]); ("jmath;", [567]);
   ("jopf;", [120155]); ("jscr;", [119999]); ("jsercy;", [1112]);
   ("jukcy;", [1108]); ("kappa;", [954]); ("kappav;", [1008]);
   ("kcedil;", [311]); ("kcy;", [1082]); ("kfr;", [120104]);
   ("kgreen;", [312]); ("khcy;", [1093]); ("kjcy;", [1116]);
   ("kopf;", [120156]); ("kscr;", [120000]); ("lAarr;", [8666]);
   ("lArr;", [8656]); ("lAtail;", [10523]); ("lBarr;", [10510]);
   ("lE;", [8806]); ("lEg;", [10891]); ("lHar;", [10594]); ("lacute;", [314]);
   ("laemptyv;", [10676]); ("lagran;", [8466]); ("lambda;", [955]);
   ("lang;", [10216]); ("langd;", [10641]); ("langle;", [10216]);
   ("lap;", [10885]); ("laquo", [171]); ("laquo;", [171]); ("larr;", [8592]);
   ("larrb;", [8676]); ("larrbfs;", [10527]); ("larrfs;", [10525]);
   ("larrhk;", [8617]); ("larrlp;", [8619]); ("larrpl;", [10553]);
   ("larrsim;", [10611]); ("larrtl;", [8610]); ("lat;", [10923]);
   ("latail;", [10521]); ("late;", [10925]); ("lates;", [10925; 65024]);
   ("lbarr;", [10508]); ("lbbrk;", [10098]); ("lbrace;", [123]);
   ("lbrack;", [91]); ("lbrke;", [10635]); ("lbrksld;", [10639]);
   ("lbrkslu;", [10637]); ("lcaron;", [318]); ("lcedil;", [316]);
   ("lceil;", [8968]); ("lcub;", [123]); ("lcy;", [1083]); ("ldca;", [10550]);
   ("ldquo;", [8220]); ("ldquor;", [8222]); ("ldrdhar;", [10599]);
   ("ldrushar;", [10571]); ("ldsh;", [8626]); ("le;", [8804]);
   ("leftarrow;", [8592]); ("leftarrowtail;", [8610]);
   ("leftharpoondown;", [8637]); ("leftharpoonup;", [8636]);
   ("leftleftarrows;", [8647]); ("leftrightarrow;", [8596]);
   ("leftrightarrows;", [8646]); ("leftrightharpoons;", [8651]);
   ("leftrightsquigarrow;", [8621]); ("leftthreetimes;", [8907]);
   ("leg;", [8922]); ("leq;", [8804]); ("leqq;", [8806]);
   ("leqslant;", [10877]); ("les;", [10877]); ("lescc;", [10920]);
   ("lesdot;", [10879]); ("lesdoto;", [10881]); ("lesdotor;", [10883]);
   ("lesg;", [8922; 65024]); ("lesges;", [10899]); ("lessapprox;", [10885]);
   ("lessdot;", [8918]); ("lesseqgtr;", [8922]); ("lesseqqgtr;", [10891]);
   ("lessgtr;", [8822]); ("lesssim;", [8818]); ("lfisht;", [10620]);
   ("lfloor;", [8970]); ("lfr;", [120105]); ("lg;", [8822]);
   ("lgE;", [10897]); ("lhard;", [8637]); ("lharu;", [8636]);
   ("lharul;", [10602]); ("lhblk;", [9604]); ("ljcy;", [1113]);
   ("ll;", [8810]); ("llarr;", [8647]); ("llcorner;", [8990]);
   ("llhard;", [10603]); ("lltri;", [9722]); ("lmidot;", [320]);
   ("lmoust;", [9136]); ("lmoustache;", [9136]); ("lnE;", [8808]);
   ("lnap;", [10889]); ("lnapprox;", [10889]); ("lne;", [10887]);
   ("lneq;", [10887]); ("lneqq;", [8808]); ("lnsim;", [8934]);
   ("loang;", [10220]); ("loarr;", [8701]); ("lobrk;", [10214]);
   ("longleftarrow;", [10229]); ("longleftrightarrow;", [10231]);
   ("longmapsto;", [10236]); ("longrightarrow;", [10230]);
   ("looparrowleft;", [8619]); ("looparrowright;", [8620]);
   ("lopar;", [10629]); ("lopf;", [120157]); ("loplus;", [10797]);
   ("lotimes;", [10804]); ("lowast;", [8727]); ("lowbar;", [95]);
   ("loz;", [9674]); ("lozenge;", [9674]); ("lozf;", [10731]);
   ("lpar;", [40]); ("lparlt;", [10643]); ("lrarr;", [8646]);
   ("lrcorner;", [8991]); ("lrhar;", [8651]); ("lrhard;", [10605]);
   ("lrm;", [8206]); ("lrtri;", [8895]); ("lsaquo;", [8249]);
   ("lscr;", [120001]); ("lsh;", [8624]); ("lsim;", [8818]);
   ("lsime;", [10893]); ("lsimg;", [10895]); ("lsqb;", [91]);
   ("lsquo;", [8216]); ("lsquor;", [8218]); ("lstrok;", [322]); ("lt", [60]);
   ("lt;", [60]); ("ltcc;", [10918]); ("ltcir;", [10873]); ("ltdot;", [8918]);
   ("lthree;", [8907]); ("ltimes;", [8905]); ("ltlarr;", [10614]);
   ("ltquest;", [10875]); ("ltrPar;", [10646]); ("ltri;", [9667]);
   ("ltrie;", [8884]); ("ltrif;", [9666]); ("lurdshar;", [10570]);
   ("luruhar;", [10598]); ("lvertneqq;", [8808; 65024]);
   ("lvnE;", [8808; 65024]); ("mDDot;", [8762]); ("macr", [175]);
   ("macr;", [175]); ("male;", [9794]); ("malt;", [10016]);
   ("maltese;", [10016]); ("map;", [8614]); ("mapsto;", [8614]);
   ("mapstodown;", [8615]); ("mapstoleft;", [8612]); ("mapstoup;", [8613]);
   ("marker;", [9646]); ("mcomma;", [10793]); ("mcy;", [1084]);
   ("mdash;", [8212]); ("measuredangle;", [8737]); ("mfr;", [120106]);
   ("mho;", [8487]); ("micro", [181]); ("micro;", [181]); ("mid;", [8739]);
   ("midast;", [42]); ("midcir;", [10992]); ("middot", [183]);
   ("middot;", [183]); ("minus;", [8722]); ("minusb;", [8863]);
   ("minusd;", [8760]); ("minusdu;", [10794]); ("mlcp;", [10971]);
   ("mldr;", [8230]); ("mnplus;", [8723]); ("models;", [8871]);
   ("mopf;", [120158]); ("mp;", [8723]); ("mscr;", [120002]);
   ("mstpos;", [8766]); ("mu;", [956]); ("multimap;", [8888]);
   ("mumap;", [8888]); ("nGg;", [8921; 824]); ("nGt;", [8811; 8402]);
   ("nGtv;", [8811; 824]); ("nLeftarrow;", [8653]);
   ("nLeftrightarrow;", [8654]); ("nLl;", [8920; 824]);
   ("nLt;", [8810; 8402]); ("nLtv;", [8810; 824]); ("nRightarrow;", [8655]);
   ("nVDash;", [8879]); ("nVdash;", [8878]); ("nabla;", [8711]);
   ("nacute;", [324]); ("nang;", [8736; 8402]); ("nap;", [8777]);
   ("napE;", [10864; 824]); ("napid;", [8779; 824]); ("napos;", [329]);
   ("napprox;", [8777]); ("natur;", [9838]); ("natural;", [9838]);
   ("naturals;", [8469]); ("nbsp", [160]); ("nbsp;", [160]);
   ("nbump;", [8782; 824]); ("nbumpe;", [8783; 824]); ("ncap;", [10819]);
   ("ncaron;", [328]); ("ncedil;", [326]); ("ncong;", [8775]);
   ("ncongdot;", [10861; 824]); ("ncup;", [10818]); ("ncy;", [1085]);
   ("ndash;", [8211]); ("ne;", [8800]); ("neArr;", [8663]);
   ("nearhk;", [10532]); ("nearr;", [8599]); ("nearrow;", [8599]);
   ("nedot;", [8784; 824]); ("nequiv;", [8802]); ("nesear;", [10536]);
   ("nesim;", [8770; 824]); ("nexist;", [8708]); ("nexists;", [8708]);
   ("nfr;", [120107]); ("ngE;", [8807; 824]); ("nge;", [8817]);
   ("ngeq;", [8817]); ("ngeqq;", [8807; 824]); ("ngeqslant;", [10878; 824]);
   ("nges;", [10878; 824]); ("ngsim;", [8821]); ("ngt;", [8815]);
   ("ngtr;", [8815]); ("nhArr;", [8654]); ("nharr;", [8622]);
   ("nhpar;", [10994]); ("ni;", [8715]); ("nis;", [8956]); ("nisd;", [8954]);
   ("niv;", [8715]); ("njcy;", [1114]); ("nlArr;", [8653]);
   ("nlE;", [8806; 824]); ("nlarr;", [8602]); ("nldr;", [8229]);
   ("nle;", [8816]); ("nleftarrow;", [8602]); ("nleftrightarrow;", [8622]);
   ("nleq;", [8816]); ("nleqq;", [8806; 824]); ("nleqslant;", [10877; 824]);
   ("nles;", [10877; 824]); ("nless;", [8814]); ("nlsim;", [8820]);
   ("nlt;", [8814]); ("nltri;", [8938]); ("nltrie;", [8940]);
   ("nmid;", [8740]); ("nopf;", [120159]); ("not", [172]); ("not;", [172]);
   ("notin;", [8713]); ("notinE;", [8953; 824]); ("notindot;", [8949; 824]);
   ("notinva;", [8713]); ("notinvb;", [8951]); ("notinvc;", [8950]);
   ("notni;", [8716]); ("notniva;", [8716]); ("notnivb;", [8958]);
   ("notnivc;", [8957]); ("npar;", [8742]); ("nparallel;", [8742]);
   ("nparsl;", [11005; 8421]); ("npart;", [8706; 824]); ("npolint;", [10772]);
   ("npr;", [8832]); ("nprcue;", [8928]); ("npre;", [10927; 824]);
   ("nprec;", [8832]); ("npreceq;", [10927; 824]); ("nrArr;", [8655]);
   ("nrarr;", [8603]); ("nrarrc;", [10547; 824]); ("nrarrw;", [8605; 824]);
   ("nrightarrow;", [8603]); ("nrtri;", [8939]); ("nrtrie;", [8941]);
   ("nsc;", [8833]); ("nsccue;", [8929]); ("nsce;", [10928; 824]);
   ("nscr;", [120003]); ("nshortmid;", [8740]); ("nshortparallel;", [8742]);
   ("nsim;", [8769]); ("nsime;", [8772]); ("nsimeq;", [8772]);
   ("nsmid;", [8740]); ("nspar;", [8742]); ("nsqsube;", [8930]);
   ("nsqsupe;", [8931]); ("nsub;", [8836]); ("nsubE;", [10949; 824]);
   ("nsube;", [8840]); ("nsubset;", [8834; 8402]); ("nsubseteq;", [8840]);
   ("nsubseteqq;", [10949; 824]); ("nsucc;", [8833]);
   ("nsucceq;", [10928; 824]); ("nsup;", [8837]); ("nsupE;", [10950; 824]);
   ("nsupe;", [8841]); ("nsupset;", [8835; 8402]); ("nsupseteq;", [8841]);
   ("nsupseteqq;", [10950; 824]); ("ntgl;", [8825]); ("ntilde", [241]);
   ("ntilde;", [241]); ("ntlg;", [8824]); ("ntriangleleft;", [8938]);
   ("ntrianglelefteq;", [8940]); ("ntriangleright;", [8939]);
   ("ntrianglerighteq;", [8941]); ("nu;", [957]); ("num;", [35]);
   ("numero;", [8470]); ("numsp;", [8199]); ("nvDash;", [8877]);
   ("nvHarr;", [10500]); ("nvap;", [8781; 8402]); ("nvdash;", [8876]);
   ("nvge;", [8805; 8402]); ("nvgt;", [62; 8402]); ("nvinfin;", [10718]);
   ("nvlArr;", [10498]); ("nvle;", [8804; 8402]); ("nvlt;", [60; 8402]);
   ("nvltrie;", [8884; 8402]); ("nvrArr;", [10499]);
   ("nvrtrie;", [8885; 8402]); ("nvsim;", [8764; 8402]); ("nwArr;", [8662]);
   ("nwarhk;", [10531]); ("nwarr;", [8598]); ("nwarrow;", [8598]);
   ("nwnear;", [10535]); ("oS;", [9416]); ("oacute", [243]);
   ("oacute;", [243]); ("oast;", [8859]); ("ocir;", [8858]); ("ocirc", [244]);
   ("ocirc;", [244]); ("ocy;", [1086]); ("odash;", [8861]);
   ("odblac;", [337]); ("odiv;", [10808]); ("odot;", [8857]);
   ("odsold;", [10684]); ("oelig;", [339]); ("ofcir;", [10687]);
   ("ofr;", [120108]); ("ogon;", [731]); ("ograve", [242]);
   ("ograve;", [242]); ("ogt;", [10689]); ("ohbar;", [10677]);
   ("ohm;", [937]); ("oint;", [8750]); ("olarr;", [8634]);
   ("olcir;", [10686]); ("olcross;", [10683]); ("oline;", [8254]);
   ("olt;", [10688]); ("omacr;", [333]); ("omega;", [969]);
   ("omicron;", [959]); ("omid;", [10678]); ("ominus;", [8854]);
   ("oopf;", [120160]); ("opar;", [10679]); ("operp;", [10681]);
   ("oplus;", [8853]); ("or;", [8744]); ("orarr;", [8635]); ("ord;", [10845]);
   ("order;", [8500]); ("orderof;", [8500]); ("ordf", [170]);
   ("ordf;", [170]); ("ordm", [186]); ("ordm;", [186]); ("origof;", [8886]);
   ("oror;", [10838]); ("orslope;", [10839]); ("orv;", [10843]);
   ("oscr;", [8500]); ("oslash", [248]); ("oslash;", [248]);
   ("osol;", [8856]); ("otilde", [245]); ("otilde;", [245]);
   ("otimes;", [8855]); ("otimesas;", [10806]); ("ouml", [246]);
   ("ouml;", [246]); ("ovbar;", [9021]); ("par;", [8741]); ("para", [182]);
   ("para;", [182]); ("parallel;", [8741]); ("parsim;", [10995]);
   ("parsl;", [11005]); ("part;", [8706]); ("pcy;", [1087]);
   ("percnt;", [37]); ("period;", [46]); ("permil;", [8240]);
   ("perp;", [8869]); ("pertenk;", [8241]); ("pfr;", [120109]);
   ("phi;", [966]); ("phiv;", [981]); ("phmmat;", [8499]); ("phone;", [9742]);
   ("pi;", [960]); ("pitchfork;", [8916]); ("piv;", [982]);
   ("planck;", [8463]); ("planckh;", [8462]); ("plankv;", [8463]);
   ("plus;", [43]); ("plusacir;", [10787]); ("plusb;", [8862]);
   ("pluscir;", [10786]); ("plusdo;", [8724]); ("plusdu;", [10789]);
   ("pluse;", [10866]); ("plusmn", [177]); ("plusmn;", [177]);
   ("plussim;", [10790]); ("plustwo;", [10791]); ("pm;", [177]);
   ("pointint;", [10773]); ("popf;", [120161]); ("pound", [163]);
   ("pound;", [163]); ("pr;", [8826]); ("prE;", [10931]); ("prap;", [10935]);
   ("prcue;", [8828]); ("pre;", [10927]); ("prec;", [8826]);
   ("precapprox;", [10935]); ("preccurlyeq;", [8828]); ("preceq;", [10927]);
   ("precnapprox;", [10937]); ("precneqq;", [10933]); ("precnsim;", [8936]);
   ("precsim;", [8830]); ("prime;", [8242]); ("primes;", [8473]);
   ("prnE;", [10933]); ("prnap;", [10937]); ("prnsim;", [8936]);
   ("prod;", [8719]); ("profalar;", [9006]); ("profline;", [8978]);
   ("profsurf;", [8979]); ("prop;", [8733]); ("propto;", [8733]);
   ("prsim;", [8830]); ("prurel;", [8880]); ("pscr;", [120005]);
   ("psi;", [968]); ("puncsp;", [8200]); ("qfr;", [120110]);
   ("qint;", [10764]); ("qopf;", [120162]); ("qprime;", [8279]);
   ("qscr;", [120006]); ("quaternions;", [8461]); ("quatint;", [10774]);
   ("quest;", [63]); ("questeq;", [8799]); ("quot", [34]); ("quot;", [34]);
   ("rAarr;", [8667]); ("rArr;", [8658]); ("rAtail;", [10524]);
   ("rBarr;", [10511]); ("rHar;", [10596]); ("race;", [8765; 817]);
   ("racute;", [341]); ("radic;", [8730]); ("raemptyv;", [10675]);
   ("rang;", [10217]); ("rangd;", [10642]); ("range;", [10661]);
   ("rangle;", [10217]); ("raquo", [187]); ("raquo;", [187]);
   ("rarr;", [8594]); ("rarrap;", [10613]); ("rarrb;", [8677]);
   ("rarrbfs;", [10528]); ("rarrc;", [10547]); ("rarrfs;", [10526]);
   ("rarrhk;", [8618]); ("rarrlp;", [8620]); ("rarrpl;", [10565]);
   ("rarrsim;", [10612]); ("rarrtl;", [8611]); ("rarrw;", [8605]);
   ("ratail;", [10522]); ("ratio;", [8758]); ("rationals;", [8474]);
   ("rbarr;", [10509]); ("rbbrk;", [10099]); ("rbrace;", [125]);
   ("rbrack;", [93]); ("rbrke;", [10636]); ("rbrksld;", [10638]);
   ("rbrkslu;", [10640]); ("rcaron;", [345]); ("rcedil;", [343]);
   ("rceil;", [8969]); ("rcub;", [125]); ("rcy;", [1088]); ("rdca;", [10551]);
   ("rdldhar;", [10601]); ("rdquo;", [8221]); ("rdquor;", [8221]);
   ("rdsh;", [8627]); ("real;", [8476]); ("realine;", [8475]);
   ("realpart;", [8476]); ("reals;", [8477]); ("rect;", [9645]);
   ("reg", [174]); ("reg;", [174]); ("rfisht;", [10621]); ("rfloor;", [8971]);
   ("rfr;", [120111]); ("rhard;", [8641]); ("rharu;", [8640]);
   ("rharul;", [10604]); ("rho;", [961]); ("rhov;", [1009]);
   ("rightarrow;", [8594]); ("rightarrowtail;", [8611]);
   ("rightharpoondown;", [8641]); ("rightharpoonup;", [8640]);
   ("rightleftarrows;", [8644]); ("rightleftharpoons;", [8652]);
   ("rightrightarrows;", [8649]); ("rightsquigarrow;", [8605]);
   ("rightthreetimes;", [8908]); ("ring;", [730]); ("risingdotseq;", [8787]);
   ("rlarr;", [8644]); ("rlhar;", [8652]); ("rlm;", [8207]);
   ("rmoust;", [9137]); ("rmoustache;", [9137]); ("rnmid;", [10990]);
   ("roang;", [10221]); ("roarr;", [8702]); ("robrk;", [10215]);
   ("ropar;", [10630]); ("ropf;", [120163]); ("roplus;", [10798]);
   ("rotimes;", [10805]); ("rpar;", [41]); ("rpargt;", [10644]);
   ("rppolint;", [10770]); ("rrarr;", [8649]); ("rsaquo;", [8250]);
   ("rscr;", [120007]); ("rsh;", [8625]); ("rsqb;", [93]); ("rsquo;", [8217]);
   ("rsquor;", [8217]); ("rthree;", [8908]); ("rtimes;", [8906]);
   ("rtri;", [9657]); ("rtrie;", [8885]); ("rtrif;", [9656]);
   ("rtriltri;", [10702]); ("ruluhar;", [10600]); ("rx;", [8478]);
   ("sacute;", [347]); ("sbquo;", [8218]); ("sc;", [8827]); ("scE;", [10932]);
   ("scap;", [10936]); ("scaron;", [353]); ("sccue;", [8829]);
   ("sce;", [10928]); ("scedil;", [351]); ("scirc;", [349]);
   ("scnE;", [10934]); ("scnap;", [10938]); ("scnsim;", [8937]);
   ("scpolint;", [10771]); ("scsim;", [8831]); ("scy;", [1089]);
   ("sdot;", [8901]); ("sdotb;", [8865]); ("sdote;", [10854]);
   ("seArr;", [8664]); ("searhk;", [10533]); ("searr;", [8600]);
   ("searrow;", [8600]); ("sect", [167]); ("sect;", [167]); ("semi;", [59]);
   ("seswar;", [10537]); ("setminus;", [8726]); ("setmn;", [8726]);
   ("sext;", [10038]); ("sfr;", [120112]); ("sfrown;", [8994]);
   ("sharp;", [9839]); ("shchcy;", [1097]); ("shcy;", [1096]);
   ("shortmid;", [8739]); ("shortparallel;", [8741]); ("shy", [173]);
   ("shy;", [173]); ("sigma;", [963]); ("sigmaf;", [962]); ("sigmav;", [962]);
   ("sim;", [8764]); ("simdot;", [10858]); ("sime;", [8771]);
   ("simeq;", [8771]); ("simg;", [10910]); ("simgE;", [10912]);
   ("siml;", [10909]); ("simlE;", [10911]); ("simne;", [8774]);
   ("simplus;", [10788]); ("simrarr;", [10610]); ("slarr;", [8592]);
   ("smallsetminus;", [8726]); ("smashp;", [10803]); ("smeparsl;", [10724]);
   ("smid;", [8739]); ("smile;", [8995]); ("smt;", [10922]);
   ("smte;", [10924]); ("smtes;", [10924; 65024]); ("softcy;", [1100]);
   ("sol;", [47]); ("solb;", [10692]); ("solbar;", [9023]);
   ("sopf;", [120164]); ("spades;", [9824]); ("spadesuit;", [9824]);
   ("spar;", [8741]); ("sqcap;", [8851]); ("sqcaps;", [8851; 65024]);
   ("sqcup;", [8852]); ("sqcups;", [8852; 65024]); ("sqsub;", [8847]);
   ("sqsube;", [8849]); ("sqsubset;", [8847]); ("sqsubseteq;", [8849]);
   ("sqsup;", [8848]); ("sqsupe;", [8850]); ("sqsupset;", [8848]);
   ("sqsupseteq;", [8850]); ("squ;", [9633]); ("square;", [9633]);
   ("squarf;", [9642]); ("squf;", [9642]); ("srarr;", [8594]);
   ("sscr;", [120008]); ("ssetmn;", [8726]); ("ssmile;", [8995]);
   ("sstarf;", [8902]); ("star;", [9734]); ("starf;", [9733]);
   ("straightepsilon;", [1013]); ("straightphi;", [981]); ("strns;", [175]);
   ("sub;", [8834]); ("subE;", [10949]); ("subdot;", [10941]);
   ("sube;", [8838]); ("subedot;", [10947]); ("submult;", [10945]);
   ("subnE;", [10955]); ("subne;", [8842]); ("subplus;", [10943]);
   ("subrarr;", [10617]); ("subset;", [8834]); ("subseteq;", [8838]);
   ("subseteqq;", [10949]); ("subsetneq;", [8842]); ("subsetneqq;", [10955]);
   ("subsim;", [10951]); ("subsub;", [10965]); ("subsup;", [10963]);
   ("succ;", [8827]); ("succapprox;", [10936]); ("succcurlyeq;", [8829]);
   ("succeq;", [10928]); ("succnapprox;", [10938]); ("succneqq;", [10934]);
   ("succnsim;", [8937]); ("succsim;", [8831]); ("sum;", [8721]);
   ("sung;", [9834]); ("sup1", [185]); ("sup1;", [185]); ("sup2", [178]);
   ("sup2;", [178]); ("sup3", [179]); ("sup3;", [179]); ("sup;", [8835]);
   ("supE;", [10950]); ("supdot;", [10942]); ("supdsub;", [10968]);
   ("supe;", [8839]); ("supedot;", [10948]); ("suphsol;", [10185]);
   ("suphsub;", [10967]); ("suplarr;", [10619]); ("supmult;", [10946]);
   ("supnE;", [10956]); ("supne;", [8843]); ("supplus;", [10944]);
   ("supset;", [8835]); ("supseteq;", [8839]); ("supseteqq;", [10950]);
   ("supsetneq;", [8843]); ("supsetneqq;", [10956]); ("supsim;", [10952]);
   ("supsub;", [10964]); ("supsup;", [10966]); ("swArr;", [8665]);
   ("swarhk;", [10534]); ("swarr;", [8601]); ("swarrow;", [8601]);
   ("swnwar;", [10538]); ("szlig", [223]); ("szlig;", [223]);
   ("target;", [8982]); ("tau;", [964]); ("tbrk;", [9140]);
   ("tcaron;", [357]); ("tcedil;", [355]); ("tcy;", [1090]);
   ("tdot;", [8411]); ("telrec;", [8981]); ("tfr;", [120113]);
   ("there4;", [8756]); ("therefore;", [8756]); ("theta;", [952]);
   ("thetasym;", [977]); ("thetav;", [977]); ("thickapprox;", [8776]);
   ("thicksim;", [8764]); ("thinsp;", [8201]); ("thkap;", [8776]);
   ("thksim;", [8764]); ("thorn", [254]); ("thorn;", [254]);
   ("tilde;", [732]); ("times", [215]); ("times;", [215]);
   ("timesb;", [8864]); ("timesbar;", [10801]); ("timesd;", [10800]);
   ("tint;", [8749]); ("toea;", [10536]); ("top;", [8868]);
   ("topbot;", [9014]); ("topcir;", [10993]); ("topf;", [120165]);
   ("topfork;", [10970]); ("tosa;", [10537]); ("tprime;", [8244]);
   ("trade;", [8482]); ("triangle;", [9653]); ("triangledown;", [9663]);
   ("triangleleft;", [9667]); ("trianglelefteq;", [8884]);
   ("triangleq;", [8796]); ("triangleright;", [9657]);
   ("trianglerighteq;", [8885]); ("tridot;", [9708]); ("trie;", [8796]);
   ("triminus;", [10810]); ("triplus;", [10809]); ("trisb;", [10701]);
   ("tritime;", [10811]); ("trpezium;", [9186]); ("tscr;", [120009]);
   ("tscy;", [1094]); ("tshcy;", [1115]); ("tstrok;", [359]);
   ("twixt;", [8812]); ("twoheadleftarrow;", [8606]);
   ("twoheadrightarrow;", [8608]); ("uArr;", [8657]); ("uHar;", [10595]);
   ("uacute", [250]); ("uacute;", [250]); ("uarr;", [8593]);
   ("ubrcy;", [1118]); ("ubreve;", [365]); ("ucirc", [251]);
   ("ucirc;", [251]); ("ucy;", [1091]); ("udarr;", [8645]);
   ("udblac;", [369]); ("udhar;", [10606]); ("ufisht;", [10622]);
   ("ufr;", [120114]); ("ugrave", [249]); ("ugrave;", [249]);
   ("uharl;", [8639]); ("uharr;", [8638]); ("uhblk;", [9600]);
   ("ulcorn;", [8988]); ("ulcorner;", [8988]); ("ulcrop;", [8975]);
   ("ultri;", [9720]); ("umacr;", [363]); ("uml", [168]); ("uml;", [168]);
   ("uogon;", [371]); ("uopf;", [120166]); ("uparrow;", [8593]);
   ("updownarrow;", [8597]); ("upharpoonleft;", [8639]);
   ("upharpoonright;", [8638]); ("uplus;", [8846]); ("upsi;", [965]);
   ("upsih;", [978]); ("upsilon;", [965]); ("upuparrows;", [8648]);
   ("urcorn;", [8989]); ("urcorner;", [8989]); ("urcrop;", [8974]);
   ("uring;", [367]); ("urtri;", [9721]); ("uscr;", [120010]);
   ("utdot;", [8944]); ("utilde;", [361]); ("utri;", [9653]);
   ("utrif;", [9652]); ("uuarr;", [8648]); ("uuml", [252]); ("uuml;", [252]);
   ("uwangle;", [10663]); ("vArr;", [8661]); ("vBar;", [10984]);
   ("vBarv;", [10985]); ("vDash;", [8872]); ("vangrt;", [10652]);
   ("varepsilon;", [1013]); ("varkappa;", [1008]); ("varnothing;", [8709]);
   ("varphi;", [981]); ("varpi;", [982]); ("varpropto;", [8733]);
   ("varr;", [8597]); ("varrho;", [1009]); ("varsigma;", [962]);
   ("varsubsetneq;", [8842; 65024]); ("varsubsetneqq;", [10955; 65024]);
   ("varsupsetneq;", [8843; 65024]); ("varsupsetneqq;", [10956; 65024]);
   ("vartheta;", [977]); ("vartriangleleft;", [8882]);
   ("vartriangleright;", [8883]); ("vcy;", [1074]); ("vdash;", [8866]);
   ("vee;", [8744]); ("veebar;", [8891]); ("veeeq;", [8794]);
   ("vellip;", [8942]); ("verbar;", [124]); ("vert;", [124]);
   ("vfr;", [120115]); ("vltri;", [8882]); ("vnsub;", [8834; 8402]);
   ("vnsup;", [8835; 8402]); ("vopf;", [120167]); ("vprop;", [8733]);
   ("vrtri;", [8883]); ("vscr;", [120011]); ("vsubnE;", [10955; 65024]);
   ("vsubne;", [8842; 65024]); ("vsupnE;", [10956; 65024]);
   ("vsupne;", [8843; 65024]); ("vzigzag;", [10650]); ("wcirc;", [373]);
   ("wedbar;", [10847]); ("wedge;", [8743]); ("wedgeq;", [8793]);
   ("weierp;", [8472]); ("wfr;", [120116]); ("wopf;", [120168]);
   ("wp;", [8472]); ("wr;", [8768]); ("wreath;", [8768]); ("wscr;", [120012]);
   ("xcap;", [8898]); ("xcirc;", [9711]); ("xcup;", [8899]);
   ("xdtri;", [9661]); ("xfr;", [120117]); ("xhArr;", [10234]);
   ("xharr;", [10231]); ("xi;", [958]); ("xlArr;", [10232]);
   ("xlarr;", [10229]); ("xmap;", [10236]); ("xnis;", [8955]);
   ("xodot;", [10752]); ("xopf;", [120169]); ("xoplus;", [10753]);
   ("xotime;", [10754]); ("xrArr;", [10233]); ("xrarr;", [10230]);
   ("xscr;", [120013]); ("xsqcup;", [10758]); ("xuplus;", [10756]);
   ("xutri;", [9651]); ("xvee;", [8897]); ("xwedge;", [8896]);
   ("yacute", [253]); ("yacute;", [253]); ("yacy;", [1103]);
   ("ycirc;", [375]); ("ycy;", [1099]); ("yen", [165]); ("yen;", [165]);
   ("yfr;", [120118]); ("yicy;", [1111]); ("yopf;", [120170]);
   ("yscr;", [120014]); ("yucy;", [1102]); ("yuml", [255]); ("yuml;", [255]);
   ("zacute;", [378]); ("zcaron;", [382]); ("zcy;", [1079]); ("zdot;", [380]);
   ("zeetrf;", [8488]); ("zeta;", [950]); ("zfr;", [120119]);
   ("zhcy;", [1078]); ("zigrarr;", [8669]); ("zopf;", [120171]);
   ("zscr;", [120015]); ("zwj;", [8205]); ("zwnj;", [8204])]%N.

(** The longest name of the table that [s] begins with. *)
Definition longer (name : string) (best : option (string * list N)) : bool :=
  match best with
  | None => true
  | Some (found, _) => (String.length found <? String.length name)%nat
  end.

Definition namedReference (s : string) : option (string * list N) :=
  foldl (fun best entry =>
           if startsWith (fst entry) s && longer (fst entry) best
           then Some entry else best)
        None namedCharacterReferences.

Definition decimalDigit (c : ascii) : option N :=
  let n := N_of_ascii c in
  if ((48 <=? n) && (n <=? 57))%N then Some (n - 48)%N else None.

Definition hexDigit (c : ascii) : option N :=
  let n := N_of_ascii c in
  if ((48 <=? n) && (n <=? 57))%N then Some (n - 48)%N
  else if ((65 <=? n) && (n <=? 70))%N then Some (n - 55)%N
  else if ((97 <=? n) && (n <=? 102))%N then Some (n - 87)%N
  else None.

(** [readNumber digit base s acc len] reads the digits of a numeric
    reference and the semicolon after them when there is one; the result is
    the number and how many characters were read.  A reference has at
    least one digit. *)
Fixpoint readNumber (digit : ascii -> option N) (base : N) (s : string)
    (acc : N) (len : nat) : option (N * nat) :=
  match s with
  | EmptyString => if Nat.eqb len 0 then None else Some (acc, len)
  | String c rest =>
      match digit c with
      | Some d => readNumber digit base rest (base * acc + d)%N (S len)
      | None =>
          if Nat.eqb len 0 then None
          else if Ascii.eqb c ";" then Some (acc, S len)
          else Some (acc, len)
      end
  end.

(** The numbers 128 to 159 are read as Windows-1252. *)
Definition windows1252 : list (N * N) :=
  [(128, 8364); (130, 8218); (131, 402); (132, 8222); (133, 8230);
   (134, 8224); (135, 8225); (136, 710); (137, 8240); (138, 352);
   (139, 8249); (140, 338); (142, 381); (145, 8216); (146, 8217);
   (147, 8220); (148, 8221); (149, 8226); (150, 8211); (151, 8212);
   (152, 732); (153, 8482); (154, 353); (155, 8250); (156, 339);
   (158, 382); (159, 376)]%N.

(** The code point a numeric reference stands for: 0, the surrogates and
    the numbers beyond U+10FFFF give the replacement character. *)
Definition codePointOf (v : N) : N :=
  if (v =? 0)%N then 65533%N
  else if (1114111 <? v)%N then 65533%N
  else if ((55296 <=? v) && (v <=? 57343))%N then 65533%N
  else
    match List.find (fun entry => (fst entry =? v)%N) windows1252 with
    | Some entry => snd entry
    | None => v
    end.

(** The reference that starts right after an ampersand, if any: the text
    it stands for and the number of characters it spans after the
    ampersand. *)
Definition charRefAfterAmp (s : string) : option (string * nat) :=
  match s with
  | String "#" rest =>
      match rest with
      | String x digits =>
          if Ascii.eqb x "x" || Ascii.eqb x "X" then
            match readNumber hexDigit 16 digits 0%N 0%nat with
            | Some (v, n) => Some (utf8 (codePointOf v), S (S n))
            | None => None
            end
          else
            match readNumber decimalDigit 10 rest 0%N 0%nat with
            | Some (v, n) => Some (utf8 (codePointOf v), S n)
            | None => None
            end
      | EmptyString => None
      end
  | _ =>
      match namedReference s with
      | Some (name, codePoints) =>
          Some (utf8s codePoints, String.length name)
      | None => None
      end
  end.

(** The tokenizer walks the input once and emits character tokens; [skip]
    counts the characters of a reference that has just been replaced and
    [nul] is what U+0000 is replaced with.  An ampersand that starts no
    reference is text. *)
Fixpoint decodeFrom (nul : string) (skip : nat) (s : string) : string :=
  match s with
  | EmptyString => EmptyString
  | String c rest =>
      match skip with
      | S k => decodeFrom nul k rest
      | O =>
          if Ascii.eqb c "&" then
            match charRefAfterAmp rest with
            | Some (text, len) => text +:+ decodeFrom nul len rest
            | None => String c (decodeFrom nul 0 rest)
            end
          else if Ascii.eqb c NUL then nul +:+ decodeFrom nul 0 rest
          else String c (decodeFrom nul 0 rest)
      end
  end.

(** [txt.innerHTML = html; txt.value] on a [<textarea>]: the content of a
    [<textarea>] is tokenized as RCDATA, where no tag opens (the fragment
    has no end tag to close) and U+0000 becomes the replacement character;
    [value] normalises the newlines of the text. *)
Definition textareaValue (html : string) : string :=
  normalizeNewlines (decodeFrom replacement 0 (normalizeNewlines html)).

(** A character that opens a tag, a comment or a declaration when it
    follows [<]; before any other character, and at the end of the input,
    [<] is text. *)
Definition opensTag (c : ascii) : bool :=
  let n := N_of_ascii c in
  ((65 <=? n) && (n <=? 90))%N || ((97 <=? n) && (n <=? 122))%N
  || Ascii.eqb c "/" || Ascii.eqb c "!" || Ascii.eqb c "?".

(** [tagFree markup]: the markup opens no tag, so that its parse is a text
    (or nothing, for the empty text). *)
Fixpoint tagFree (markup : string) : bool :=
  match markup with
  | EmptyString => true
  | String c rest =>
      (if Ascii.eqb c "<" then
         match rest with
         | String next _ => negb (opensTag next)
         | EmptyString => true
         end
       else true)
      && tagFree rest
  end.

(** The text a [<button>] holds after [button.innerHTML = markup], for
    markup that opens no tag: the references are replaced and U+0000 is
    dropped.  Markup that opens a tag makes elements; the model does not
    cover it, and the statements that depend on what such a button shows or
    reads back exclude it by [tagFree]. *)
Definition parseText (markup : string) : string :=
  decodeFrom EmptyString 0 (normalizeNewlines markup).

Definition escapeChar (c : ascii) : string :=
  if Ascii.eqb c "&" then "&amp;"
  else if Ascii.eqb c "<" then "&lt;"
  else if Ascii.eqb c ">" then "&gt;"
  else String c EmptyString.

(** What reading [element.innerHTML] returns for an element whose only
    child is a text node: the text with [&], [<], [>] and the no-break
    space U+00A0 (the bytes 194 160) escaped. *)
Fixpoint serializeText (text : string) : string :=
  match text with
  | EmptyString => EmptyString
  | String c rest =>
      if Ascii.eqb c "194" then
        match rest with
        | String next rest' =>
            if Ascii.eqb next "160" then "&nbsp;" +:+ serializeText rest'
            else String c (serializeText rest)
        | EmptyString => String c EmptyString
        end
      else escapeChar c +:+ serializeText rest
  end.

(** Number to string, as in a template literal or [toString]. *)
Definition numberToString (z : Z) : string :=
  NilZero.string_of_int (Z.to_int z).

(** [markupFree s]: none of the characters the page escapes when it
    serialises a text ([&], [<], [>] and the no-break space) occurs in
    [s]. *)
Fixpoint markupFree (s : string) : bool :=
  match s with
  | EmptyString => true
  | String c rest =>
      negb (Ascii.eqb c "&") && negb (Ascii.eqb c "<")
        && negb (Ascii.eqb c ">")
        && (if Ascii.eqb c "194" then
              match rest with
              | String next _ => negb (Ascii.eqb next "160")
              | EmptyString => true
              end
            else true)
        && markupFree rest
  end.

(** [plainText s]: no ampersand occurs in [s]. *)
Fixpoint plainText (s : string) : bool :=
  match s with
  | EmptyString => true
  | String c rest => negb (Ascii.eqb c "&") && plainText rest
  end.

(** [nulFree s]: U+0000 does not occur in [s]. *)
Fixpoint nulFree (s : string) : bool :=
  match s with
  | EmptyString => true
  | String c rest => negb (Ascii.eqb c NUL) && nulFree rest
  end.

(** [normalized s]: neither U+000D nor U+0000 occurs in [s]; this is how
    every text is that a [<textarea>] returns. *)
Fixpoint normalized (s : string) : bool :=
  match s with
  | EmptyString => true
  | String c rest =>
      negb (Ascii.eqb c CR) && negb (Ascii.eqb c NUL) && normalized rest
  end.

End Dom.

(** ** [decodeHTML] (script.js 227-231)

    [txt.innerHTML = html; return txt.value] on a fresh [<textarea>]. *)
Definition decodeHTML (html : string) : string := Dom.textareaValue html.

(** ** Scoring constants (script.js 20-21) *)
Definition baseScorePerQuestion : Z := 1000.
Definition penaltyPerSecond : Z := 10.

(** [(Date.now() - questionStartTime) / 1000]: both instants are integral
    numbers of milliseconds, the quotient is a fraction of seconds. *)
Definition timeTaken (now questionStartTime : Z) : Q :=
  (inject_Z (now - questionStartTime) / inject_Z 1000)%Q.

(** [Math.max(baseScorePerQuestion - Math.floor(timeTaken) * penaltyPerSecond, 0)]
    (script.js 133). *)
Definition scoreForThisQuestion (timeTaken : Q) : Z :=
  Z.max (baseScorePerQuestion - Qfloor timeTaken * penaltyPerSecond) 0.

(** ** Data model *)

(** A record of [data.results] (script.js 74, 90-92, 112). *)
Record Question := mkQuestion {
  question : string;
  correct_answer : string;
  incorrect_answers : list string
}.

(** A record of [data.trivia_categories] (script.js 37-40). *)
Record Category := mkCategory {
  category_id : Z;
  category_name : string
}.

(** An [<option>] of [#category]. *)
Record OptionElement := mkOption {
  value : string;
  textContent : string
}.

(** The click listeners the script installs on children of [#answers]: the
    closure of line 119, which captures [question.correct_answer] and the
    shuffled [answers] (the button it also captures is the clicked child
    itself), and the restart listener of lines 187-191. *)
Inductive Listener :=
  | SelectAnswer (correctAnswer : string) (answers : list string)
  | RestartQuiz.

(** The children of an element are what the last assignment to it made
    them: the parse of the markup assigned to [innerHTML], or the single text
    node assigned through [innerText] or [textContent]. *)
Inductive Children :=
  | Markup (html : string)
  | TextNode (data : string).

(** The children are a text: a text was assigned, or markup that opens no
    tag.  What such an element shows and reads back is what [Module Dom]
    describes; an element that was assigned markup with tags holds
    elements, which are outside of the model. *)
Definition textual (children : Children) : bool :=
  match children with
  | Markup html => Dom.tagFree html
  | TextNode _ => true
  end.

(** The string the script assigned. *)
Definition assigned (children : Children) : string :=
  match children with
  | Markup html => html
  | TextNode data => data
  end.

(** The text the element shows, when its children are a text. *)
Definition textOf (children : Children) : string :=
  match children with
  | Markup html => Dom.parseText html
  | TextNode data => data
  end.

(** A [<button>] child of [#answers]: its children, the tokens of its
    [className], its [disabled] flag and its click listener. *)
Record Button := mkButton {
  children : Children;
  className : list string;
  disabled : bool;
  onclick : Listener
}.

(** Reading [button.innerHTML], when the children of the button are a
    text. *)
Definition innerHTML (b : Button) : string :=
  Dom.serializeText (textOf (children b)).

(** [style.display]. *)
Inductive Display := none | block.

(** What the presenter has put on screen so far, in order: the index of each
    question rendered by [displayQuestion] and the score of each results view
    rendered by [showResults].  This field is an observation of the page, the
    script does not read it. *)
Inductive Rendering :=
  | RenderedQuestion (index : nat)
  | RenderedResults (finalScore : Z).

(** The closure variables of lines 15-19, the elements of lines 2-12 as far
    as the handlers use them, and the browser state the handlers touch: the
    [HighScoreTrivia] item of [localStorage] (the integer its decimal string
    denotes), the number of pending [setTimeout] callbacks, the URLs
    requested with [fetch], the texts shown by [alert], and the exceptions no
    handler caught. *)
Record State := mkState {
  currentQuestions : list Question;
  score : Z;
  questionIndex : nat;
  highScore : Z;
  questionStartTime : Z;
  questionContainer : Children;
  answersContainer : list Button;
  resultContainer : string;
  progressContainer : string;
  currentScoreDisplay : string;
  highScoreDisplay : string;
  gameSetupDiv : Display;
  quizDiv : Display;
  categorySelect : list OptionElement;
  localStorage : option Z;
  timers : nat;
  requests : list string;
  alerts : list string;
  uncaught : list string;
  rendered : list Rendering
}.

(** Assignments to one variable or element. *)
Definition set_currentQuestions (v : list Question) (st : State) : State :=
  {| currentQuestions := v; score := score st;
     questionIndex := questionIndex st; highScore := highScore st;
     questionStartTime := questionStartTime st;
     questionContainer := questionContainer st;
     answersContainer := answersContainer st;
     resultContainer := resultContainer st;
     progressContainer := progressContainer st;
     currentScoreDisplay := currentScoreDisplay st;
     highScoreDisplay := highScoreDisplay st;
     gameSetupDiv := gameSetupDiv st; quizDiv := quizDiv st;
     categorySelect := categorySelect st; localStorage := localStorage st;
     timers := timers st; requests := requests st; alerts := alerts st;
     uncaught := uncaught st; rendered := rendered st |}.

Definition set_score (v : Z) (st : State) : State :=
  {| currentQuestions := currentQuestions st; score := v;
     questionIndex := questionIndex st; highScore := highScore st;
     questionStartTime := questionStartTime st;
     questionContainer := questionContainer st;
     answersContainer := answersContainer st;
     resultContainer := resultContainer st;
     progressContainer := progressContainer st;
     currentScoreDisplay := currentScoreDisplay st;
     highScoreDisplay := highScoreDisplay st;
     gameSetupDiv := gameSetupDiv st; quizDiv := quizDiv st;
     categorySelect := categorySelect st; localStorage := localStorage st;
     timers := timers st; requests := requests st; alerts := alerts st;
     uncaught := uncaught st; rendered := rendered st |}.

Definition set_questionIndex (v : nat) (st : State) : State :=
  {| currentQuestions := currentQuestions st; score := score st;
     questionIndex := v; highScore := highScore st;
     questionStartTime := questionStartTime st;
     questionContainer := questionContainer st;
     answersContainer := answersContainer st;
     resultContainer := resultContainer st;
     progressContainer := progressContainer st;
     currentScoreDisplay := currentScoreDisplay st;
     highScoreDisplay := highScoreDisplay st;
     gameSetupDiv := gameSetupDiv st; quizDiv := quizDiv st;
     categorySelect := categorySelect st; localStorage := localStorage st;
     timers := timers st; requests := requests st; alerts := alerts st;
     uncaught := uncaught st; rendered := rendered st |}.

Definition set_highScore (v : Z) (st : State) : State :=
  {| currentQuestions := currentQuestions st; score := score st;
     questionIndex := questionIndex st; highScore := v;
     questionStartTime := questionStartTime st;
     questionContainer := questionContainer st;
     answersContainer := answersContainer st;
     resultContainer := resultContainer st;
     progressContainer := progressContainer st;
     currentScoreDisplay := currentScoreDisplay st;
     highScoreDisplay := highScoreDisplay st;
     gameSetupDiv := gameSetupDiv st; quizDiv := quizDiv st;
     categorySelect := categorySelect st; localStorage := localStorage st;
     timers := timers st; requests := requests st; alerts := alerts st;
     uncaught := uncaught st; rendered := rendered st |}.

Definition set_questionStartTime (v : Z) (st : State) : State :=
  {| currentQuestions := currentQuestions st; score := score st;
     questionIndex := questionIndex st; highScore := highScore st;
     questionStartTime := v; questionContainer := questionContainer st;
     answersContainer := answersContainer st;
     resultContainer := resultContainer st;
     progressContainer := progressContainer st;
     currentScoreDisplay := currentScoreDisplay st;
     highScoreDisplay := highScoreDisplay st;
     gameSetupDiv := gameSetupDiv st; quizDiv := quizDiv st;
     categorySelect := categorySelect st; localStorage := localStorage st;
     timers := timers st; requests := requests st; alerts := alerts st;
     uncaught := uncaught st; rendered := rendered st |}.

Definition set_questionContainer (v : Children) (st : State) : State :=
  {| currentQuestions := currentQuestions st; score := score st;
     questionIndex := questionIndex st; highScore := highScore st;
     questionStartTime := questionStartTime st; questionContainer := v;
     answersContainer := answersContainer st;
     resultContainer := resultContainer st;
     progressContainer := progressContainer st;
     currentScoreDisplay := currentScoreDisplay st;
     highScoreDisplay := highScoreDisplay st;
     gameSetupDiv := gameSetupDiv st; quizDiv := quizDiv st;
     categorySelect := categorySelect st; localStorage := localStorage st;
     timers := timers st; requests := requests st; alerts := alerts st;
     uncaught := uncaught st; rendered := rendered st |}.

Definition set_answersContainer (v : list Button) (st : State) : State :=
  {| currentQuestions := currentQuestions st; score := score st;
     questionIndex := questionIndex st; highScore := highScore st;
     questionStartTime := questionStartTime st;
     questionContainer := questionContainer st; answersContainer := v;
     resultContainer := resultContainer st;
     progressContainer := progressContainer st;
     currentScoreDisplay := currentScoreDisplay st;
     highScoreDisplay := highScoreDisplay st;
     gameSetupDiv := gameSetupDiv st; quizDiv := quizDiv st;
     categorySelect := categorySelect st; localStorage := localStorage st;
     timers := timers st; requests := requests st; alerts := alerts st;
     uncaught := uncaught st; rendered := rendered st |}.

Definition set_resultContainer (v : string) (st : State) : State :=
  {| currentQuestions := currentQuestions st; score := score st;
     questionIndex := questionIndex st; highScore := highScore st;
     questionStartTime := questionStartTime st;
     questionContainer := questionContainer st;
     answersContainer := answersContainer st; resultContainer := v;
     progressContainer := progressContainer st;
     currentScoreDisplay := currentScoreDisplay st;
     highScoreDisplay := highScoreDisplay st;
     gameSetupDiv := gameSetupDiv st; quizDiv := quizDiv st;
     categorySelect := categorySelect st; localStorage := localStorage st;
     timers := timers st; requests := requests st; alerts := alerts st;
     uncaught := uncaught st; rendered := rendered st |}.

Definition set_progressContainer (v : string) (st : State) : State :=
  {| currentQuestions := currentQuestions st; score := score st;
     questionIndex := questionIndex st; highScore := highScore st;
     questionStartTime := questionStartTime st;
     questionContainer := questionContainer st;
     answersContainer := answersContainer st;
     resultContainer := resultContainer st; progressContainer := v;
     currentScoreDisplay := currentScoreDisplay st;
     highScoreDisplay := highScoreDisplay st;
     gameSetupDiv := gameSetupDiv st; quizDiv := quizDiv st;
     categorySelect := categorySelect st; localStorage := localStorage st;
     timers := timers st; requests := requests st; alerts := alerts st;
     uncaught := uncaught st; rendered := rendered st |}.

Definition set_currentScoreDisplay (v : string) (st : State) : State :=
  {| currentQuestions := currentQuestions st; score := score st;
     questionIndex := questionIndex st; highScore := highScore st;
     questionStartTime := questionStartTime st;
     questionContainer := questionContainer st;
     answersContainer := answersContainer st;
     resultContainer := resultContainer st;
     progressContainer := progressContainer st; currentScoreDisplay := v;
     highScoreDisplay := highScoreDisplay st;
     gameSetupDiv := gameSetupDiv st; quizDiv := quizDiv st;
     categorySelect := categorySelect st; localStorage := localStorage st;
     timers := timers st; requests := requests st; alerts := alerts st;
     uncaught := uncaught st; rendered := rendered st |}.

Definition set_highScoreDisplay (v : string) (st : State) : State :=
  {| currentQuestions := currentQuestions st; score := score st;
     questionIndex := questionIndex st; highScore := highScore st;
     questionStartTime := questionStartTime st;
     questionContainer := questionContainer st;
     answersContainer := answersContainer st;
     resultContainer := resultContainer st;
     progressContainer := progressContainer st;
     currentScoreDisplay := currentScoreDisplay st; highScoreDisplay := v;
     gameSetupDiv := gameSetupDiv st; quizDiv := quizDiv st;
     categorySelect := categorySelect st; localStorage := localStorage st;
     timers := timers st; requests := requests st; alerts := alerts st;
     uncaught := uncaught st; rendered := rendered st |}.

Definition set_gameSetupDiv (v : Display) (st : State) : State :=
  {| currentQuestions := currentQuestions st; score := score st;
     questionIndex := questionIndex st; highScore := highScore st;
     questionStartTime := questionStartTime st;
     questionContainer := questionContainer st;
     answersContainer := answersContainer st;
     resultContainer := resultContainer st;
     progressContainer := progressContainer st;
     currentScoreDisplay := currentScoreDisplay st;
     highScoreDisplay := highScoreDisplay st; gameSetupDiv := v;
     quizDiv := quizDiv st; categorySelect := categorySelect st;
     localStorage := localStorage st; timers := timers st;
     requests := requests st; alerts := alerts st; uncaught := uncaught st;
     rendered := rendered st |}.

Definition set_quizDiv (v : Display) (st : State) : State :=
  {| currentQuestions := currentQuestions st; score := score st;
     questionIndex := questionIndex st; highScore := highScore st;
     questionStartTime := questionStartTime st;
     questionContainer := questionContainer st;
     answersContainer := answersContainer st;
     resultContainer := resultContainer st;
     progressContainer := progressContainer st;
     currentScoreDisplay := currentScoreDisplay st;
     highScoreDisplay := highScoreDisplay st;
     gameSetupDiv := gameSetupDiv st; quizDiv := v;
     categorySelect := categorySelect st; localStorage := localStorage st;
     timers := timers st; requests := requests st; alerts := alerts st;
     uncaught := uncaught st; rendered := rendered st |}.

Definition set_categorySelect (v : list OptionElement) (st : State) : State :=
  {| currentQuestions := currentQuestions st; score := score st;
     questionIndex := questionIndex st; highScore := highScore st;
     questionStartTime := questionStartTime st;
     questionContainer := questionContainer st;
     answersContainer := answersContainer st;
     resultContainer := resultContainer st;
     progressContainer := progressContainer st;
     currentScoreDisplay := currentScoreDisplay st;
     highScoreDisplay := highScoreDisplay st;
     gameSetupDiv := gameSetupDiv st; quizDiv := quizDiv st;
     categorySelect := v; localStorage := localStorage st;
     timers := timers st; requests := requests st; alerts := alerts st;
     uncaught := uncaught st; rendered := rendered st |}.

Definition set_localStorage (v : option Z) (st : State) : State :=
  {| currentQuestions := currentQuestions st; score := score st;
     questionIndex := questionIndex st; highScore := highScore st;
     questionStartTime := questionStartTime st;
     questionContainer := questionContainer st;
     answersContainer := answersContainer st;
     resultContainer := resultContainer st;
     progressContainer := progressContainer st;
     currentScoreDisplay := currentScoreDisplay st;
     highScoreDisplay := highScoreDisplay st;
     gameSetupDiv := gameSetupDiv st; quizDiv := quizDiv st;
     categorySelect := categorySelect st; localStorage := v;
     timers := timers st; requests := requests st; alerts := alerts st;
     uncaught := uncaught st; rendered := rendered st |}.

Definition set_timers (v : nat) (st : State) : State :=
  {| currentQuestions := currentQuestions st; score := score st;
     questionIndex := questionIndex st; highScore := highScore st;
     questionStartTime := questionStartTime st;
     questionContainer := questionContainer st;
     answersContainer := answersContainer st;
     resultContainer := resultContainer st;
     progressContainer := progressContainer st;
     currentScoreDisplay := currentScoreDisplay st;
     highScoreDisplay := highScoreDisplay st;
     gameSetupDiv := gameSetupDiv st; quizDiv := quizDiv st;
     categorySelect := categorySelect st; localStorage := localStorage st;
     timers := v; requests := requests st; alerts := alerts st;
     uncaught := uncaught st; rendered := rendered st |}.

Definition set_requests (v : list string) (st : State) : State :=
  {| currentQuestions := currentQuestions st; score := score st;
     questionIndex := questionIndex st; highScore := highScore st;
     questionStartTime := questionStartTime st;
     questionContainer := questionContainer st;
     answersContainer := answersContainer st;
     resultContainer := resultContainer st;
     progressContainer := progressContainer st;
     currentScoreDisplay := currentScoreDisplay st;
     highScoreDisplay := highScoreDisplay st;
     gameSetupDiv := gameSetupDiv st; quizDiv := quizDiv st;
     categorySelect := categorySelect st; localStorage := localStorage st;
     timers := timers st; requests := v; alerts := alerts st;
     uncaught := uncaught st; rendered := rendered st |}.

Definition set_alerts (v : list string) (st : State) : State :=
  {| currentQuestions := currentQuestions st; score := score st;
     questionIndex := questionIndex st; highScore := highScore st;
     questionStartTime := questionStartTime st;
     questionContainer := questionContainer st;
     answersContainer := answersContainer st;
     resultContainer := resultContainer st;
     progressContainer := progressContainer st;
     currentScoreDisplay := currentScoreDisplay st;
     highScoreDisplay := highScoreDisplay st;
     gameSetupDiv := gameSetupDiv st; quizDiv := quizDiv st;
     categorySelect := categorySelect st; localStorage := localStorage st;
     timers := timers st; requests := requests st; alerts := v;
     uncaught := uncaught st; rendered := rendered st |}.

Definition set_uncaught (v : list string) (st : State) : State :=
  {| currentQuestions := currentQuestions st; score := score st;
     questionIndex := questionIndex st; highScore := highScore st;
     questionStartTime := questionStartTime st;
     questionContainer := questionContainer st;
     answersContainer := answersContainer st;
     resultContainer := resultContainer st;
     progressContainer := progressContainer st;
     currentScoreDisplay := currentScoreDisplay st;
     highScoreDisplay := highScoreDisplay st;
     gameSetupDiv := gameSetupDiv st; quizDiv := quizDiv st;
     categorySelect := categorySelect st; localStorage := localStorage st;
     timers := timers st; requests := requests st; alerts := alerts st;
     uncaught := v; rendered := rendered st |}.

Definition set_rendered (v : list Rendering) (st : State) : State :=
  {| currentQuestions := currentQuestions st; score := score st;
     questionIndex := questionIndex st; highScore := highScore st;
     questionStartTime := questionStartTime st;
     questionContainer := questionContainer st;
     answersContainer := answersContainer st;
     resultContainer := resultContainer st;
     progressContainer := progressContainer st;
     currentScoreDisplay := currentScoreDisplay st;
     highScoreDisplay := highScoreDisplay st;
     gameSetupDiv := gameSetupDiv st; quizDiv := quizDiv st;
     categorySelect := categorySelect st; localStorage := localStorage st;
     timers := timers st; requests := requests st; alerts := alerts st;
     uncaught := uncaught st; rendered := v |}.


Definition set_disabled (v : bool) (b : Button) : Button :=
  {| children := children b; className := className b; disabled := v;
     onclick := onclick b |}.

(** [button.classList.add(token)]: a token already present is not added
    again. *)
Definition classListAdd (token : string) (b : Button) : Button :=
  {| children := children b;
     className := if bool_decide (token ∈ className b) then className b
                  else className b ++ [token];
     disabled := disabled b; onclick := onclick b |}.

(** ** [shuffleArray] (script.js 220-225) *)

Section Shuffle.
Context {A : Type}.

(** [[array[i], array[j]] = [array[j], array[i]]]: the right-hand side is
    read first, then [array[i]] and [array[j]] are written in this order.
    Both indices are inside the array whenever [Math.random] is below 1;
    outside of it the array is left as it is. *)
Definition swap (i j : nat) (array : list A) : list A :=
  match array !! j, array !! i with
  | Some aj, Some ai => <[j := ai]> (<[i := aj]> array)
  | _, _ => array
  end.

(** [Math.floor(Math.random() * (i + 1))], for the value [r] that
    [Math.random] returned. *)
Definition randomIndex (r : Q) (i : nat) : nat :=
  Z.to_nat (Qfloor (r * inject_Z (Z.of_nat i + 1))%Q).

(** The loop [for (i = ...; i > 0; i--)]; [random n] is what the [n]-th call
    of [Math.random] returns, [calls] counts the calls made so far. *)
Fixpoint shuffleFrom (i : nat) (random : nat -> Q) (calls : nat)
    (array : list A) : list A :=
  match i with
  | O => array
  | S i' =>
      let j := randomIndex (random calls) i in
      shuffleFrom i' random (S calls) (swap i j array)
  end.

Definition shuffleArray (random : nat -> Q) (array : list A) : list A :=
  shuffleFrom (length array - 1) random 0 array.

End Shuffle.

(** ** The handlers *)

(** How a handler ends. *)
Inductive Completion :=
  | Normal
  | Throw (exception : string).

(** script.js 207-209 *)
Definition updateHighScoreDisplay (st : State) : State :=
  set_highScoreDisplay ("High Score: " +:+ Dom.numberToString (highScore st)) st.

(** script.js 199-205 *)
Definition updateHighScore (st : State) : State :=
  if score st >? highScore st then
    let st := set_highScore (score st) st in
    let st := set_localStorage (Some (highScore st)) st in
    updateHighScoreDisplay st
  else st.

(** script.js 211-213 *)
Definition updateProgress (st : State) : State :=
  set_progressContainer
    ("Question " +:+ Dom.numberToString (Z.of_nat (questionIndex st) + 1)
       +:+ "/" +:+ Dom.numberToString (Z.of_nat (length (currentQuestions st))))
    st.

(** script.js 161-163 *)
Definition updateCurrentScore (st : State) : State :=
  set_currentScoreDisplay
    ("Current Score: " +:+ Dom.numberToString (score st)) st.

(** script.js 165-170: the elements of class [answer-btn] are disabled. *)
Definition disableButtons (st : State) : State :=
  set_answersContainer
    (map (fun button =>
            if bool_decide ("answer-btn" ∈ className button)
            then set_disabled true button else button)
         (answersContainer st))
    st.

(** script.js 35-44: the request, and what runs when its JSON has arrived.
    The promise has no [catch]. *)
Definition fetchCategories (st : State) : State :=
  set_requests (requests st ++ ["https://opentdb.com/api_category.php"]) st.

Definition fetchCategories_then (trivia_categories : list Category)
    (st : State) : State :=
  set_categorySelect
    (categorySelect st ++
       map (fun category =>
              {| value := Dom.numberToString (category_id category);
                 textContent := category_name category |})
           trivia_categories)
    st.

(** The button of script.js 185-192. *)
Definition restartButton : Button :=
  {| children := TextNode "Restart Quiz"; className := []; disabled := false;
     onclick := RestartQuiz |}.

(** script.js 179-193 *)
Definition showResults (st : State) : State :=
  let st := set_questionContainer (TextNode "Quiz Finished!") st in
  let st := set_answersContainer [] st in
  let st := set_resultContainer
              ("Your final score is " +:+ Dom.numberToString (score st)) st in
  let st := updateHighScoreDisplay st in
  let st := set_progressContainer "" st in
  let st := set_answersContainer (answersContainer st ++ [restartButton]) st in
  set_rendered (rendered st ++ [RenderedResults (score st)]) st.

(** The listener of script.js 187-191. *)
Definition restartQuiz (st : State) : State :=
  let st := set_quizDiv none st in
  let st := set_gameSetupDiv block st in
  fetchCategories st.

(** script.js 116-119: the button made for an answer. *)
Definition answerButton (correctAnswer : string) (answers : list string)
    (answer : string) : Button :=
  {| children := Markup (decodeHTML answer);
     className := ["answer-btn"];
     disabled := false;
     onclick := SelectAnswer correctAnswer answers |}.

(** script.js 110-122: one button per answer, in shuffled order. *)
Definition displayAnswers (question : Question) (random : nat -> Q)
    (st : State) : State :=
  let st := set_answersContainer [] st in
  let answers :=
    shuffleArray random
      (incorrect_answers question ++ [correct_answer question]) in
  set_answersContainer
    (answersContainer st
       ++ map (answerButton (correct_answer question) answers) answers)
    st.

(** script.js 88-99; [currentQuestions[questionIndex]] exists exactly when
    [questionIndex < currentQuestions.length]. *)
Definition displayQuestion (now : Z) (random : nat -> Q) (st : State) : State :=
  match currentQuestions st !! questionIndex st with
  | Some currentQuestion =>
      let st := set_questionContainer
                  (Markup (decodeHTML (question currentQuestion))) st in
      let st := displayAnswers currentQuestion random st in
      let st := updateProgress st in
      let st := set_questionStartTime now st in
      set_rendered (rendered st ++ [RenderedQuestion (questionIndex st)]) st
  | None =>
      let st := updateHighScore st in
      showResults st
  end.

(** The callback of script.js 154-158. *)
Definition nextQuestion (now : Z) (random : nat -> Q) (st : State) : State :=
  let st := set_questionIndex (S (questionIndex st)) st in
  let st := displayQuestion now random st in
  set_resultContainer "" st.

(** [element.classList.add(token)] on the [i]-th child of [#answers]. *)
Definition addClass (i : nat) (token : string) (st : State) : State :=
  set_answersContainer (alter (classListAdd token) i (answersContainer st)) st.

(** The comparison of script.js 138 and 143: both sides are decoded. *)
Definition sameAnswer (x y : string) : bool :=
  bool_decide (decodeHTML x = decodeHTML y).

(** script.js 137-141: every answer equal to the correct one (after
    decoding) assigns to [correctButton] the first child of [#answers] whose
    [innerHTML] is the decoded correct answer, [undefined] when there is
    none.  A child is referred to by its position. *)
Definition findCorrectButton (correctAnswer : string) (answers : list string)
    (st : State) : option nat :=
  foldl (fun correctButton answer =>
           if sameAnswer answer correctAnswer
           then fst <$> list_find
                  (fun button => innerHTML button = decodeHTML correctAnswer)
                  (answersContainer st)
           else correctButton)
        None answers.

(** script.js 153-158: the score line and the 3000 ms timer. *)
Definition scheduleNext (st : State) : State :=
  let st := updateCurrentScore st in
  set_timers (S (timers st)) st.

(** script.js 131-159.  [selectedButton] is the position of the clicked
    button in [#answers] and [selected] the button itself.  Reading
    [classList] of [undefined] throws, and the statements after it do not
    run. *)
Definition selectAnswer (selectedButton : nat) (selected : Button)
    (correctAnswer : string) (answers : list string) (now : Z)
    (st : State) : Completion * State :=
  let timeTaken := timeTaken now (questionStartTime st) in
  let scoreForThisQuestion := scoreForThisQuestion timeTaken in
  let st := disableButtons st in
  let correctButton := findCorrectButton correctAnswer answers st in
  if sameAnswer (innerHTML selected) correctAnswer
  then
    let st := set_score (score st + scoreForThisQuestion) st in
    let st := addClass selectedButton "correct" st in
    let st := set_resultContainer
                ("Correct! + " +:+ Dom.numberToString scoreForThisQuestion
                   +:+ " Points") st in
    (Normal, scheduleNext st)
  else
    let st := addClass selectedButton "incorrect" st in
    match correctButton with
    | None =>
        (Throw "TypeError: Cannot read properties of undefined (reading 'classList')",
         st)
    | Some correctButton =>
        let st := addClass correctButton "correct" st in
        let st := set_resultContainer
                    ("Wrong! The correct answer was: "
                       +:+ decodeHTML correctAnswer) st in
        (Normal, scheduleNext st)
    end.

(** How a promise is settled. *)
Inductive Settled (A : Type) :=
  | Rejected (error : string)
  | Resolved (data : A).
Arguments Rejected {A} error.
Arguments Resolved {A} data.

(** script.js 67-72: the URL; an empty string is falsy. *)
Definition questionsUrl (amount category difficulty : string) : string :=
  let url := "https://opentdb.com/api.php?amount=" +:+ amount in
  let url := if bool_decide (category = "") then url
             else url +:+ "&category=" +:+ category in
  let url := if bool_decide (difficulty = "") then url
             else url +:+ "&difficulty=" +:+ difficulty in
  url +:+ "&type=multiple".

Definition fetchQuestions (amount category difficulty : string)
    (st : State) : State :=
  set_requests (requests st ++ [questionsUrl amount category difficulty]) st.

(** script.js 73-78: what runs when the chain [fetch(url).then(json)] is
    settled; [error] is the text the rejection reason converts to. *)
Definition fetchQuestions_then (outcome : Settled (list Question)) (now : Z)
    (random : nat -> Q) (st : State) : State :=
  match outcome with
  | Resolved results =>
      let st := set_currentQuestions results st in
      let st := set_questionIndex 0 st in
      let st := set_score 0 st in
      displayQuestion now random st
  | Rejected error =>
      set_alerts (alerts st ++ ["Error:" +:+ error]) st
  end.

(** script.js 50-57; the three form values are what the user has chosen. *)
Definition startGame (amount category difficulty : string)
    (st : State) : State :=
  let st := fetchQuestions amount category difficulty st in
  let st := set_gameSetupDiv none st in
  set_quizDiv block st.

(** ** The page as an event-driven system *)

(** script.js 2-23 and 233-235: the state when the script has run, given the
    stored high score (none for an absent item, [parseInt(null) || 0] is 0),
    the options [#category] has in the document and the visibility of the
    two panels.  [questionStartTime] is [undefined] at this point; it is
    assigned before any answer button exists. *)
Definition pageLoad (stored : option Z) (options : list OptionElement)
    (setup quiz : Display) : State :=
  let highScore := default 0 stored in
  fetchCategories
    {| currentQuestions := []; score := 0; questionIndex := 0;
       highScore := highScore; questionStartTime := 0;
       questionContainer := TextNode ""; answersContainer := [];
       resultContainer := ""; progressContainer := "";
       currentScoreDisplay := "";
       highScoreDisplay := "High Score: " +:+ Dom.numberToString highScore;
       gameSetupDiv := setup; quizDiv := quiz;
       categorySelect := options; localStorage := stored; timers := 0;
       requests := []; alerts := []; uncaught := []; rendered := [] |}.

(** What the page can receive.  [now] is the value of [Date.now] during the
    handler and [random] the successive values of [Math.random]. *)
Inductive Event :=
  | Click (child : nat) (now : Z)
  | TimerFired (now : Z) (random : nat -> Q)
  | StartClicked (amount category difficulty : string)
  | QuestionsSettled (outcome : Settled (list Question)) (now : Z)
      (random : nat -> Q)
  | CategoriesSettled (outcome : Settled (list Category)).

(** A click on the [child]-th element of [#answers]: a disabled button
    receives no click; an exception ends the listener and is reported. *)
Definition click (child : nat) (now : Z) (st : State) : State :=
  match answersContainer st !! child with
  | Some button =>
      if disabled button then st
      else
        match onclick button with
        | SelectAnswer correctAnswer answers =>
            match selectAnswer child button correctAnswer answers now st with
            | (Normal, st) => st
            | (Throw exception, st) =>
                set_uncaught (uncaught st ++ [exception]) st
            end
        | RestartQuiz => restartQuiz st
        end
  | None => st
  end.

Definition step (st : State) (event : Event) : State :=
  match event with
  | Click child now => click child now st
  | TimerFired now random =>
      match timers st with
      | O => st
      | S pending => nextQuestion now random (set_timers pending st)
      end
  | StartClicked amount category difficulty =>
      startGame amount category difficulty st
  | QuestionsSettled outcome now random =>
      fetchQuestions_then outcome now random st
  | CategoriesSettled (Resolved data) =>
      fetchCategories_then data st
  | CategoriesSettled (Rejected error) =>
      set_uncaught (uncaught st ++ [error]) st
  end.

Definition run (st : State) (events : list Event) : State :=
  foldl step st events.

(** ** Notions the statements use *)

(** The stored high score as the script reads it: an absent item counts as
    0. *)
Definition stored (st : State) : Z := default 0 (localStorage st).

(** The escaped form of a text, as the page serialises it. *)
Definition escaped (s : string) : string := Dom.serializeText s.

(** The events of a running session: clicks in [#answers] and the timer. *)
Definition sessionEvent (event : Event) : bool :=
  match event with
  | Click _ _ | TimerFired _ _ => true
  | _ => false
  end.

(** The session is over: the last thing rendered is a results view. *)
Definition finished (st : State) : bool :=
  match last (rendered st) with
  | Some (RenderedResults _) => true
  | _ => false
  end.

Definition isResults (r : Rendering) : bool :=
  match r with
  | RenderedResults _ => true
  | RenderedQuestion _ => false
  end.

(** The number of results views rendered. *)
Definition timesFinished (st : State) : nat :=
  length (List.filter isResults (rendered st)).

(** No answer can be submitted and no timer is pending. *)
Definition stuck (st : State) : Prop :=
  timers st = 0%nat /\
  Forall (fun button => disabled button = true) (answersContainer st).

(** The [<option>] made from a category (script.js 38-40). *)
Definition optionOf (category : Category) : OptionElement :=
  {| value := Dom.numberToString (category_id category);
     textContent := category_name category |}.

(** A question whose decoded correct answer has no character that the page
    escapes, and whose decoded incorrect answers open no tag (so that all
    its buttons hold texts). *)
Definition answerable (question : Question) : Prop :=
  Dom.markupFree (decodeHTML (correct_answer question)) = true /\
  Forall (fun answer => Dom.tagFree (decodeHTML answer) = true)
    (incorrect_answers question).

(** One round of a session: the user clicks the [choice]-th button at the
    instant [clickedAt], and the timer fires at [firedAt], when [Math.random]
    returns [draws]. *)
Record Round := mkRound {
  choice : nat;
  clickedAt : Z;
  firedAt : Z;
  draws : nat -> Q
}.

Definition roundEvents (round : Round) : list Event :=
  [Click (choice round) (clickedAt round);
   TimerFired (firedAt round) (draws round)].

Definition roundsEvents (rounds : list Round) : list Event :=
  concat (map roundEvents rounds).

(** The page waits for an answer: no timer is pending and, when there is a
    current question, [#answers] holds one enabled button per answer of it,
    the correct answer among them. *)
Definition awaiting (st : State) : Prop :=
  timers st = 0%nat /\
  forall q : Question,
    currentQuestions st !! questionIndex st = Some q ->
    exists answers : list string,
      correct_answer q ∈ answers /\
      length answers = S (length (incorrect_answers q)) /\
      answersContainer st
      = map (answerButton (correct_answer q) answers) answers.

(** What [displayQuestion] renders. *)
Definition nextRendering (st : State) : Rendering :=
  match currentQuestions st !! questionIndex st with
  | Some _ => RenderedQuestion (questionIndex st)
  | None => RenderedResults (score st)
  end.

(** The variable [highScore] agrees with the stored item. *)
Definition synced (st : State) : Prop := stored st = highScore st.

(** ** Concrete pages used in examples *)

Definition half : nat -> Q := fun _ => (1 # 2)%Q.

Definition tomAndJerry : Question :=
  {| question := "Which cat-and-mouse cartoon won seven Academy Awards?";
     correct_answer := "Tom &amp; Jerry";
     incorrect_answers := ["Looney Tunes"; "Popeye"; "Mickey Mouse"] |}.

Definition twoPlusTwo : Question :=
  {| question := "2+2=?";
     correct_answer := "4";
     incorrect_answers := ["3"; "5"; "22"] |}.

(** A question about HTML itself: the API escapes the ampersand of each
    answer, the decoded correct answer is the four characters [&lt;]. *)
Definition lessThanSign : Question :=
  {| question := "In HTML, which character reference stands for the less-than sign?";
     correct_answer := "&amp;lt;";
     incorrect_answers := ["&amp;gt;"; "&amp;amp;"; "&amp;apos;"] |}.

Definition generalKnowledge : Category :=
  {| category_id := 9; category_name := "General Knowledge" |}.

(** A fresh page with no stored high score and an empty selector. *)
Definition freshPage : State := pageLoad None [] block none.

(** The page after a game over [questions] has been started at time 0. *)
Definition started (questions : list Question) : State :=
  run freshPage
    [StartClicked "1" "" ""; QuestionsSettled (Resolved questions) 0 half].

(** A page whose finished session ties the stored high score of 500. *)
Definition tiedSession : State :=
  set_localStorage (Some 500) (set_highScore 500 (set_score 500 freshPage)).

(** A startup load of one category, an empty game, a restart and the load
    the restart triggers. *)
Definition restartedOnce : State :=
  run freshPage
    [CategoriesSettled (Resolved [generalKnowledge]);
     StartClicked "1" "" "";
     QuestionsSettled (Resolved []) 0 half;
     Click 0 1000;
     CategoriesSettled (Resolved [generalKnowledge])].

(** The page on which a game over [twoPlusTwo] has been requested. *)
Definition requested : State := startGame "1" "" "" freshPage.


(** ** Notions the further statements use *)

(** What a submission makes of a button: the same children and listener,
    possibly more class tokens, and disabled when it is an answer button. *)
Definition afterSubmission (before after : Button) : Prop :=
  children after = children before /\
  onclick after = onclick before /\
  className before ⊆ className after /\
  disabled after
  = (disabled before || bool_decide ("answer-btn" ∈ className before)).

(** [shown] is the button [made] with, possibly, its [disabled] flag changed
    and class tokens added. *)
Definition sameButton (made shown : Button) : Prop :=
  children shown = children made /\
  onclick shown = onclick made /\
  className made ⊆ className shown.

(** The children of [#answers] are the buttons [displayAnswers] makes for
    the question: one per answer, in some order. *)
Definition onDisplay (q : Question) (buttons : list Button) : Prop :=
  exists answers : list string,
    answers ≡ₚ incorrect_answers q ++ [correct_answer q] /\
    Forall2 sameButton
            (map (answerButton (correct_answer q) answers) answers) buttons.

(** [Question n/K], the text of [updateProgress]. *)
Definition progressLine (n K : nat) : string :=
  "Question " +:+ Dom.numberToString (Z.of_nat n)
    +:+ "/" +:+ Dom.numberToString (Z.of_nat K).

(** The page agrees with the variables of the session.  While a question is
    current, the questions up to it have been rendered, once each and in
    order, after the renderings [before] of earlier sessions, its buttons
    are on display, the progress line names it, and a pending timer means
    that every button is disabled; when there is none, the index is the
    number of questions, the results view has been rendered after all of
    them, the restart button is the only child of [#answers] and no timer is
    pending.  At most one timer is pending. *)
Definition orderly (before : list Rendering) (st : State) : Prop :=
  (timers st <= 1)%nat /\
  match currentQuestions st !! questionIndex st with
  | Some q =>
      rendered st
      = before ++ map RenderedQuestion (seq 0 (S (questionIndex st))) /\
      onDisplay q (answersContainer st) /\
      (timers st = 1%nat ->
       Forall (fun b => disabled b = true) (answersContainer st)) /\
      progressContainer st
      = progressLine (S (questionIndex st)) (length (currentQuestions st))
  | None =>
      questionIndex st = length (currentQuestions st) /\
      rendered st
      = before ++ map RenderedQuestion (seq 0 (questionIndex st))
          ++ [RenderedResults (score st)] /\
      answersContainer st = [restartButton] /\
      timers st = 0%nat /\
      progressContainer st = ""
  end.

(** The high-score line shows the variable [highScore]. *)
Definition highScoreShown (st : State) : Prop :=
  highScoreDisplay st = "High Score: " +:+ Dom.numberToString (highScore st).

(** The score line is up to date, or it is still the line [old] and nothing
    has been scored. *)
Definition scoreLine (old : string) (st : State) : Prop :=
  currentScoreDisplay st = "Current Score: " +:+ Dom.numberToString (score st)
  \/ (currentScoreDisplay st = old /\ score st = 0).

(** Every click of the sequence happens no earlier than the instant stored
    when the question on display was rendered. *)
Fixpoint clockForward (st : State) (events : list Event) : Prop :=
  match events with
  | [] => True
  | event :: events =>
      match event with
      | Click _ now => questionStartTime st <= now
      | _ => True
      end /\ clockForward (step st event) events
  end.

(** Some child of [#answers] is enabled. *)
Definition anyEnabled (st : State) : bool :=
  existsb (fun b => negb (disabled b)) (answersContainer st).

(** The score is at most 1000 per question left behind, plus 1000 for the
    one on display once its buttons are all disabled. *)
Definition scoreBounded (st : State) : Prop :=
  score st
  <= 1000 * Z.of_nat (questionIndex st)
     + (if anyEnabled st then 0 else 1000).

(** The entries the successful category responses of a sequence of events
    bring, in the order of their arrival. *)
Fixpoint categoryEntries (events : list Event) : list OptionElement :=
  match events with
  | [] => []
  | CategoriesSettled (Resolved data) :: events =>
      map optionOf data ++ categoryEntries events
  | _ :: events => categoryEntries events
  end.

(** The stored high score is still [base] while a question is current, and
    the maximum of [base] and the score once none is left; the variable
    [highScore] agrees with it. *)
Definition highScoreSettled (base : Z) (st : State) : Prop :=
  synced st /\
  match currentQuestions st !! questionIndex st with
  | Some _ => stored st = base
  | None => stored st = Z.max base (score st)
  end.

(** While a question is current, something can happen next: the timer is
    pending, or [#answers] has buttons and all of them are enabled. *)
Definition lively (st : State) : Prop :=
  forall q : Question,
    currentQuestions st !! questionIndex st = Some q ->
    timers st = 1%nat \/
    (answersContainer st <> [] /\
     Forall (fun b => disabled b = false) (answersContainer st)).


(** An answer that its button shows as [decodeHTML] returned it: the decoded
    answer opens no tag, and the parse of the markup, which replaces
    character references once more, leaves it unchanged. *)
Definition literal (answer : string) : Prop :=
  Dom.tagFree (decodeHTML answer) = true /\
  Dom.parseText (decodeHTML answer) = decodeHTML answer.

(** A question all of whose answers are such. *)
Definition literalQuestion (q : Question) : Prop :=
  Forall literal (incorrect_answers q ++ [correct_answer q]).




(** ** The platform model: what decoding leaves alone, and decoding undoes
    escaping *)

Lemma string_pair_ind (P : string -> Prop) :
  P "" ->
  (forall c s,
     P s -> (forall d s', s = String d s' -> P s') -> P (String c s)) ->
  forall s, P s.
Proof.
  intros Hnil Hcons s.
  enough (H : P s /\ forall d s', s = String d s' -> P s') by apply H.
  induction s as [|c s [IH1 IH2]].
  - split; [exact Hnil|discriminate].
  - split; [now apply Hcons|]. now intros d s' [= _ <-].
Qed.

Lemma normalizeNewlines_normalized (s : string) :
  Dom.normalized s = true -> Dom.normalizeNewlines s = s.
Proof.
  unfold Dom.normalizeNewlines.
  induction s as [|c s IH]; [reflexivity|]. cbn.
  destruct (Ascii.eqb c Dom.CR); [discriminate|].
  rewrite andb_false_r. destruct (Ascii.eqb c Dom.NUL); [discriminate|].
  cbn. intros H. now rewrite IH.
Qed.

Lemma decodeFrom_ampersand (nul rest : string) :
  Dom.decodeFrom nul 0 (String "&" rest)
  = match Dom.charRefAfterAmp rest with
    | Some (text, len) => text +:+ Dom.decodeFrom nul len rest
    | None => String "&" (Dom.decodeFrom nul 0 rest)
    end.
Proof. reflexivity. Qed.

Lemma decodeFrom_other (nul : string) (c : ascii) (s : string) :
  Ascii.eqb c "&" = false ->
  Ascii.eqb c Dom.NUL = false ->
  Dom.decodeFrom nul 0 (String c s) = String c (Dom.decodeFrom nul 0 s).
Proof. intros H H'. cbn [Dom.decodeFrom]. now rewrite H, H'. Qed.

Lemma decodeFrom_plain (nul s : string) :
  Dom.plainText s = true -> Dom.normalized s = true ->
  Dom.decodeFrom nul 0 s = s.
Proof.
  induction s as [|c s IH]; [reflexivity|]. cbn [Dom.plainText Dom.normalized].
  destruct (Ascii.eqb c "&") eqn:Eamp; [discriminate|].
  destruct (Ascii.eqb c Dom.CR); [discriminate|].
  destruct (Ascii.eqb c Dom.NUL) eqn:Enul; [discriminate|].
  cbn [negb andb]. intros Hplain Hnormal.
  rewrite decodeFrom_other by assumption. f_equal. now apply IH.
Qed.

Lemma decodeHTML_plain (s : string) :
  Dom.plainText s = true -> Dom.normalized s = true -> decodeHTML s = s.
Proof.
  intros Hplain Hnormal. unfold decodeHTML, Dom.textareaValue.
  rewrite (normalizeNewlines_normalized s Hnormal).
  rewrite (decodeFrom_plain _ s Hplain Hnormal).
  now apply normalizeNewlines_normalized.
Qed.

Lemma parseText_plain (s : string) :
  Dom.plainText s = true -> Dom.normalized s = true -> Dom.parseText s = s.
Proof.
  intros Hplain Hnormal. unfold Dom.parseText.
  rewrite (normalizeNewlines_normalized s Hnormal).
  now apply decodeFrom_plain.
Qed.

Lemma decodeFrom_amp (nul s : string) :
  Dom.decodeFrom nul 0 ("&amp;" +:+ s) = String "&" (Dom.decodeFrom nul 0 s).
Proof.
  change ("&amp;" +:+ s) with (String "&" ("amp;" +:+ s)).
  rewrite decodeFrom_ampersand.
  replace (Dom.charRefAfterAmp ("amp;" +:+ s)) with (Some ("&", 4%nat))
    by (vm_compute; reflexivity).
  reflexivity.
Qed.

Lemma decodeFrom_lt (nul s : string) :
  Dom.decodeFrom nul 0 ("&lt;" +:+ s) = String "<" (Dom.decodeFrom nul 0 s).
Proof.
  change ("&lt;" +:+ s) with (String "&" ("lt;" +:+ s)).
  rewrite decodeFrom_ampersand.
  replace (Dom.charRefAfterAmp ("lt;" +:+ s)) with (Some ("<", 3%nat))
    by (vm_compute; reflexivity).
  reflexivity.
Qed.

Lemma decodeFrom_gt (nul s : string) :
  Dom.decodeFrom nul 0 ("&gt;" +:+ s) = String ">" (Dom.decodeFrom nul 0 s).
Proof.
  change ("&gt;" +:+ s) with (String "&" ("gt;" +:+ s)).
  rewrite decodeFrom_ampersand.
  replace (Dom.charRefAfterAmp ("gt;" +:+ s)) with (Some (">", 3%nat))
    by (vm_compute; reflexivity).
  reflexivity.
Qed.

Lemma decodeFrom_nbsp (nul s : string) :
  Dom.decodeFrom nul 0 ("&nbsp;" +:+ s)
  = String "194" (String "160" (Dom.decodeFrom nul 0 s)).
Proof.
  change ("&nbsp;" +:+ s) with (String "&" ("nbsp;" +:+ s)).
  rewrite decodeFrom_ampersand.
  replace (Dom.charRefAfterAmp ("nbsp;" +:+ s))
    with (Some (String "194" (String "160" ""), 5%nat))
    by (vm_compute; reflexivity).
  reflexivity.
Qed.

(** Tokenizing the serialised form of a text gives the text back. *)
Lemma decodeFrom_serializeText (nul s : string) :
  Dom.normalized s = true ->
  Dom.decodeFrom nul 0 (Dom.serializeText s) = s.
Proof.
  induction s as [|c s IH IH'] using string_pair_ind; [reflexivity|].
  cbn [Dom.normalized Dom.serializeText].
  destruct (Ascii.eqb c Dom.CR); [discriminate|].
  destruct (Ascii.eqb c Dom.NUL) eqn:Enul; [discriminate|].
  cbn [negb andb]. intros Hnormal.
  destruct (Ascii.eqb c "194") eqn:E194.
  { apply Ascii.eqb_eq in E194. subst c.
    destruct s as [|d s']; [reflexivity|].
    destruct (Ascii.eqb d "160") eqn:E160.
    - apply Ascii.eqb_eq in E160. subst d.
      rewrite decodeFrom_nbsp. do 2 f_equal.
      apply (IH' _ _ eq_refl).
      cbn [Dom.normalized] in Hnormal. exact Hnormal.
    - rewrite decodeFrom_other by reflexivity. f_equal. now apply IH. }
  unfold Dom.escapeChar.
  destruct (Ascii.eqb c "&") eqn:Eamp.
  { apply Ascii.eqb_eq in Eamp. subst c. rewrite decodeFrom_amp.
    f_equal. now apply IH. }
  destruct (Ascii.eqb c "<") eqn:Elt.
  { apply Ascii.eqb_eq in Elt. subst c. rewrite decodeFrom_lt.
    f_equal. now apply IH. }
  destruct (Ascii.eqb c ">") eqn:Egt.
  { apply Ascii.eqb_eq in Egt. subst c. rewrite decodeFrom_gt.
    f_equal. now apply IH. }
  change (String c "" +:+ Dom.serializeText s)
    with (String c (Dom.serializeText s)).
  rewrite decodeFrom_other by assumption. f_equal. now apply IH.
Qed.

(** Serialising adds neither U+000D nor U+0000. *)
Lemma serializeText_normalized (s : string) :
  Dom.normalized s = true -> Dom.normalized (Dom.serializeText s) = true.
Proof.
  induction s as [|c s IH IH'] using string_pair_ind; [reflexivity|].
  cbn [Dom.normalized Dom.serializeText].
  destruct (Ascii.eqb c Dom.CR) eqn:Ecr; [discriminate|].
  destruct (Ascii.eqb c Dom.NUL) eqn:Enul; [discriminate|].
  cbn [negb andb]. intros Hnormal.
  destruct (Ascii.eqb c "194") eqn:E194.
  { apply Ascii.eqb_eq in E194. subst c.
    destruct s as [|d s']; [reflexivity|].
    destruct (Ascii.eqb d "160") eqn:E160.
    - apply Ascii.eqb_eq in E160. subst d.
      cbn [Dom.normalized] in Hnormal.
      exact (IH' _ _ eq_refl Hnormal).
    - cbn [Dom.normalized]. cbn. now apply IH. }
  unfold Dom.escapeChar.
  destruct (Ascii.eqb c "&"); [now apply IH|].
  destruct (Ascii.eqb c "<"); [now apply IH|].
  destruct (Ascii.eqb c ">"); [now apply IH|].
  change (String c "" +:+ Dom.serializeText s)
    with (String c (Dom.serializeText s)).
  cbn [Dom.normalized]. rewrite Ecr, Enul. now apply IH.
Qed.

Lemma decodeHTML_escaped (s : string) :
  Dom.normalized s = true -> decodeHTML (escaped s) = s.
Proof.
  intros Hnormal. unfold decodeHTML, escaped, Dom.textareaValue.
  rewrite (normalizeNewlines_normalized (Dom.serializeText s))
    by now apply serializeText_normalized.
  rewrite decodeFrom_serializeText by exact Hnormal.
  now apply normalizeNewlines_normalized.
Qed.

Lemma decodeHTML_innerHTML (b : Button) :
  Dom.normalized (textOf (children b)) = true ->
  decodeHTML (innerHTML b) = textOf (children b).
Proof. apply decodeHTML_escaped. Qed.

(** ** A decoded text has neither U+000D nor U+0000 *)

Lemma nulFree_app (s t : string) :
  Dom.nulFree (s +:+ t) = Dom.nulFree s && Dom.nulFree t.
Proof.
  induction s as [|c s IH]; [reflexivity|].
  change (String c s +:+ t) with (String c (s +:+ t)).
  cbn [Dom.nulFree]. rewrite IH. now rewrite andb_assoc.
Qed.

Lemma ascii_of_N_not_NUL (n : N) :
  (0 < n < 256)%N -> Ascii.eqb (ascii_of_N n) Dom.NUL = false.
Proof.
  intros Hn. destruct (Ascii.eqb (ascii_of_N n) Dom.NUL) eqn:E; [|reflexivity].
  apply Ascii.eqb_eq in E. apply (f_equal N_of_ascii) in E.
  rewrite N_ascii_embedding in E by lia. cbn in E. lia.
Qed.

Lemma byte_not_NUL (a b bound : N) :
  (0 < a)%N -> (b < bound)%N -> (a + bound <= 256)%N ->
  Ascii.eqb (ascii_of_N (a + b)) Dom.NUL = false.
Proof. intros Ha Hb Hbound. apply ascii_of_N_not_NUL. lia. Qed.

Lemma utf8_nulFree (c : N) :
  (0 < c <= 1114111)%N -> Dom.nulFree (Dom.utf8 c) = true.
Proof.
  intros Hc. unfold Dom.utf8.
  assert (H64 : (c mod 64 < 64)%N) by (apply N.mod_lt; lia).
  assert (H64' : ((c / 64) mod 64 < 64)%N) by (apply N.mod_lt; lia).
  assert (H64'' : ((c / 4096) mod 64 < 64)%N) by (apply N.mod_lt; lia).
  destruct (N.ltb_spec c 128); [|destruct (N.ltb_spec c 2048);
    [|destruct (N.ltb_spec c 65536)]]; cbn [Dom.nulFree].
  - rewrite ascii_of_N_not_NUL by lia. reflexivity.
  - assert (c / 64 < 32)%N by (apply N.Div0.div_lt_upper_bound; lia).
    rewrite (byte_not_NUL 192 _ 32), (byte_not_NUL 128 _ 64)
      by first [assumption|lia].
    reflexivity.
  - assert (c / 4096 < 16)%N by (apply N.Div0.div_lt_upper_bound; lia).
    rewrite (byte_not_NUL 224 _ 16), !(byte_not_NUL 128 _ 64)
      by first [assumption|lia].
    reflexivity.
  - assert (c / 262144 < 5)%N by (apply N.Div0.div_lt_upper_bound; lia).
    rewrite (byte_not_NUL 240 _ 5), !(byte_not_NUL 128 _ 64)
      by first [assumption|lia].
    reflexivity.
Qed.

Lemma codePointOf_range (v : N) : (0 < Dom.codePointOf v <= 1114111)%N.
Proof.
  unfold Dom.codePointOf.
  destruct (N.eqb_spec v 0); [lia|].
  destruct (N.ltb_spec 1114111 v); [lia|].
  destruct (_ && _); [lia|].
  destruct (List.find _ Dom.windows1252) as [entry|] eqn:Hfind; [|lia].
  apply List.find_some in Hfind as [Hin _].
  assert (Hall : List.Forall (fun e => (0 < snd e <= 1114111)%N)
                   Dom.windows1252).
  { unfold Dom.windows1252. repeat constructor; cbn; lia. }
  rewrite List.Forall_forall in Hall. exact (Hall entry Hin).
Qed.

Lemma namedReference_table (s : string) (entry : string * list N) :
  Dom.namedReference s = Some entry ->
  entry ∈ Dom.namedCharacterReferences.
Proof.
  unfold Dom.namedReference.
  assert (H : forall table best,
             foldl (fun best entry =>
                      if Dom.startsWith (fst entry) s
                         && Dom.longer (fst entry) best
                      then Some entry else best) best table = Some entry ->
             best = Some entry \/ entry ∈ table).
  { induction table as [|e table IH]; intros best; cbn [foldl].
    - now left.
    - intros Hfold. apply IH in Hfold as [Hbest|Hin].
      + destruct (_ && _).
        * injection Hbest as ->. right. now left.
        * now left.
      + right. now right. }
  intros Hfold. apply H in Hfold as [Hnone|Hin]; [discriminate|exact Hin].
Qed.

Lemma namedCharacterReferences_nulFree :
  forallb (fun entry => Dom.nulFree (Dom.utf8s (snd entry)))
    Dom.namedCharacterReferences = true.
Proof. vm_compute. reflexivity. Qed.

Lemma charRefAfterAmp_nulFree (s text : string) (len : nat) :
  Dom.charRefAfterAmp s = Some (text, len) -> Dom.nulFree text = true.
Proof.
  assert (Hnamed : match Dom.namedReference s with
                   | Some (name, codePoints) =>
                       Some (Dom.utf8s codePoints, String.length name)
                   | None => None
                   end = Some (text, len) -> Dom.nulFree text = true).
  { destruct (Dom.namedReference s) as [[name codePoints]|] eqn:Hnamed;
      [|discriminate].
    intros [= <- _]. apply namedReference_table in Hnamed.
    pose proof namedCharacterReferences_nulFree as Hall.
    rewrite forallb_forall in Hall.
    apply (Hall (name, codePoints)). now apply list_elem_of_In. }
  unfold Dom.charRefAfterAmp.
  destruct s as [|c rest]; [exact Hnamed|].
  destruct (Ascii.eqb c "#") eqn:Ehash.
  2:{ destruct c as [[] [] [] [] [] [] [] []]; try exact Hnamed;
        discriminate. }
  apply Ascii.eqb_eq in Ehash. subst c.
  destruct rest as [|x digits]; [discriminate|].
  destruct (_ || _).
  - destruct (Dom.readNumber Dom.hexDigit 16 digits 0 0) as [[v n]|];
      [|discriminate].
    intros [= <- _]. apply utf8_nulFree, codePointOf_range.
  - destruct (Dom.readNumber Dom.decimalDigit 10 (String x digits) 0 0)
      as [[v n]|]; [|discriminate].
    intros [= <- _]. apply utf8_nulFree, codePointOf_range.
Qed.

Lemma decodeFrom_nulFree (nul : string) (skip : nat) (s : string) :
  Dom.nulFree nul = true -> Dom.nulFree (Dom.decodeFrom nul skip s) = true.
Proof.
  intros Hnul. revert skip.
  induction s as [|c s IH]; intros skip; [reflexivity|].
  cbn [Dom.decodeFrom]. destruct skip as [|k]; [|apply IH].
  destruct (Ascii.eqb c "&") eqn:Eamp.
  - destruct (Dom.charRefAfterAmp s) as [[text len]|] eqn:Href.
    + rewrite nulFree_app, (charRefAfterAmp_nulFree _ _ _ Href). apply IH.
    + apply Ascii.eqb_eq in Eamp. subst c. cbn. apply IH.
  - destruct (Ascii.eqb c Dom.NUL) eqn:Enul.
    + rewrite nulFree_app, Hnul. apply IH.
    + cbn [Dom.nulFree]. rewrite Enul. apply IH.
Qed.

Lemma normalizeFrom_normalized (afterCR : bool) (s : string) :
  Dom.nulFree s = true ->
  Dom.normalized (Dom.normalizeFrom afterCR s) = true.
Proof.
  revert afterCR. induction s as [|c s IH]; intros afterCR; [reflexivity|].
  cbn [Dom.nulFree Dom.normalizeFrom].
  destruct (Ascii.eqb c Dom.NUL) eqn:Enul; [discriminate|].
  cbn [negb andb]. intros Hs.
  destruct (Ascii.eqb c Dom.CR) eqn:Ecr.
  - cbn. now apply IH.
  - destruct (Ascii.eqb c Dom.LF && afterCR); [now apply IH|].
    cbn [Dom.normalized]. rewrite Ecr, Enul. now apply IH.
Qed.

Lemma decodeHTML_normalized (html : string) :
  Dom.normalized (decodeHTML html) = true.
Proof.
  apply normalizeFrom_normalized, decodeFrom_nulFree.
  vm_compute. reflexivity.
Qed.

(** What a [<textarea>] has decoded, it decodes to itself when no ampersand
    is left in it, and a button that is assigned it shows it as it is. *)
Lemma decodeHTML_plainText (html : string) :
  Dom.plainText (decodeHTML html) = true ->
  decodeHTML (decodeHTML html) = decodeHTML html /\
  Dom.parseText (decodeHTML html) = decodeHTML html.
Proof.
  intros Hplain. pose proof (decodeHTML_normalized html) as Hnormal.
  split; [now apply decodeHTML_plain|now apply parseText_plain].
Qed.

(** ** Scoring *)

Lemma Qfloor_timeTaken (now start : Z) :
  Qfloor (timeTaken now start) = (now - start) / 1000.
Proof.
  unfold timeTaken, Qdiv, Qmult, Qinv, Qfloor. cbn.
  now rewrite Z.mul_1_r.
Qed.

(** C1.  For an elapsed time of [t >= 0] seconds the points of a question
    are [max(1000 - 10 * floor(t), 0)], between 0 and 1000; for the elapsed
    time the handler computes from two [Date.now] instants the floor is the
    integral quotient of the milliseconds by 1000; the points are 1000 at 0
    seconds and 0 at 100 and at 150 seconds. *)
Theorem scoreForThisQuestion_formula (t : Q) :
  (0 <= t)%Q ->
  scoreForThisQuestion t = Z.max (1000 - 10 * Qfloor t) 0 /\
  0 <= scoreForThisQuestion t <= 1000 /\
  (forall now start : Z,
     t = timeTaken now start ->
     scoreForThisQuestion t = Z.max (1000 - 10 * ((now - start) / 1000)) 0) /\
  scoreForThisQuestion (inject_Z 0) = 1000 /\
  scoreForThisQuestion (inject_Z 100) = 0 /\
  scoreForThisQuestion (inject_Z 150) = 0.
Proof.
  intros Ht.
  assert (Hfloor : 0 <= Qfloor t).
  { change 0 with (Qfloor (inject_Z 0)). now apply Qfloor_resp_le. }
  unfold scoreForThisQuestion, baseScorePerQuestion, penaltyPerSecond.
  repeat split; try lia.
  intros now start ->. rewrite Qfloor_timeTaken. lia.
Qed.

Lemma scoreForThisQuestion_formula_witness :
  (0 <= 23 # 10)%Q /\ scoreForThisQuestion (23 # 10) = 980.
Proof.
  assert (H : (0 <= 23 # 10)%Q) by (unfold Qle; simpl; lia).
  split; [exact H|].
  destruct (scoreForThisQuestion_formula (23 # 10) H) as [-> _].
  reflexivity.
Defined.

(** ** What the handlers leave alone *)

Lemma displayQuestion_vars (now : Z) (random : nat -> Q) (st : State) :
  let st' := displayQuestion now random st in
  currentQuestions st' = currentQuestions st /\
  questionIndex st' = questionIndex st /\
  score st' = score st /\
  timers st' = timers st /\
  uncaught st' = uncaught st.
Proof.
  unfold displayQuestion.
  destruct (currentQuestions st !! questionIndex st); [now cbn|].
  unfold updateHighScore. destruct (score st >? highScore st); now cbn.
Qed.

(** ** High score *)

Lemma updateHighScore_stored (st : State) :
  stored st = highScore st ->
  let st' := updateHighScore st in
  stored st' = Z.max (stored st) (score st) /\
  highScore st' = stored st' /\
  score st' = score st.
Proof.
  intros Hsync. unfold updateHighScore, stored in *.
  destruct (Z.gtb_spec (score st) (highScore st)); cbn; lia.
Qed.

(** C2.  When a session finishes (the question list is exhausted), the
    stored high score becomes the maximum of the stored value and the final
    score; the variable [highScore] agrees with it; a final score that does
    not exceed the stored value, a tie included, leaves the stored item
    untouched, a greater one is stored; the stored value does not
    decrease. *)
Theorem highScore_after_session (st : State) (now : Z) (random : nat -> Q) :
  stored st = highScore st ->
  (length (currentQuestions st) <= questionIndex st)%nat ->
  let st' := displayQuestion now random st in
  stored st' = Z.max (stored st) (score st) /\
  highScore st' = stored st' /\
  (score st <= stored st -> localStorage st' = localStorage st) /\
  (stored st < score st -> localStorage st' = Some (score st)) /\
  stored st <= stored st'.
Proof.
  intros Hsync Hlen. unfold displayQuestion.
  rewrite (lookup_ge_None_2 _ _ Hlen).
  unfold updateHighScore, stored in *.
  destruct (Z.gtb_spec (score st) (highScore st)); cbn; repeat split; try lia;
    intros; try lia; reflexivity.
Qed.

Lemma highScore_after_session_witness :
  stored (displayQuestion 0 half tiedSession) = 500 /\
  localStorage (displayQuestion 0 half tiedSession) = Some 500.
Proof.
  assert (Hsync : stored tiedSession = highScore tiedSession) by reflexivity.
  assert (Hlen : (length (currentQuestions tiedSession)
                  <= questionIndex tiedSession)%nat) by (cbn; lia).
  destruct (highScore_after_session tiedSession 0 half Hsync Hlen)
    as (H1 & _ & H3 & _).
  split; [exact H1 | apply H3; cbn; lia].
Defined.

(** ** Decoding and the correctness comparison *)

Lemma sameAnswer_spec (x y : string) :
  sameAnswer x y = true <-> decodeHTML x = decodeHTML y.
Proof. unfold sameAnswer. now rewrite bool_decide_eq_true. Qed.




(** Decoding is the identity on every text without an ampersand that a
    [<textarea>] has returned, in particular on every decoded answer in
    which no ampersand is left. *)
Lemma decodeHTML_fixed_point (html : string) :
  Dom.plainText (decodeHTML html) = true ->
  decodeHTML (decodeHTML html) = decodeHTML html.
Proof. intros Hplain. now apply decodeHTML_plainText. Qed.

(** An answer that is escaped twice is decoded twice on its way to the
    page, once by [decodeHTML] and once by the assignment to [innerHTML]:
    the button made from the correct answer [&amp;lt;] shows [<], and a
    click on it is not taken for correct. *)
Example answerButton_escaped_twice :
  let button := answerButton "&amp;lt;" ["&amp;lt;"] "&amp;lt;" in
  textual (children button) = true /\
  textOf (children button) = "<" /\
  innerHTML button = "&lt;" /\
  sameAnswer (innerHTML button) "&amp;lt;" = false.
Proof.
  intros button. split; [vm_compute; reflexivity|].
  split; [vm_compute; reflexivity|]. split; vm_compute; reflexivity.
Qed.

(** ** Loading the questions *)

Lemma fetchQuestions_then_resolved (results : list Question) (now : Z)
    (random : nat -> Q) (st : State) :
  let st' := fetchQuestions_then (Resolved results) now random st in
  currentQuestions st' = results /\
  questionIndex st' = 0%nat /\
  score st' = 0.
Proof.
  unfold fetchQuestions_then.
  destruct (displayQuestion_vars now random
              (set_score 0 (set_questionIndex 0
                 (set_currentQuestions results st))))
    as (Hq & Hi & Hs & _).
  now rewrite Hq, Hi, Hs.
Qed.

(** C8.  When the request succeeds, the returned sequence is the question
    list and the session restarts at index 0 with score 0; when it fails, an
    alert shows the error and the question list, the index, the score and
    the quiz view are what they were. *)
Theorem fetchQuestions_then_outcome (st : State) (now : Z)
    (random : nat -> Q) :
  (forall results : list Question,
     let st' := fetchQuestions_then (Resolved results) now random st in
     currentQuestions st' = results /\
     questionIndex st' = 0%nat /\
     score st' = 0) /\
  (forall error : string,
     let st' := fetchQuestions_then (Rejected error) now random st in
     alerts st' = alerts st ++ ["Error:" +:+ error] /\
     currentQuestions st' = currentQuestions st /\
     questionIndex st' = questionIndex st /\
     score st' = score st /\
     questionContainer st' = questionContainer st /\
     answersContainer st' = answersContainer st /\
     rendered st' = rendered st /\
     highScore st' = highScore st /\
     localStorage st' = localStorage st).
Proof.
  split.
  - intros results. apply fetchQuestions_then_resolved.
  - intros error. now cbn.
Qed.

Lemma displayQuestion_exhausted (now : Z) (random : nat -> Q) (st : State) :
  currentQuestions st !! questionIndex st = None ->
  displayQuestion now random st = showResults (updateHighScore st).
Proof. intros H. unfold displayQuestion. now rewrite H. Qed.

Lemma showResults_page (st : State) :
  let st' := showResults st in
  score st' = score st /\
  highScore st' = highScore st /\
  localStorage st' = localStorage st /\
  rendered st' = rendered st ++ [RenderedResults (score st)] /\
  questionContainer st' = TextNode "Quiz Finished!" /\
  resultContainer st'
  = "Your final score is " +:+ Dom.numberToString (score st) /\
  answersContainer st' = [restartButton] /\
  progressContainer st' = "" /\
  currentQuestions st' = currentQuestions st /\
  questionIndex st' = questionIndex st /\
  timers st' = timers st /\
  categorySelect st' = categorySelect st.
Proof. repeat split. Qed.

Lemma updateHighScore_vars (st : State) :
  let st' := updateHighScore st in
  score st' = score st /\
  highScore st' = Z.max (highScore st) (score st) /\
  rendered st' = rendered st /\
  currentQuestions st' = currentQuestions st /\
  questionIndex st' = questionIndex st /\
  timers st' = timers st /\
  answersContainer st' = answersContainer st /\
  categorySelect st' = categorySelect st.
Proof.
  unfold updateHighScore.
  destruct (Z.gtb_spec (score st) (highScore st)); repeat split;
    try reflexivity; cbn [highScore set_highScore set_localStorage
                            updateHighScoreDisplay set_highScoreDisplay]; lia.
Qed.

(** C9.  An empty question list finishes the session at once: the score is
    0, the high-score check has run, the results view is on the page with
    the final score 0 and the restart button, and no question has been
    rendered. *)
Theorem empty_question_list_finishes (st : State) (now : Z)
    (random : nat -> Q) :
  let st' := fetchQuestions_then (Resolved []) now random st in
  score st' = 0 /\
  highScore st' = Z.max (highScore st) 0 /\
  rendered st' = rendered st ++ [RenderedResults 0] /\
  finished st' = true /\
  questionContainer st' = TextNode "Quiz Finished!" /\
  resultContainer st' = "Your final score is 0" /\
  answersContainer st' = [restartButton] /\
  progressContainer st' = "".
Proof.
  intros st'. subst st'. unfold fetchQuestions_then.
  set (st0 := set_score 0 (set_questionIndex 0 (set_currentQuestions [] st))).
  rewrite (displayQuestion_exhausted now random st0) by reflexivity.
  destruct (showResults_page (updateHighScore st0))
    as (Hs & Hh & _ & Hr & Hq & Hres & Ha & Hp & _).
  destruct (updateHighScore_vars st0) as (Hs0 & Hh0 & Hr0 & _).
  unfold finished.
  rewrite Hs, Hh, Hr, Hq, Hres, Ha, Hp, Hs0, Hh0, Hr0, last_snoc.
  repeat split.
Qed.
(** ** Loading the categories *)

Lemma fetchCategories_then_appends (data : list Category) (st : State) :
  categorySelect (fetchCategories_then data st)
  = categorySelect st ++ map optionOf data.
Proof. reflexivity. Qed.

Lemma categories_settled (data : list Category) (st : State) :
  categorySelect (step st (CategoriesSettled (Resolved data)))
  = categorySelect st ++ map optionOf data.
Proof. reflexivity. Qed.

Lemma start_clicked_categories (amount category difficulty : string)
    (st : State) :
  categorySelect (step st (StartClicked amount category difficulty))
  = categorySelect st.
Proof. reflexivity. Qed.

Lemma empty_game_categories (now : Z) (random : nat -> Q) (st : State) :
  let st' := step st (QuestionsSettled (Resolved []) now random) in
  categorySelect st' = categorySelect st /\
  answersContainer st' = [restartButton].
Proof.
  cbn [step]. unfold fetchQuestions_then.
  set (st0 := set_score 0 _).
  rewrite (displayQuestion_exhausted now random st0) by reflexivity.
  destruct (showResults_page (updateHighScore st0))
    as (_ & _ & _ & _ & _ & _ & Ha & _ & _ & _ & _ & Hc).
  destruct (updateHighScore_vars st0) as (_ & _ & _ & _ & _ & _ & _ & Hc0).
  split; [now rewrite Hc, Hc0|exact Ha].
Qed.

Lemma restart_clicked_categories (now : Z) (st : State) :
  answersContainer st = [restartButton] ->
  categorySelect (step st (Click 0 now)) = categorySelect st.
Proof. intros Ha. cbn [step]. unfold click. now rewrite Ha. Qed.

(** Whatever options [#category] starts with, a load at startup and the
    load that follows a restart (here after a game over an empty list) leave
    them in place and add their entries one after the other. *)
Lemma restart_appends_categories (item : option Z)
    (options : list OptionElement) (data data' : list Category) :
  let st1 := step (pageLoad item options block none)
               (CategoriesSettled (Resolved data)) in
  let st2 :=
    step (step (step (step st1 (StartClicked "1" "" ""))
                  (QuestionsSettled (Resolved []) 0 half))
            (Click 0 1000))
      (CategoriesSettled (Resolved data')) in
  categorySelect st1 = options ++ map optionOf data /\
  categorySelect st2 = options ++ map optionOf data ++ map optionOf data'.
Proof.
  intros st1 st2.
  assert (H1 : categorySelect st1 = options ++ map optionOf data)
    by apply categories_settled.
  split; [exact H1|].
  subst st2. clearbody st1.
  destruct (empty_game_categories 0 half (step st1 (StartClicked "1" "" "")))
    as [Hc Ha].
  rewrite categories_settled, (restart_clicked_categories _ _ Ha), Hc.
  now rewrite start_clicked_categories, H1, <- app_assoc.
Qed.

(** C7, evaluated on a page that starts with an empty selector, loads one
    category at startup and loads it again after a restart: the first load
    fills the selector with the one entry, the second one adds the entry
    again instead of replacing the contents, and the selector has a
    duplicate. *)
Theorem categories_duplicated_after_restart :
  categorySelect (run freshPage
                    [CategoriesSettled (Resolved [generalKnowledge])])
  = [{| value := "9"; textContent := "General Knowledge" |}] /\
  categorySelect restartedOnce
  = [{| value := "9"; textContent := "General Knowledge" |};
     {| value := "9"; textContent := "General Knowledge" |}] /\
  categorySelect restartedOnce <> map optionOf [generalKnowledge] /\
  ~ NoDup (categorySelect restartedOnce).
Proof.
  assert (H : categorySelect restartedOnce
              = [{| value := "9"; textContent := "General Knowledge" |};
                 {| value := "9"; textContent := "General Knowledge" |}])
    by now vm_compute.
  split; [now vm_compute|]. split; [exact H|]. split; intros ?.
  - rewrite H in *. discriminate.
  - rewrite H in *. match goal with Hn : NoDup _ |- _ =>
      apply NoDup_cons_1_1 in Hn; apply Hn; left end.
Qed.

(** ** The lookup of the correct button *)

(** C10, evaluated on [tomAndJerry]: the buttons read back
    [Tom &amp; Jerry] for the correct answer, the lookup compares this
    with the decoded [Tom & Jerry] and finds nothing, and a click on a wrong
    answer throws when it reads [classList] of [undefined]. *)
Theorem correctButton_undefined :
  let st := started [tomAndJerry] in
  let answers := ["Looney Tunes"; "Tom &amp; Jerry"; "Popeye"; "Mickey Mouse"] in
  map innerHTML (answersContainer st)
  = ["Looney Tunes"; "Tom &amp; Jerry"; "Popeye"; "Mickey Mouse"] /\
  decodeHTML "Tom &amp; Jerry" = "Tom & Jerry" /\
  findCorrectButton "Tom &amp; Jerry" answers (disableButtons st) = None /\
  (exists button,
     answersContainer st !! 0%nat = Some button /\
     onclick button = SelectAnswer "Tom &amp; Jerry" answers /\
     fst (selectAnswer 0 button "Tom &amp; Jerry" answers 2300 st)
     = Throw "TypeError: Cannot read properties of undefined (reading 'classList')").
Proof.
  intros st answers.
  do 3 (split; [now vm_compute|]).
  eexists. split; [now vm_compute|]. split; now vm_compute.
Qed.

Lemma stuck_step (st : State) (event : Event) :
  stuck st -> sessionEvent event = true -> step st event = st.
Proof.
  intros [Htimers Hbuttons] Hevent.
  destruct event as [child now|now random| | |]; try discriminate;
    cbn [step].
  - unfold click.
    destruct (answersContainer st !! child) as [button|] eqn:Hchild;
      [|reflexivity].
    rewrite Forall_lookup in Hbuttons.
    now rewrite (Hbuttons _ _ Hchild).
  - now rewrite Htimers.
Qed.

Lemma stuck_run (st : State) (events : list Event) :
  stuck st ->
  Forall (fun event => sessionEvent event = true) events ->
  run st events = st.
Proof.
  intros Hstuck Hevents.
  induction Hevents as [|event events Hevent _ IH]; [reflexivity|].
  unfold run in *. cbn [foldl]. now rewrite stuck_step.
Qed.

(** C3, evaluated on the same page: after the one submission of a session
    over one question and the delay that follows it, the index is still 0
    and no results view has been rendered: the submission has thrown before
    it set the timer, every button is disabled, and no later click or timer
    changes the page. *)
Theorem session_stuck_after_wrong_answer :
  let st := run (started [tomAndJerry]) [Click 0 2300; TimerFired 5300 half] in
  length (currentQuestions st) = 1%nat /\
  questionIndex st = 0%nat /\
  finished st = false /\
  timesFinished st = 0%nat /\
  rendered st = [RenderedQuestion 0] /\
  uncaught st
  = ["TypeError: Cannot read properties of undefined (reading 'classList')"] /\
  stuck st /\
  forall events : list Event,
    Forall (fun event => sessionEvent event = true) events ->
    run st events = st.
Proof.
  intros st.
  assert (Hstuck : stuck st).
  { split; [now vm_compute|]. vm_compute. repeat constructor. }
  do 6 (split; [now vm_compute|]).
  split; [exact Hstuck|].
  intros events. now apply stuck_run.
Qed.

(** ** The shuffle is a permutation *)

Section ShuffleFacts.
Context {A : Type}.
Implicit Types (array : list A) (x y : A) (i j : nat).

Lemma insert_head_Permutation array j x y :
  array !! j = Some y -> y :: <[j := x]> array ≡ₚ x :: array.
Proof.
  revert j. induction array as [|a array IH]; intros [|j] Hj;
    simplify_eq/=.
  - apply perm_swap.
  - rewrite (perm_swap a y). rewrite (IH j Hj). apply perm_swap.
Qed.

Lemma swap_Permutation i j array : swap i j array ≡ₚ array.
Proof.
  unfold swap.
  destruct (array !! j) as [aj|] eqn:Hj; [|reflexivity].
  destruct (array !! i) as [ai|] eqn:Hi; [|reflexivity].
  revert i j Hi Hj.
  induction array as [|a array IH]; intros [|i] [|j] Hi Hj; simplify_eq/=.
  - reflexivity.
  - now apply insert_head_Permutation.
  - now apply insert_head_Permutation.
  - constructor. now apply IH.
Qed.

Lemma shuffleFrom_Permutation i (random : nat -> Q) (calls : nat) array :
  shuffleFrom i random calls array ≡ₚ array.
Proof.
  revert calls array. induction i as [|i IH]; intros calls array;
    [reflexivity|].
  cbn [shuffleFrom]. rewrite IH. apply swap_Permutation.
Qed.

Lemma shuffleArray_Permutation (random : nat -> Q) array :
  shuffleArray random array ≡ₚ array.
Proof. apply shuffleFrom_Permutation. Qed.

End ShuffleFacts.


(** ** What the buttons show *)

(** C4, evaluated on [lessThanSign]: [displayAnswers] assigns each decoded
    answer to the [innerHTML] of its button (script.js 117), which decodes
    it once more.  The decoded choices are [&gt;], [&amp;], [&apos;] and
    [&lt;]; the buttons, each of which holds a text, show [>], [<], [&] and
    ['], which is another multiset; and the test of script.js 143 takes
    none of the four displayed choices for the correct one. *)
Theorem displayAnswers_decodes_twice :
  let buttons := answersContainer (started [lessThanSign]) in
  let shown := map (fun button => textOf (children button)) buttons in
  let decoded :=
    map decodeHTML
      (incorrect_answers lessThanSign ++ [correct_answer lessThanSign]) in
  Forall (fun button => textual (children button) = true) buttons /\
  decoded = ["&gt;"; "&amp;"; "&apos;"; "&lt;"] /\
  shown = [">"; "<"; "&"; "'"] /\
  ~ shown ≡ₚ decoded /\
  Forall (fun button =>
            sameAnswer (innerHTML button) (correct_answer lessThanSign)
            = false)
    buttons.
Proof.
  intros buttons shown decoded.
  assert (Hdecoded : decoded = ["&gt;"; "&amp;"; "&apos;"; "&lt;"])
    by (vm_compute; reflexivity).
  assert (Hshown : shown = [">"; "<"; "&"; "'"])
    by (vm_compute; reflexivity).
  assert (Htextual : Forall (fun button => textual (children button) = true)
                       buttons).
  { assert (H : forallb (fun button => textual (children button)) buttons
                = true)
      by (vm_compute; reflexivity).
    rewrite forallb_forall in H. apply Forall_forall. intros button Hin.
    apply H. now apply list_elem_of_In. }
  assert (Hnone : Forall (fun button =>
                            sameAnswer (innerHTML button)
                              (correct_answer lessThanSign) = false)
                    buttons).
  { assert (H : forallb (fun button =>
                           negb (sameAnswer (innerHTML button)
                                   (correct_answer lessThanSign)))
                  buttons = true)
      by (vm_compute; reflexivity).
    rewrite forallb_forall in H. apply Forall_forall. intros button Hin.
    apply negb_true_iff, H. now apply list_elem_of_In. }
  clearbody shown decoded buttons. subst shown decoded.
  split; [exact Htextual|]. split; [reflexivity|]. split; [reflexivity|].
  split; [|exact Hnone].
  intros Hperm.
  assert (Hin : In "<" ["&gt;"; "&amp;"; "&apos;"; "&lt;"]).
  { apply (Permutation_in _ Hperm). right. now left. }
  destruct Hin as [H|[H|[H|[H|[]]]]]; discriminate.
Qed.

(** ** The running score *)

Lemma scoreForThisQuestion_ms (now start : Z) :
  scoreForThisQuestion (timeTaken now start)
  = Z.max (1000 - 10 * ((now - start) / 1000)) 0.
Proof.
  unfold scoreForThisQuestion, baseScorePerQuestion, penaltyPerSecond.
  rewrite Qfloor_timeTaken. lia.
Qed.

Lemma selectAnswer_vars (selectedButton : nat) (selected : Button)
    (correctAnswer : string) (answers : list string) (now : Z) (st : State) :
  let st' := snd (selectAnswer selectedButton selected correctAnswer answers
                    now st) in
  score st'
  = score st + (if sameAnswer (innerHTML selected) correctAnswer
                then scoreForThisQuestion (timeTaken now (questionStartTime st))
                else 0) /\
  rendered st' = rendered st /\
  currentQuestions st' = currentQuestions st /\
  questionIndex st' = questionIndex st.
Proof.
  unfold selectAnswer.
  destruct (sameAnswer (innerHTML selected) correctAnswer).
  - now cbn.
  - destruct (findCorrectButton correctAnswer answers (disableButtons st));
      cbn; repeat split; lia.
Qed.

(** C5, evaluated on [lessThanSign]: the user selects the choice that was
    made for the correct answer (the string assigned to its button is the
    decoded correct answer) 2.3 s after the question was rendered, which is
    worth 980 points.  The button reads back [&lt;], the test of script.js
    143 decodes this to [<] and compares it with the decoded correct
    answer [&lt;]: the submission is taken for wrong, and the session
    finishes with the score 0. *)
Theorem correct_choice_scores_nothing :
  let start := started [lessThanSign] in
  let st := run start [Click 1 2300; TimerFired 5300 half] in
  (exists button,
     answersContainer start !! 1%nat = Some button /\
     disabled button = false /\
     textual (children button) = true /\
     assigned (children button) = decodeHTML (correct_answer lessThanSign) /\
     onclick button
     = SelectAnswer (correct_answer lessThanSign)
         ["&amp;gt;"; "&amp;lt;"; "&amp;amp;"; "&amp;apos;"]) /\
  scoreForThisQuestion (timeTaken 2300 (questionStartTime start)) = 980 /\
  resultContainer (click 1 2300 start)
  = "Wrong! The correct answer was: &lt;" /\
  score (click 1 2300 start) = 0 /\
  uncaught st = [] /\
  rendered st = [RenderedQuestion 0; RenderedResults 0] /\
  score st = 0.
Proof.
  intros start st. split.
  { eexists. split; [vm_compute; reflexivity|].
    split; [vm_compute; reflexivity|]. split; [vm_compute; reflexivity|].
    split; vm_compute; reflexivity. }
  split; [vm_compute; reflexivity|]. split; [vm_compute; reflexivity|].
  split; [vm_compute; reflexivity|]. split; [vm_compute; reflexivity|].
  split; vm_compute; reflexivity.
Qed.

(** The callback of the timer ends with [resultContainer.innerText = '']:
    when it has rendered the results view, the line with the final score
    that [showResults] wrote is erased again. *)
Lemma nextQuestion_clears_result (now : Z) (random : nat -> Q) (st : State) :
  resultContainer (nextQuestion now random st) = "".
Proof. reflexivity. Qed.

(** ** Sessions over answerable questions run to the end *)

Lemma markupFree_plainText (s : string) :
  Dom.markupFree s = true -> Dom.plainText s = true.
Proof.
  induction s as [|c s IH]; [reflexivity|]. cbn [Dom.markupFree Dom.plainText].
  destruct (Ascii.eqb c "&"); [discriminate|].
  cbn [negb andb]. intros H.
  apply andb_prop in H as [_ H]. now apply IH.
Qed.

Lemma markupFree_tagFree (s : string) :
  Dom.markupFree s = true -> Dom.tagFree s = true.
Proof.
  induction s as [|c s IH]; [reflexivity|]. cbn [Dom.markupFree Dom.tagFree].
  destruct (Ascii.eqb c "&"); [discriminate|].
  destruct (Ascii.eqb c "<"); [discriminate|].
  cbn [negb andb]. intros H.
  apply andb_prop in H as [_ H]. now apply IH.
Qed.

Lemma serializeText_markupFree (s : string) :
  Dom.markupFree s = true -> Dom.serializeText s = s.
Proof.
  induction s as [|c s IH _] using string_pair_ind; [reflexivity|].
  cbn [Dom.markupFree Dom.serializeText]. unfold Dom.escapeChar.
  destruct (Ascii.eqb c "&"); [discriminate|].
  destruct (Ascii.eqb c "<"); [discriminate|].
  destruct (Ascii.eqb c ">"); [discriminate|].
  cbn [negb andb]. intros H. apply andb_prop in H as [Hnbsp Hs].
  destruct (Ascii.eqb c "194").
  - destruct s as [|d s']; [reflexivity|].
    destruct (Ascii.eqb d "160"); [discriminate|].
    f_equal. now apply IH.
  - change (String c "" +:+ Dom.serializeText s)
      with (String c (Dom.serializeText s)).
    f_equal. now apply IH.
Qed.

(** The button made for the correct answer of an answerable question shows
    the decoded correct answer and reads it back unchanged. *)
Lemma innerHTML_answerable (q : Question) (answers : list string) :
  answerable q ->
  innerHTML (answerButton (correct_answer q) answers (correct_answer q))
  = decodeHTML (correct_answer q).
Proof.
  intros [Hq _]. unfold innerHTML, answerButton. cbn [children textOf].
  rewrite (parseText_plain (decodeHTML (correct_answer q)))
    by (apply markupFree_plainText, Hq || apply decodeHTML_normalized).
  now apply serializeText_markupFree.
Qed.

Lemma foldl_assign {A B : Type} (test : A -> bool) (v init : B)
    (l : list A) :
  (exists x, x ∈ l /\ test x = true) ->
  foldl (fun acc x => if test x then v else acc) init l = v.
Proof.
  intros (x & Hin & Hx). revert init.
  induction l as [|y l IH]; intros init.
  - now apply elem_of_nil in Hin.
  - cbn [foldl]. apply elem_of_cons in Hin as [<-|Hin].
    + rewrite Hx. clear IH. induction l as [|z l IHl]; [reflexivity|].
      cbn [foldl]. destruct (test z); exact IHl.
    + now apply IH.
Qed.

Lemma findCorrectButton_found (correctAnswer : string)
    (answers : list string) (st : State) (button : Button) :
  correctAnswer ∈ answers ->
  button ∈ answersContainer st ->
  innerHTML button = decodeHTML correctAnswer ->
  is_Some (findCorrectButton correctAnswer answers st).
Proof.
  intros Hin Hbutton Hhtml. unfold findCorrectButton.
  rewrite (foldl_assign (fun answer => sameAnswer answer correctAnswer)).
  - destruct (list_find_elem_of
                (fun b => innerHTML b = decodeHTML correctAnswer)
                (answersContainer st) button Hbutton Hhtml) as [found ->].
    now eexists.
  - exists correctAnswer. split; [exact Hin|]. now apply sameAnswer_spec.
Qed.

Lemma disableButtons_innerHTML (st : State) (button : Button) :
  button ∈ answersContainer st ->
  exists button',
    button' ∈ answersContainer (disableButtons st) /\
    innerHTML button' = innerHTML button.
Proof.
  intros Hin. unfold disableButtons. cbn [answersContainer set_answersContainer].
  eexists. split.
  - apply list_elem_of_fmap. exists button. split; [reflexivity|exact Hin].
  - now destruct (bool_decide _).
Qed.

Lemma selectAnswer_completes (selectedButton : nat) (selected : Button)
    (correctAnswer : string) (answers : list string) (now : Z) (st : State) :
  is_Some (findCorrectButton correctAnswer answers (disableButtons st)) ->
  let result := selectAnswer selectedButton selected correctAnswer answers
                  now st in
  fst result = Normal /\
  timers (snd result) = S (timers st) /\
  uncaught (snd result) = uncaught st.
Proof.
  intros [correctButton Hfound]. unfold selectAnswer.
  destruct (sameAnswer (innerHTML selected) correctAnswer).
  - now cbn.
  - rewrite Hfound. now cbn.
Qed.

Lemma displayQuestion_rendered (now : Z) (random : nat -> Q) (st : State) :
  rendered (displayQuestion now random st)
  = rendered st ++ [nextRendering st].
Proof.
  unfold displayQuestion, nextRendering.
  destruct (currentQuestions st !! questionIndex st); [reflexivity|].
  destruct (showResults_page (updateHighScore st)) as (_ & _ & _ & -> & _).
  destruct (updateHighScore_vars st) as (-> & _ & -> & _).
  reflexivity.
Qed.

Lemma displayQuestion_awaiting (now : Z) (random : nat -> Q) (st : State) :
  timers st = 0%nat -> awaiting (displayQuestion now random st).
Proof.
  intros Htimers.
  destruct (displayQuestion_vars now random st) as (Hq & Hi & _ & Ht & _).
  split; [now rewrite Ht|].
  intros q. rewrite Hq, Hi. intros Hlookup.
  unfold displayQuestion. rewrite Hlookup.
  cbn [answersContainer set_rendered set_questionStartTime updateProgress
       set_progressContainer displayAnswers set_answersContainer
       set_questionContainer app].
  pose proof (shuffleArray_Permutation random
                (incorrect_answers q ++ [correct_answer q])) as Hperm.
  exists (shuffleArray random (incorrect_answers q ++ [correct_answer q])).
  split; [|split; [|reflexivity]].
  - rewrite Hperm. apply elem_of_app. right. now left.
  - rewrite Hperm, length_app. cbn. lia.
Qed.

Lemma click_answer (st : State) (child : nat) (now : Z) (q : Question) :
  awaiting st ->
  currentQuestions st !! questionIndex st = Some q ->
  answerable q ->
  (child < S (length (incorrect_answers q)))%nat ->
  let st' := click child now st in
  timers st' = 1%nat /\
  uncaught st' = uncaught st /\
  rendered st' = rendered st /\
  currentQuestions st' = currentQuestions st /\
  questionIndex st' = questionIndex st.
Proof.
  intros [Htimers Hbuttons] Hlookup Hq Hchild st'. subst st'.
  destruct (Hbuttons q Hlookup) as (answers & Hin & Hlen & Hcontainer).
  destruct (lookup_lt_is_Some_2 answers child) as [answer Hanswer]; [lia|].
  assert (Hclicked : answersContainer st !! child
                     = Some (answerButton (correct_answer q) answers answer)).
  { rewrite Hcontainer, list_lookup_fmap, Hanswer. reflexivity. }
  assert (Hfound : is_Some (findCorrectButton (correct_answer q) answers
                              (disableButtons st))).
  { destruct (disableButtons_innerHTML st
                (answerButton (correct_answer q) answers (correct_answer q)))
      as (button' & Hin' & Hhtml).
    { rewrite Hcontainer. apply list_elem_of_fmap.
      exists (correct_answer q). split; [reflexivity|exact Hin]. }
    apply (findCorrectButton_found _ _ _ button' Hin Hin').
    rewrite Hhtml. now apply innerHTML_answerable. }
  unfold click. rewrite Hclicked.
  cbn [disabled onclick answerButton].
  fold (answerButton (correct_answer q) answers answer).
  destruct (selectAnswer_completes child
              (answerButton (correct_answer q) answers answer)
              (correct_answer q) answers now st Hfound)
    as (Hnormal & Htimers2 & Huncaught2).
  destruct (selectAnswer_vars child
              (answerButton (correct_answer q) answers answer)
              (correct_answer q) answers now st)
    as (_ & Hrendered2 & Hquestions2 & Hindex2).
  destruct (selectAnswer child
              (answerButton (correct_answer q) answers answer)
              (correct_answer q) answers now st)
    as [completion st2].
  cbn [fst snd] in *. subst completion.
  rewrite Htimers2, Htimers. now repeat split.
Qed.

Lemma timer_advances (st : State) (now : Z) (random : nat -> Q) :
  timers st = 1%nat ->
  let st' := step st (TimerFired now random) in
  currentQuestions st' = currentQuestions st /\
  questionIndex st' = S (questionIndex st) /\
  awaiting st' /\
  uncaught st' = uncaught st /\
  rendered st'
  = rendered st ++
      [match currentQuestions st !! S (questionIndex st) with
       | Some _ => RenderedQuestion (S (questionIndex st))
       | None => RenderedResults (score st')
       end].
Proof.
  intros Htimers st'. subst st'. cbn [step]. rewrite Htimers.
  unfold nextQuestion.
  set (st3 := set_questionIndex (S (questionIndex (set_timers 0 st)))
                (set_timers 0 st)).
  destruct (displayQuestion_vars now random st3)
    as (Hquestions4 & Hindex4 & Hscore4 & _ & Huncaught4).
  pose proof (displayQuestion_rendered now random st3) as Hrendered4.
  pose proof (displayQuestion_awaiting now random st3 eq_refl) as Hawaiting4.
  set (st4 := displayQuestion now random st3) in *.
  change (currentQuestions (set_resultContainer "" st4))
    with (currentQuestions st4).
  change (questionIndex (set_resultContainer "" st4))
    with (questionIndex st4).
  change (uncaught (set_resultContainer "" st4)) with (uncaught st4).
  change (rendered (set_resultContainer "" st4)) with (rendered st4).
  change (score (set_resultContainer "" st4)) with (score st4).
  change (awaiting (set_resultContainer "" st4)) with (awaiting st4).
  rewrite Hquestions4, Hindex4, Huncaught4, Hrendered4, Hscore4.
  unfold nextRendering.
  split; [reflexivity|]. split; [reflexivity|].
  split; [exact Hawaiting4|]. split; reflexivity.
Qed.

Lemma round_advances (st : State) (round : Round) (q : Question) :
  awaiting st ->
  currentQuestions st !! questionIndex st = Some q ->
  answerable q ->
  (choice round < S (length (incorrect_answers q)))%nat ->
  let st' := run st (roundEvents round) in
  currentQuestions st' = currentQuestions st /\
  questionIndex st' = S (questionIndex st) /\
  awaiting st' /\
  uncaught st' = uncaught st /\
  rendered st'
  = rendered st ++
      [match currentQuestions st !! S (questionIndex st) with
       | Some _ => RenderedQuestion (S (questionIndex st))
       | None => RenderedResults (score st')
       end].
Proof.
  intros Hawaiting Hlookup Hq Hchoice st'. subst st'.
  unfold run, roundEvents. cbn [foldl].
  change (step st (Click (choice round) (clickedAt round)))
    with (click (choice round) (clickedAt round) st).
  destruct (click_answer st (choice round) (clickedAt round) q
              Hawaiting Hlookup Hq Hchoice)
    as (Htimers & Huncaught & Hrendered & Hquestions & Hindex).
  destruct (timer_advances _ (firedAt round) (draws round) Htimers)
    as (Hquestions' & Hindex' & Hawaiting' & Huncaught' & Hrendered').
  rewrite Hquestions', Hindex', Huncaught', Hrendered'.
  rewrite Hquestions, Hindex, Huncaught, Hrendered.
  split; [reflexivity|]. split; [reflexivity|].
  split; [exact Hawaiting'|]. split; reflexivity.
Qed.

Lemma drop_cons_lookup {A : Type} (l l' : list A) (i : nat) (x : A) :
  drop i l = x :: l' -> l !! i = Some x /\ drop (S i) l = l'.
Proof.
  intros Hdrop.
  assert (Hx : l !! i = Some x).
  { rewrite <- (Nat.add_0_r i), <- lookup_drop, Hdrop. reflexivity. }
  split; [exact Hx|].
  rewrite (drop_S _ _ _ Hx) in Hdrop. now injection Hdrop.
Qed.

Lemma drop_nil_lookup {A : Type} (l : list A) (i : nat) :
  drop i l = [] -> l !! i = None.
Proof.
  intros Hdrop.
  rewrite <- (Nat.add_0_r i), <- lookup_drop, Hdrop. reflexivity.
Qed.

Lemma run_app (st : State) (events events' : list Event) :
  run st (events ++ events') = run (run st events) events'.
Proof. apply foldl_app. Qed.

Lemma rounds_advance (rounds : list Round) (st : State) :
  awaiting st ->
  Forall answerable (currentQuestions st) ->
  Forall2 (fun round q =>
             (choice round < S (length (incorrect_answers q)))%nat)
          rounds (drop (questionIndex st) (currentQuestions st)) ->
  let st' := run st (roundsEvents rounds) in
  currentQuestions st' = currentQuestions st /\
  questionIndex st' = (questionIndex st + length rounds)%nat /\
  uncaught st' = uncaught st /\
  rendered st'
  = rendered st ++
      match rounds with
      | [] => []
      | _ :: rest =>
          map RenderedQuestion (seq (S (questionIndex st)) (length rest))
            ++ [RenderedResults (score st')]
      end.
Proof.
  revert st. induction rounds as [|round rounds IH];
    intros st Hawaiting Hquestions Hrounds st'; subst st'.
  - cbn. rewrite Nat.add_0_r, app_nil_r. now repeat split.
  - apply Forall2_cons_inv_l in Hrounds
      as (q & rest & Hchoice & Hrest & Hdrop).
    apply drop_cons_lookup in Hdrop as [Hlookup Hdrop].
    assert (Hq : answerable q)
      by exact (Forall_lookup_1 _ _ _ _ Hquestions Hlookup).
    destruct (round_advances st round q Hawaiting Hlookup Hq Hchoice)
      as (Hquestions1 & Hindex1 & Hawaiting1 & Huncaught1 & Hrendered1).
    unfold roundsEvents. cbn [map concat]. rewrite run_app.
    fold (roundsEvents rounds).
    set (st1 := run st (roundEvents round)) in *.
    destruct (IH st1 Hawaiting1) as (Hquestions' & Hindex' & Huncaught' & Hrendered').
    { now rewrite Hquestions1. }
    { now rewrite Hquestions1, Hindex1, Hdrop. }
    rewrite Hquestions', Hindex', Huncaught', Hrendered'.
    rewrite Hquestions1, Hindex1, Huncaught1, Hrendered1.
    split; [reflexivity|]. split; [cbn; lia|]. split; [reflexivity|].
    rewrite <- app_assoc. f_equal.
    destruct rounds as [|round' rounds].
    + apply Forall2_nil_inv_l in Hrest. subst rest.
      rewrite (drop_nil_lookup _ _ Hdrop). reflexivity.
    + apply Forall2_cons_inv_l in Hrest as (q' & rest' & _ & _ & ->).
      apply drop_cons_lookup in Hdrop as [-> _]. reflexivity.
Qed.

Lemma filter_isResults_questions (indices : list nat) :
  List.filter isResults (map RenderedQuestion indices) = [].
Proof. induction indices as [|i indices IH]; [reflexivity|exact IH]. Qed.

(** X22.  Outside of the defect of C3 and C10 the session property holds: over
    answerable questions (the decoded correct answer has no character that
    the page escapes: none of [&], [<], [>] and the no-break space; no
    decoded incorrect answer opens a tag), a session of [K] questions started on a page without pending
    timer and given [K] rounds (a click on one of the buttons of the
    question on display, then the timer) ends with index [K], has rendered
    the questions 0 to [K-1] once each and in order, then the results view
    once, and has thrown no exception. *)
Theorem session_runs_to_the_end (st0 : State) (questions : list Question)
    (now : Z) (random : nat -> Q) (rounds : list Round) :
  timers st0 = 0%nat ->
  Forall answerable questions ->
  Forall2 (fun round q =>
             (choice round < S (length (incorrect_answers q)))%nat)
          rounds questions ->
  let st := run (fetchQuestions_then (Resolved questions) now random st0)
              (roundsEvents rounds) in
  questionIndex st = length questions /\
  rendered st
  = rendered st0 ++ map RenderedQuestion (seq 0 (length questions))
      ++ [RenderedResults (score st)] /\
  finished st = true /\
  timesFinished st = S (timesFinished st0) /\
  uncaught st = uncaught st0.
Proof.
  intros Htimers Hquestions Hrounds st.
  pose proof (Forall2_length _ _ _ Hrounds) as Hlength.
  set (st00 := set_score 0 (set_questionIndex 0
                 (set_currentQuestions questions st0))).
  set (start := fetchQuestions_then (Resolved questions) now random st0)
    in *.
  assert (Hstart : start = displayQuestion now random st00) by reflexivity.
  destruct (displayQuestion_vars now random st00)
    as (Hq0 & Hi0 & Hs0 & _ & Hu0).
  pose proof (displayQuestion_rendered now random st00) as Hr0.
  pose proof (displayQuestion_awaiting now random st00 Htimers) as Ha0.
  rewrite <- Hstart in *.
  change (currentQuestions st00) with questions in *.
  change (questionIndex st00) with 0%nat in *.
  change (score st00) with 0 in *.
  change (uncaught st00) with (uncaught st0) in *.
  change (rendered st00) with (rendered st0) in *.
  destruct (rounds_advance rounds start Ha0) as (Hq & Hi & Hu & Hr).
  { now rewrite Hq0. }
  { now rewrite Hq0, Hi0. }
  fold st in Hq, Hi, Hu, Hr.
  assert (Hrendered : rendered st
    = rendered st0 ++ map RenderedQuestion (seq 0 (length questions))
        ++ [RenderedResults (score st)]).
  { rewrite Hr, Hr0, Hi0. unfold nextRendering.
    change (currentQuestions st00) with questions.
    change (questionIndex st00) with 0%nat.
    change (score st00) with 0.
    rewrite <- app_assoc. f_equal.
    destruct rounds as [|round rounds].
    - apply Forall2_nil_inv_l in Hrounds. subst questions.
      change (score st) with (score start). rewrite Hs0. reflexivity.
    - destruct questions as [|q questions]; [discriminate|].
      cbn [length] in *. injection Hlength as Hlength.
      rewrite <- Hlength. reflexivity. }
  split; [rewrite Hi, Hi0; cbn; lia|].
  split; [exact Hrendered|].
  split; [unfold finished; now rewrite Hrendered, app_assoc, last_snoc|].
  split; [|now rewrite Hu, Hu0].
  unfold timesFinished. rewrite Hrendered.
  rewrite !List.filter_app, filter_isResults_questions, !length_app.
  cbn. lia.
Qed.

(** The scenario of the specification: one question, [2+2=?], answered
    with [4] after 2.3 seconds. *)
Lemma session_runs_to_the_end_example :
  let st := run (fetchQuestions_then (Resolved [twoPlusTwo]) 0 half requested)
              (roundsEvents [mkRound 1 2300 5300 half]) in
  questionIndex st = 1%nat /\
  rendered st = [RenderedQuestion 0; RenderedResults (score st)] /\
  score st = 980.
Proof.
  intros st.
  assert (Hrounds : Forall2
            (fun round q =>
               (choice round < S (length (incorrect_answers q)))%nat)
            [mkRound 1 2300 5300 half] [twoPlusTwo]).
  { repeat constructor. }
  assert (Hquestions : Forall answerable [twoPlusTwo]).
  { repeat constructor. }
  destruct (session_runs_to_the_end requested [twoPlusTwo] 0 half
              [mkRound 1 2300 5300 half] eq_refl Hquestions Hrounds)
    as (Hindex & Hrendered & _).
  split; [exact Hindex|]. split; [exact Hrendered|]. now vm_compute.
Defined.

(** ** The high score along any run of the page *)

Lemma selectAnswer_storage (selectedButton : nat) (selected : Button)
    (correctAnswer : string) (answers : list string) (now : Z) (st : State) :
  let st' := snd (selectAnswer selectedButton selected correctAnswer answers
                    now st) in
  highScore st' = highScore st /\ localStorage st' = localStorage st.
Proof.
  unfold selectAnswer.
  destruct (sameAnswer (innerHTML selected) correctAnswer); [now cbn|].
  now destruct (findCorrectButton correctAnswer answers (disableButtons st)).
Qed.

Lemma displayQuestion_synced (now : Z) (random : nat -> Q) (st : State) :
  synced st ->
  synced (displayQuestion now random st) /\
  stored st <= stored (displayQuestion now random st).
Proof.
  unfold synced. intros Hsync. unfold displayQuestion.
  destruct (currentQuestions st !! questionIndex st).
  - unfold stored in *. cbn. lia.
  - destruct (updateHighScore_stored st Hsync) as (Hmax & Hhigh & _).
    destruct (showResults_page (updateHighScore st))
      as (_ & Hh & Hl & _).
    unfold stored in *. rewrite Hh, Hl. lia.
Qed.

Lemma step_synced (st : State) (event : Event) :
  synced st ->
  synced (step st event) /\ stored st <= stored (step st event).
Proof.
  intros Hsync.
  destruct event as [child now|now random|amount category difficulty
                    |outcome now random|outcome]; cbn [step].
  - unfold click.
    destruct (answersContainer st !! child) as [button|];
      [|split; [exact Hsync|lia]].
    destruct (disabled button); [split; [exact Hsync|lia]|].
    destruct (onclick button) as [correctAnswer answers|].
    + destruct (selectAnswer_storage child button correctAnswer answers
                  now st) as [Hh Hl].
      destruct (selectAnswer child button correctAnswer answers now st)
        as [[|exception] st']; cbn [snd] in *;
        unfold synced, stored in *;
        cbn [highScore localStorage set_uncaught]; rewrite Hh, Hl; lia.
    + unfold synced, stored in *. cbn. lia.
  - destruct (timers st) as [|pending]; [split; [exact Hsync|lia]|].
    unfold nextQuestion.
    set (st1 := set_questionIndex _ _).
    destruct (displayQuestion_synced now random st1 Hsync) as [Hs Hle].
    split; [exact Hs|exact Hle].
  - unfold synced, stored in *. cbn. lia.
  - destruct outcome as [error|results]; cbn [fetchQuestions_then].
    + unfold synced, stored in *. cbn. lia.
    + set (st1 := set_score 0 _).
      destruct (displayQuestion_synced now random st1 Hsync) as [Hs Hle].
      split; [exact Hs|exact Hle].
  - destruct outcome as [error|data]; unfold synced, stored in *; cbn; lia.
Qed.

(** On every page the script has loaded, whatever happens afterwards, the
    variable [highScore] agrees with the stored item, and the stored high
    score never decreases. *)
Lemma stored_never_decreases (item : option Z) (options : list OptionElement)
    (setup quiz : Display) (events : list Event) (event : Event) :
  let st := run (pageLoad item options setup quiz) events in
  synced st /\ stored st <= stored (step st event).
Proof.
  intros st.
  assert (Hsync : synced st).
  { subst st. induction events as [|e events IH] using rev_ind.
    - reflexivity.
    - rewrite run_app. cbn. now apply step_synced. }
  split; [exact Hsync|]. now apply step_synced.
Qed.

(** ** More on scoring *)

(** X1.  The points of a question never grow with the time taken: a slower
    answer earns at most what a faster one earns. *)
Theorem scoreForThisQuestion_decreasing (t1 t2 : Q) :
  (t1 <= t2)%Q -> scoreForThisQuestion t2 <= scoreForThisQuestion t1.
Proof.
  intros Hle. pose proof (Qfloor_resp_le _ _ Hle) as Hfloor.
  unfold scoreForThisQuestion, baseScorePerQuestion, penaltyPerSecond. lia.
Qed.

Lemma scoreForThisQuestion_decreasing_witness :
  scoreForThisQuestion (73 # 10) <= scoreForThisQuestion (23 # 10).
Proof.
  apply (scoreForThisQuestion_decreasing (23 # 10) (73 # 10)).
  unfold Qle. simpl. lia.
Defined.

(** X2.  The points are 0 exactly from 100 seconds on, and they are the full
    1000 exactly when less than one second has passed (for a time that is
    not negative). *)
Theorem scoreForThisQuestion_thresholds (t : Q) :
  (scoreForThisQuestion t = 0 <-> (inject_Z 100 <= t)%Q) /\
  ((0 <= t)%Q ->
   (scoreForThisQuestion t = 1000 <-> (t < inject_Z 1)%Q)).
Proof.
  unfold scoreForThisQuestion, baseScorePerQuestion, penaltyPerSecond.
  split.
  - split.
    + intros H. assert (Hfloor : 100 <= Qfloor t) by lia.
      apply Qle_trans with (inject_Z (Qfloor t)); [|apply Qfloor_le].
      now rewrite <- Zle_Qle.
    + intros H. apply Qfloor_resp_le in H. rewrite Qfloor_Z in H. lia.
  - intros H0. apply Qfloor_resp_le in H0. change (Qfloor 0) with 0 in H0.
    split.
    + intros H. assert (Hfloor : Qfloor t = 0) by lia.
      pose proof (Qlt_floor t) as Hlt. now rewrite Hfloor in Hlt.
    + intros H. assert (Hfloor : Qfloor t < 1).
      { rewrite Zlt_Qlt. apply Qle_lt_trans with t; [apply Qfloor_le|exact H]. }
      lia.
Qed.

(** X3.  Nothing caps the points from above: when [Date.now] at the click is
    earlier than the instant stored when the question was rendered (the
    clock was set back), the points exceed the base score, by 10 for every
    second started. *)
Theorem scoreForThisQuestion_clock_set_back (now start : Z) :
  now < start ->
  scoreForThisQuestion (timeTaken now start)
  = 1000 + 10 * ((start - now + 999) / 1000) /\
  1010 <= scoreForThisQuestion (timeTaken now start).
Proof.
  intros Hlt. rewrite scoreForThisQuestion_ms.
  assert (Hdiv : (now - start) / 1000 = - ((start - now + 999) / 1000)).
  { pose proof (Z.div_mod (now - start) 1000 ltac:(lia)) as H1.
    pose proof (Z.mod_pos_bound (now - start) 1000 ltac:(lia)) as H2.
    pose proof (Z.div_mod (start - now + 999) 1000 ltac:(lia)) as H3.
    pose proof (Z.mod_pos_bound (start - now + 999) 1000 ltac:(lia)) as H4.
    lia. }
  rewrite Hdiv.
  assert (1 <= (start - now + 999) / 1000).
  { apply Z.div_le_lower_bound; lia. }
  lia.
Qed.

Lemma scoreForThisQuestion_clock_set_back_witness :
  scoreForThisQuestion (timeTaken 1000 3500) = 1030.
Proof.
  destruct (scoreForThisQuestion_clock_set_back 1000 3500 ltac:(lia))
    as [-> _].
  reflexivity.
Defined.

(** ** More on the shuffle *)

Section ShuffleMore.
Context {A : Type}.
Implicit Types (array : list A) (i j k : nat).




End ShuffleMore.



Section ShuffleReach.
Context {A : Type}.
Implicit Types (array pre suf : list A) (i j : nat).






End ShuffleReach.


(** ** What a submission does to the buttons *)

Lemma classListAdd_spec (token : string) (b : Button) :
  children (classListAdd token b) = children b /\
  onclick (classListAdd token b) = onclick b /\
  disabled (classListAdd token b) = disabled b /\
  className b ⊆ className (classListAdd token b) /\
  token ∈ className (classListAdd token b).
Proof.
  unfold classListAdd. cbn.
  destruct (bool_decide_reflect (token ∈ className b)) as [Hin|Hin].
  - repeat split; [reflexivity|exact Hin].
  - repeat split.
    + intros x Hx. apply elem_of_app. now left.
    + apply elem_of_app. right. now left.
Qed.

Lemma afterSubmission_classListAdd (token : string) (before after : Button) :
  afterSubmission before after ->
  afterSubmission before (classListAdd token after).
Proof.
  intros (Hc & Ho & Hcls & Hd).
  destruct (classListAdd_spec token after) as (Hc' & Ho' & Hd' & Hcls' & _).
  repeat split; [congruence|congruence| |congruence].
  intros x Hx. apply Hcls', Hcls, Hx.
Qed.

Lemma afterSubmission_alter (token : string) (k : nat)
    (before after : list Button) :
  Forall2 afterSubmission before after ->
  Forall2 afterSubmission before (alter (classListAdd token) k after).
Proof.
  intros H. revert k.
  induction H as [|b b' l l' Hb Hl IH]; intros k; [constructor|].
  destruct k as [|k]; cbn.
  - constructor; [now apply afterSubmission_classListAdd|exact Hl].
  - constructor; [exact Hb|apply IH].
Qed.

Lemma afterSubmission_disableButtons (st : State) :
  Forall2 afterSubmission (answersContainer st)
          (answersContainer (disableButtons st)).
Proof.
  unfold disableButtons. cbn [answersContainer set_answersContainer].
  induction (answersContainer st) as [|b l IH]; [constructor|].
  cbn [map]. constructor; [|exact IH].
  unfold afterSubmission.
  destruct (bool_decide ("answer-btn" ∈ className b)); cbn.
  - now rewrite orb_true_r.
  - now rewrite orb_false_r.
Qed.

Lemma selectAnswer_buttons (selectedButton : nat) (selected : Button)
    (correctAnswer : string) (answers : list string) (now : Z) (st : State) :
  Forall2 afterSubmission (answersContainer st)
    (answersContainer
       (snd (selectAnswer selectedButton selected correctAnswer answers
               now st))).
Proof.
  pose proof (afterSubmission_disableButtons st) as H.
  unfold selectAnswer.
  destruct (sameAnswer (innerHTML selected) correctAnswer).
  - cbn [snd scheduleNext updateCurrentScore answersContainer set_timers
         set_currentScoreDisplay set_resultContainer addClass
         set_answersContainer set_score].
    now apply afterSubmission_alter.
  - destruct (findCorrectButton correctAnswer answers (disableButtons st));
      cbn [snd scheduleNext updateCurrentScore answersContainer set_timers
           set_currentScoreDisplay set_resultContainer addClass
           set_answersContainer set_score];
      repeat apply afterSubmission_alter; exact H.
Qed.

Lemma click_buttons (child : nat) (now : Z) (st : State) (button : Button)
    (correctAnswer : string) (answers : list string) :
  answersContainer st !! child = Some button ->
  disabled button = false ->
  onclick button = SelectAnswer correctAnswer answers ->
  Forall2 afterSubmission (answersContainer st)
          (answersContainer (click child now st)).
Proof.
  intros Hchild Henabled Hlistener. unfold click.
  rewrite Hchild, Henabled, Hlistener.
  pose proof (selectAnswer_buttons child button correctAnswer answers now st)
    as H.
  destruct (selectAnswer child button correctAnswer answers now st)
    as [[|exception] st']; exact H.
Qed.

Lemma afterSubmission_all_disabled (before after : list Button) :
  Forall2 afterSubmission before after ->
  Forall (fun b => "answer-btn" ∈ className b) before ->
  Forall (fun b => disabled b = true) after.
Proof.
  induction 1 as [|b b' l l' (_ & _ & _ & Hd) _ IH]; intros Hclass;
    [constructor|].
  apply Forall_cons in Hclass as [Hb Hl].
  constructor; [|exact (IH Hl)].
  rewrite Hd, (bool_decide_eq_true_2 _ Hb). apply orb_true_r.
Qed.

(** X6.  A submission cannot be repeated: once an enabled answer button of
    a page whose buttons all carry the class [answer-btn] has been clicked,
    whether the handler completed or threw, every button is disabled, and a
    further click on any child of [#answers] changes nothing (in particular
    not the score). *)
Theorem second_click_ignored (st : State) (child : nat) (now : Z)
    (button : Button) (correctAnswer : string) (answers : list string)
    (child' : nat) (now' : Z) :
  Forall (fun b => "answer-btn" ∈ className b) (answersContainer st) ->
  answersContainer st !! child = Some button ->
  disabled button = false ->
  onclick button = SelectAnswer correctAnswer answers ->
  Forall (fun b => disabled b = true) (answersContainer (click child now st))
  /\ click child' now' (click child now st) = click child now st.
Proof.
  intros Hclass Hchild Henabled Hlistener.
  pose proof (click_buttons child now st button correctAnswer answers
                Hchild Henabled Hlistener) as Hbuttons.
  assert (Hdisabled : Forall (fun b => disabled b = true)
                        (answersContainer (click child now st))).
  { exact (afterSubmission_all_disabled _ _ Hbuttons Hclass). }
  split; [exact Hdisabled|].
  unfold click at 1.
  destruct (answersContainer (click child now st) !! child')
    as [button'|] eqn:Hchild'; [|reflexivity].
  rewrite Forall_lookup in Hdisabled.
  now rewrite (Hdisabled _ _ Hchild').
Qed.

Lemma second_click_ignored_witness :
  click 1 2500 (click 1 2300 (started [twoPlusTwo]))
  = click 1 2300 (started [twoPlusTwo]).
Proof.
  assert (H : exists button,
             answersContainer (started [twoPlusTwo]) !! 1%nat = Some button /\
             disabled button = false /\
             onclick button = SelectAnswer "4" ["3"; "4"; "5"; "22"]).
  { eexists. split; [now vm_compute|]. split; now vm_compute. }
  destruct H as (button & Hchild & Henabled & Hlistener).
  apply (second_click_ignored (started [twoPlusTwo]) 1 2300 button "4"
           ["3"; "4"; "5"; "22"] 1 2500).
  - vm_compute. repeat constructor.
  - exact Hchild.
  - exact Henabled.
  - exact Hlistener.
Defined.

(** ** The feedback of a submission *)

Lemma foldl_assign_spec {A B : Type} (test : A -> bool) (v init : B)
    (l : list A) :
  foldl (fun acc x => if test x then v else acc) init l
  = if existsb test l then v else init.
Proof.
  revert init. induction l as [|x l IH]; intros init; [reflexivity|].
  cbn [foldl existsb]. rewrite IH.
  destruct (test x); cbn; now destruct (existsb test l).
Qed.

(** X7.  The loop of script.js 137-141 amounts to one lookup: when some
    answer decodes to the same text as the correct answer, [correctButton]
    is the first child of [#answers], in page order, whose [innerHTML] is
    the decoded correct answer ([undefined] when no child reads so); when no
    answer does, an empty list of answers included, it stays [undefined]. *)
Theorem findCorrectButton_first_match (correctAnswer : string)
    (answers : list string) (st : State) :
  findCorrectButton correctAnswer answers st
  = if existsb (fun answer => sameAnswer answer correctAnswer) answers
    then fst <$> list_find
           (fun button => innerHTML button = decodeHTML correctAnswer)
           (answersContainer st)
    else None.
Proof.
  unfold findCorrectButton.
  exact (foldl_assign_spec
           (fun answer => sameAnswer answer correctAnswer) _ None answers).
Qed.

Lemma disableButtons_lookup (st : State) (k : nat) (b : Button) :
  answersContainer st !! k = Some b ->
  exists b',
    answersContainer (disableButtons st) !! k = Some b' /\
    children b' = children b /\ className b' = className b.
Proof.
  intros Hk. unfold disableButtons.
  cbn [answersContainer set_answersContainer].
  rewrite list_lookup_fmap, Hk. cbn. eexists. split; [reflexivity|].
  now destruct (bool_decide _).
Qed.

Lemma disableButtons_find (correctAnswer : string) (st : State) (k : nat)
    (target : Button) :
  list_find (fun button => innerHTML button = decodeHTML correctAnswer)
            (answersContainer st) = Some (k, target) ->
  exists target',
    list_find (fun button => innerHTML button = decodeHTML correctAnswer)
              (answersContainer (disableButtons st)) = Some (k, target') /\
    children target' = children target /\
    className target' = className target.
Proof.
  intros Hfind. apply list_find_Some in Hfind as (Hk & Htarget & Hfirst).
  destruct (disableButtons_lookup st k target Hk) as (target' & Hk' & Hc & Hcls).
  exists target'. split; [|now split].
  apply list_find_Some. split; [exact Hk'|]. split.
  - unfold innerHTML in *. now rewrite Hc.
  - intros j y Hj Hlt Hy.
    assert (is_Some (answersContainer st !! j)) as [y0 Hj0].
    { apply lookup_lt_is_Some. apply lookup_lt_Some in Hk. lia. }
    destruct (disableButtons_lookup st j y0 Hj0) as (y' & Hj' & Hc' & _).
    rewrite Hj in Hj'. injection Hj' as <-.
    apply (Hfirst j y0 Hj0 Hlt). unfold innerHTML in *. now rewrite <- Hc'.
Qed.

(** X8.  A click on an enabled answer button that holds a text, when this
    text is the decoded correct answer, adds the points of the elapsed time
    to the score, writes [Correct! + N Points] and the new score line,
    marks the clicked button [correct], leaves the classes of the other
    buttons alone, schedules one timer and throws nothing. *)
Theorem correct_answer_feedback (st : State) (child : nat) (now : Z)
    (button : Button) (correctAnswer : string) (answers : list string) :
  answersContainer st !! child = Some button ->
  disabled button = false ->
  onclick button = SelectAnswer correctAnswer answers ->
  textual (children button) = true ->
  textOf (children button) = decodeHTML correctAnswer ->
  let st' := click child now st in
  let points := scoreForThisQuestion (timeTaken now (questionStartTime st)) in
  score st' = score st + points /\
  resultContainer st'
  = "Correct! + " +:+ Dom.numberToString points +:+ " Points" /\
  currentScoreDisplay st'
  = "Current Score: " +:+ Dom.numberToString (score st + points) /\
  timers st' = S (timers st) /\
  uncaught st' = uncaught st /\
  (exists button',
     answersContainer st' !! child = Some button' /\
     "correct" ∈ className button') /\
  (forall k b,
     k <> child -> answersContainer st !! k = Some b ->
     exists b',
       answersContainer st' !! k = Some b' /\ className b' = className b).
Proof.
  intros Hchild Henabled Hlistener _ Htext st' points. subst st' points.
  unfold click. rewrite Hchild, Henabled, Hlistener.
  unfold selectAnswer.
  assert (Hsame : sameAnswer (innerHTML button) correctAnswer = true).
  { apply sameAnswer_spec. rewrite decodeHTML_innerHTML; [exact Htext|].
    rewrite Htext. apply decodeHTML_normalized. }
  rewrite Hsame.
  cbn [fst snd score resultContainer currentScoreDisplay timers uncaught
       answersContainer scheduleNext updateCurrentScore set_timers
       set_currentScoreDisplay set_resultContainer addClass
       set_answersContainer set_score disableButtons].
  do 5 (split; [reflexivity|]).
  destruct (disableButtons_lookup st child button Hchild)
    as (disabledButton & Hd & _).
  unfold disableButtons in Hd.
  cbn [answersContainer set_answersContainer] in Hd.
  split.
  - exists (classListAdd "correct" disabledButton).
    rewrite list_lookup_alter_eq, Hd. split; [reflexivity|].
    apply classListAdd_spec.
  - intros k b Hk Hb.
    destruct (disableButtons_lookup st k b Hb) as (b' & Hb' & _ & Hcls).
    unfold disableButtons in Hb'.
    cbn [answersContainer set_answersContainer] in Hb'.
    exists b'. rewrite list_lookup_alter_ne by congruence. now split.
Qed.

Lemma correct_answer_feedback_witness :
  score (click 1 2300 (started [twoPlusTwo])) = 980 /\
  resultContainer (click 1 2300 (started [twoPlusTwo]))
  = "Correct! + 980 Points" /\
  timers (click 1 2300 (started [twoPlusTwo])) = 1%nat.
Proof.
  assert (H : exists button,
             answersContainer (started [twoPlusTwo]) !! 1%nat = Some button /\
             disabled button = false /\
             onclick button = SelectAnswer "4" ["3"; "4"; "5"; "22"] /\
             textual (children button) = true /\
             textOf (children button) = decodeHTML "4").
  { eexists. split; [now vm_compute|]. split; [now vm_compute|].
    split; [now vm_compute|]. split; now vm_compute. }
  destruct H as (button & Hchild & Henabled & Hlistener & Htextual & Htext).
  destruct (correct_answer_feedback (started [twoPlusTwo]) 1 2300 button "4"
              ["3"; "4"; "5"; "22"] Hchild Henabled Hlistener Htextual Htext)
    as (Hscore & Hresult & _ & Htimers & _).
  split; [rewrite Hscore; vm_compute; reflexivity|].
  split; [rewrite Hresult|rewrite Htimers]; vm_compute; reflexivity.
Defined.

(** X9.  On a page whose buttons all hold texts, a click on an enabled
    answer button whose text (a text without U+000D and U+0000) is not the
    decoded correct answer, when the lookup of the correct button succeeds
    (some answer decodes like the correct one and [target], at position
    [k], is the first child that reads back the decoded correct answer):
    the score stays, the message names the decoded correct answer, the
    clicked button is marked [incorrect] and the button at [k] is marked
    [correct], the classes of the other buttons stay, one timer is
    scheduled and nothing is thrown. *)
Theorem wrong_answer_feedback (st : State) (child : nat) (now : Z)
    (button : Button) (correctAnswer : string) (answers : list string)
    (k : nat) (target : Button) :
  answersContainer st !! child = Some button ->
  disabled button = false ->
  onclick button = SelectAnswer correctAnswer answers ->
  Forall (fun b => textual (children b) = true) (answersContainer st) ->
  Dom.normalized (textOf (children button)) = true ->
  textOf (children button) <> decodeHTML correctAnswer ->
  (exists answer,
     answer ∈ answers /\ decodeHTML answer = decodeHTML correctAnswer) ->
  list_find (fun b => innerHTML b = decodeHTML correctAnswer)
            (answersContainer st) = Some (k, target) ->
  let st' := click child now st in
  score st' = score st /\
  resultContainer st'
  = "Wrong! The correct answer was: " +:+ decodeHTML correctAnswer /\
  currentScoreDisplay st'
  = "Current Score: " +:+ Dom.numberToString (score st) /\
  timers st' = S (timers st) /\
  uncaught st' = uncaught st /\
  (exists button',
     answersContainer st' !! child = Some button' /\
     "incorrect" ∈ className button') /\
  (exists target',
     answersContainer st' !! k = Some target' /\
     "correct" ∈ className target' /\
     innerHTML target' = decodeHTML correctAnswer) /\
  (forall p b,
     p <> child -> p <> k -> answersContainer st !! p = Some b ->
     exists b',
       answersContainer st' !! p = Some b' /\ className b' = className b).
Proof.
  intros Hchild Henabled Hlistener _ Hnormal Htext
    (answer & Hanswer & Hdecode) Hfind st'.
  subst st'.
  unfold click. rewrite Hchild, Henabled, Hlistener.
  unfold selectAnswer.
  assert (Hsame : sameAnswer (innerHTML button) correctAnswer = false).
  { apply not_true_iff_false. rewrite sameAnswer_spec.
    now rewrite decodeHTML_innerHTML. }
  rewrite Hsame.
  destruct (disableButtons_find correctAnswer st k target Hfind)
    as (target0 & Hfind0 & Hchildren0 & _).
  assert (Hcorrect : findCorrectButton correctAnswer answers
                       (disableButtons st) = Some k).
  { unfold findCorrectButton. rewrite foldl_assign_spec, Hfind0.
    replace (existsb _ answers) with true; [reflexivity|].
    symmetry. apply existsb_exists. exists answer.
    split; [now apply list_elem_of_In|now apply sameAnswer_spec]. }
  rewrite Hcorrect.
  cbn [fst snd score resultContainer currentScoreDisplay timers uncaught
       answersContainer scheduleNext updateCurrentScore set_timers
       set_currentScoreDisplay set_resultContainer addClass
       set_answersContainer set_score].
  change (score (disableButtons st)) with (score st).
  change (timers (disableButtons st)) with (timers st).
  change (uncaught (disableButtons st)) with (uncaught st).
  do 5 (split; [reflexivity|]).
  set (buttons := answersContainer (disableButtons st)) in *.
  assert (Hbuttons : forall p b,
            answersContainer st !! p = Some b ->
            exists b', buttons !! p = Some b' /\
                       children b' = children b /\
                       className b' = className b).
  { intros p b. apply disableButtons_lookup. }
  clearbody buttons.
  destruct (Hbuttons child button Hchild) as (button0 & Hchild0 & _).
  apply list_find_Some in Hfind0 as (Hk0 & Htarget0 & _).
  split; [|split].
  - destruct (decide (k = child)) as [->|Hne].
    + exists (classListAdd "correct" (classListAdd "incorrect" button0)).
      rewrite !list_lookup_alter_eq, Hchild0. split; [reflexivity|].
      apply classListAdd_spec, classListAdd_spec.
    + exists (classListAdd "incorrect" button0).
      rewrite list_lookup_alter_ne by exact Hne.
      rewrite list_lookup_alter_eq, Hchild0. split; [reflexivity|].
      apply classListAdd_spec.
  - destruct (decide (child = k)) as [->|Hne].
    + exists (classListAdd "correct" (classListAdd "incorrect" target0)).
      rewrite !list_lookup_alter_eq, Hk0. split; [reflexivity|].
      split; [apply classListAdd_spec|exact Htarget0].
    + exists (classListAdd "correct" target0).
      rewrite list_lookup_alter_eq.
      rewrite list_lookup_alter_ne by exact Hne.
      rewrite Hk0. split; [reflexivity|].
      split; [apply classListAdd_spec|exact Htarget0].
  - intros p b Hp Hpk Hb.
    destruct (Hbuttons p b Hb) as (b' & Hb' & _ & Hcls).
    exists b'. rewrite !list_lookup_alter_ne by congruence. now split.
Qed.

Lemma wrong_answer_feedback_witness :
  resultContainer (click 0 2300 (started [twoPlusTwo]))
  = "Wrong! The correct answer was: 4" /\
  score (click 0 2300 (started [twoPlusTwo])) = 0.
Proof.
  assert (H : exists button target,
             answersContainer (started [twoPlusTwo]) !! 0%nat = Some button /\
             disabled button = false /\
             onclick button = SelectAnswer "4" ["3"; "4"; "5"; "22"] /\
             Dom.normalized (textOf (children button)) = true /\
             textOf (children button) <> decodeHTML "4" /\
             list_find (fun b => innerHTML b = decodeHTML "4")
               (answersContainer (started [twoPlusTwo]))
             = Some (1%nat, target)).
  { eexists. eexists. split; [now vm_compute|]. split; [now vm_compute|].
    split; [now vm_compute|]. split; [now vm_compute|].
    split; [now vm_compute|]. now vm_compute. }
  destruct H as (button & target & Hchild & Henabled & Hlistener & Hnormal
                 & Htext & Hfind).
  assert (Htextual : Forall (fun b => textual (children b) = true)
                       (answersContainer (started [twoPlusTwo]))).
  { assert (H : forallb (fun b => textual (children b))
                  (answersContainer (started [twoPlusTwo])) = true)
      by (vm_compute; reflexivity).
    rewrite forallb_forall in H. apply Forall_forall. intros b Hin.
    apply H. now apply list_elem_of_In. }
  assert (Hanswer : exists answer,
            answer ∈ ["3"; "4"; "5"; "22"] /\
            decodeHTML answer = decodeHTML "4").
  { exists "4". split; [|reflexivity]. apply elem_of_cons. right. now left. }
  destruct (wrong_answer_feedback (started [twoPlusTwo]) 0 2300 button "4"
              ["3"; "4"; "5"; "22"] 1 target Hchild Henabled Hlistener
              Htextual Hnormal Htext Hanswer Hfind)
    as (Hscore & Hresult & _).
  split; [rewrite Hresult|rewrite Hscore]; vm_compute; reflexivity.
Defined.

(** ** The page agrees with the session *)

Lemma sameButton_afterSubmission (made before after : Button) :
  sameButton made before -> afterSubmission before after ->
  sameButton made after.
Proof.
  intros (Hc & Ho & Hcls) (Hc' & Ho' & Hcls' & _).
  repeat split; [congruence|congruence|].
  intros x Hx. apply Hcls', Hcls, Hx.
Qed.

Lemma sameButtons_afterSubmission (made before after : list Button) :
  Forall2 sameButton made before -> Forall2 afterSubmission before after ->
  Forall2 sameButton made after.
Proof.
  intros H. revert after.
  induction H as [|m b ms bs Hb _ IH]; intros after Hafter.
  - apply Forall2_nil_inv_l in Hafter. subst. constructor.
  - apply Forall2_cons_inv_l in Hafter as (a & as' & Ha & Has & ->).
    constructor; [exact (sameButton_afterSubmission _ _ _ Hb Ha)|].
    now apply IH.
Qed.

Lemma onDisplay_classes (q : Question) (buttons : list Button) :
  onDisplay q buttons ->
  Forall (fun b => "answer-btn" ∈ className b) buttons.
Proof.
  intros (answers & _ & H).
  remember (map (answerButton (correct_answer q) answers) answers) as made
    eqn:Hmade.
  assert (Hclass : Forall (fun b => "answer-btn" ∈ className b) made).
  { subst made. apply Forall_fmap, Forall_forall. intros a _. now left. }
  clear Hmade. induction H as [|m b ms bs (_ & _ & Hcls) _ IH];
    [constructor|].
  apply Forall_cons in Hclass as [Hm Hms].
  constructor; [exact (Hcls _ Hm)|exact (IH Hms)].
Qed.

Lemma onDisplay_listeners (q : Question) (buttons : list Button) (k : nat)
    (b : Button) :
  onDisplay q buttons -> buttons !! k = Some b ->
  exists answers, onclick b = SelectAnswer (correct_answer q) answers.
Proof.
  intros (answers & _ & H) Hk.
  destruct (Forall2_lookup_r _ _ _ _ _ H Hk) as (m & Hm & _ & Ho & _).
  rewrite list_lookup_fmap in Hm.
  destruct (answers !! k) as [a|]; [|discriminate].
  injection Hm as <-. exists answers. exact Ho.
Qed.

Lemma selectAnswer_frame (selectedButton : nat) (selected : Button)
    (correctAnswer : string) (answers : list string) (now : Z) (st : State) :
  let result := selectAnswer selectedButton selected correctAnswer answers
                  now st in
  progressContainer (snd result) = progressContainer st /\
  highScoreDisplay (snd result) = highScoreDisplay st /\
  (timers (snd result) <= S (timers st))%nat.
Proof.
  unfold selectAnswer.
  destruct (sameAnswer (innerHTML selected) correctAnswer);
    [cbn; split; [reflexivity|split; [reflexivity|lia]]|].
  destruct (findCorrectButton correctAnswer answers (disableButtons st));
    cbn; (split; [reflexivity|split; [reflexivity|lia]]).
Qed.

Lemma displayQuestion_question (now : Z) (random : nat -> Q) (st : State)
    (q : Question) :
  currentQuestions st !! questionIndex st = Some q ->
  let st' := displayQuestion now random st in
  onDisplay q (answersContainer st') /\
  progressContainer st'
  = progressLine (S (questionIndex st)) (length (currentQuestions st)) /\
  questionStartTime st' = now /\
  questionContainer st' = Markup (decodeHTML (question q)).
Proof.
  intros Hq. unfold displayQuestion. rewrite Hq.
  split; [|split; [|split; reflexivity]].
  - exists (shuffleArray random (incorrect_answers q ++ [correct_answer q])).
    split; [apply shuffleArray_Permutation|].
    cbn [answersContainer set_rendered set_questionStartTime updateProgress
         set_progressContainer displayAnswers set_answersContainer
         set_questionContainer app].
    apply Forall_Forall2_diag, Forall_forall. intros b _.
    now repeat split.
  - cbn [progressContainer set_rendered set_questionStartTime updateProgress
         set_progressContainer]. unfold progressLine.
    cbn [questionIndex currentQuestions displayAnswers set_answersContainer
         set_questionContainer].
    do 3 f_equal. lia.
Qed.

Lemma orderly_fields (before : list Rendering) (st st' : State) :
  currentQuestions st' = currentQuestions st ->
  questionIndex st' = questionIndex st ->
  timers st' = timers st ->
  rendered st' = rendered st ->
  score st' = score st ->
  answersContainer st' = answersContainer st ->
  progressContainer st' = progressContainer st ->
  orderly before st -> orderly before st'.
Proof.
  unfold orderly. intros -> -> -> -> -> -> ->. trivial.
Qed.

Lemma displayQuestion_orderly (before : list Rendering) (now : Z)
    (random : nat -> Q) (st : State) :
  timers st = 0%nat ->
  (questionIndex st <= length (currentQuestions st))%nat ->
  rendered st = before ++ map RenderedQuestion (seq 0 (questionIndex st)) ->
  orderly before (displayQuestion now random st).
Proof.
  intros Htimers Hindex Hrendered.
  destruct (displayQuestion_vars now random st)
    as (Hq & Hi & Hs & Ht & _).
  pose proof (displayQuestion_rendered now random st) as Hr.
  unfold orderly. rewrite Hq, Hi, Ht, Hr, Hs, Hrendered, Htimers.
  split; [lia|]. unfold nextRendering.
  destruct (currentQuestions st !! questionIndex st) as [q|] eqn:Hlookup.
  - destruct (displayQuestion_question now random st q Hlookup)
      as (Hdisplay & Hprogress & _).
    split; [now rewrite seq_S, map_app, app_assoc|].
    split; [exact Hdisplay|]. split; [discriminate|exact Hprogress].
  - apply lookup_ge_None_1 in Hlookup.
    rewrite (displayQuestion_exhausted now random st)
      by now apply lookup_ge_None_2.
    destruct (showResults_page (updateHighScore st))
      as (_ & _ & _ & _ & _ & _ & Ha & Hp & _).
    split; [lia|]. split; [now rewrite <- app_assoc|].
    split; [exact Ha|]. split; [reflexivity|exact Hp].
Qed.

Lemma click_orderly (before : list Rendering) (child : nat) (now : Z)
    (st : State) :
  orderly before st ->
  orderly before (click child now st) /\
  currentQuestions (click child now st) = currentQuestions st.
Proof.
  intros Horderly. unfold click.
  destruct (answersContainer st !! child) as [button|] eqn:Hchild;
    [|now split].
  destruct (disabled button) eqn:Henabled; [now split|].
  destruct (onclick button) as [correctAnswer answers|] eqn:Hlistener.
  2:{ split; [|reflexivity].
      now apply (orderly_fields before st (restartQuiz st)). }
  destruct (selectAnswer_vars child button correctAnswer answers now st)
    as (_ & Hrendered & Hquestions & Hindex).
  destruct (selectAnswer_frame child button correctAnswer answers now st)
    as (Hprogress & _ & Htimers).
  pose proof (selectAnswer_buttons child button correctAnswer answers now st)
    as Hbuttons.
  assert (Hgoal :
    orderly before
      (snd (selectAnswer child button correctAnswer answers now st))).
  { set (st' := snd (selectAnswer child button correctAnswer answers now st))
      in *.
    clearbody st'.
    destruct Horderly as [Hle Hcase]. unfold orderly.
    rewrite Hquestions, Hindex, Hrendered, Hprogress.
    destruct (currentQuestions st !! questionIndex st) as [q|].
    - destruct Hcase as (Hr & Hdisplay & Hpending & Hp).
      assert (Hnone : timers st = 0%nat).
      { destruct (timers st) as [|[|n]]; [reflexivity| |lia].
        specialize (Hpending eq_refl). rewrite Forall_lookup in Hpending.
        rewrite (Hpending _ _ Hchild) in Henabled. discriminate. }
      split; [lia|]. split; [exact Hr|]. split; [|split; [|exact Hp]].
      + destruct Hdisplay as (shuffled & Hperm & Hmade).
        exists shuffled. split; [exact Hperm|].
        exact (sameButtons_afterSubmission _ _ _ Hmade Hbuttons).
      + intros _. apply (afterSubmission_all_disabled _ _ Hbuttons).
        exact (onDisplay_classes q _ Hdisplay).
    - destruct Hcase as (_ & _ & Hrestart & _).
      rewrite Hrestart in Hchild. destruct child; [|discriminate].
      injection Hchild as <-. discriminate. }
  destruct (selectAnswer child button correctAnswer answers now st)
    as [[|exception] st']; cbn [snd] in *.
  - now split.
  - split; [|exact Hquestions].
    now apply (orderly_fields before st' (set_uncaught _ st')).
Qed.

Lemma timer_orderly (before : list Rendering) (now : Z) (random : nat -> Q)
    (st : State) :
  orderly before st ->
  orderly before (step st (TimerFired now random)) /\
  currentQuestions (step st (TimerFired now random)) = currentQuestions st.
Proof.
  intros Horderly. cbn [step].
  destruct (timers st) as [|pending] eqn:Htimers; [now split|].
  assert (pending = 0%nat) as -> by (destruct Horderly; lia).
  unfold nextQuestion.
  set (st3 := set_questionIndex _ _).
  destruct (displayQuestion_vars now random st3) as (Hq & _).
  split; [|exact Hq].
  apply (orderly_fields before (displayQuestion now random st3));
    try reflexivity.
  destruct Horderly as [Hle Hcase]. rewrite Htimers in *.
  destruct (currentQuestions st !! questionIndex st) as [q|] eqn:Hlookup.
  - destruct Hcase as (Hr & _).
    apply displayQuestion_orderly; [reflexivity| |exact Hr].
    apply lookup_lt_Some in Hlookup. exact Hlookup.
  - destruct Hcase as (_ & _ & _ & Hnone & _). discriminate.
Qed.

Lemma run_orderly (before : list Rendering) (st : State)
    (events : list Event) :
  Forall (fun event => sessionEvent event = true) events ->
  orderly before st ->
  orderly before (run st events) /\
  currentQuestions (run st events) = currentQuestions st.
Proof.
  intros Hevents. revert st.
  induction Hevents as [|event events Hevent _ IH]; intros st Horderly;
    [now split|].
  assert (Hstep : orderly before (step st event) /\
                  currentQuestions (step st event) = currentQuestions st).
  { destruct event as [child now|now random| | |]; try discriminate.
    - now apply click_orderly.
    - now apply timer_orderly. }
  destruct Hstep as [Horderly' Hquestions].
  destruct (IH _ Horderly') as [Hfinal Hq].
  unfold run in *. cbn [foldl]. split; [exact Hfinal|congruence].
Qed.

Lemma session_orderly (st0 : State) (questions : list Question) (now : Z)
    (random : nat -> Q) (events : list Event) :
  timers st0 = 0%nat ->
  Forall (fun event => sessionEvent event = true) events ->
  let st := run (fetchQuestions_then (Resolved questions) now random st0)
              events in
  orderly (rendered st0) st /\ currentQuestions st = questions.
Proof.
  intros Htimers Hevents st. subst st.
  set (st00 := set_score 0 (set_questionIndex 0
                 (set_currentQuestions questions st0))).
  assert (Hstart : orderly (rendered st0) (displayQuestion now random st00)).
  { apply displayQuestion_orderly; [exact Htimers|cbn; lia|].
    cbn. now rewrite app_nil_r. }
  destruct (run_orderly _ _ events Hevents Hstart) as [Horderly Hq].
  split; [exact Horderly|].
  change (fetchQuestions_then (Resolved questions) now random st0)
    with (displayQuestion now random st00).
  rewrite Hq.
  now destruct (displayQuestion_vars now random st00) as (-> & _).
Qed.

(** X10.  In a session over [K] questions, started on a page without
    pending timer, and whatever clicks and timers follow (also when a
    submission throws): the index never passes [K], at most one timer is
    pending, the questions rendered are exactly those up to the index, once
    each and in order, and the results view is rendered exactly when the
    index is [K], once, after all [K] questions. *)
Theorem session_renders_in_order (st0 : State) (questions : list Question)
    (now : Z) (random : nat -> Q) (events : list Event) :
  timers st0 = 0%nat ->
  Forall (fun event => sessionEvent event = true) events ->
  let st := run (fetchQuestions_then (Resolved questions) now random st0)
              events in
  let K := length questions in
  currentQuestions st = questions /\
  (questionIndex st <= K)%nat /\
  (timers st <= 1)%nat /\
  rendered st
  = rendered st0
      ++ map RenderedQuestion (seq 0 (Nat.min (S (questionIndex st)) K))
      ++ (if decide (questionIndex st = K)
          then [RenderedResults (score st)] else []) /\
  (finished st = true <-> questionIndex st = K) /\
  timesFinished st
  = (timesFinished st0 + if decide (questionIndex st = K) then 1 else 0)%nat.
Proof.
  intros Htimers Hevents st K.
  destruct (session_orderly st0 questions now random events Htimers Hevents)
    as [[Hle Hcase] Hq].
  fold st in Hle, Hcase, Hq. clearbody st. subst K. rewrite <- Hq.
  assert (Hrendered : (questionIndex st <= length (currentQuestions st))%nat /\
    rendered st
    = rendered st0
        ++ map RenderedQuestion
             (seq 0 (Nat.min (S (questionIndex st))
                       (length (currentQuestions st))))
        ++ (if decide (questionIndex st = length (currentQuestions st))
            then [RenderedResults (score st)] else [])).
  { destruct (currentQuestions st !! questionIndex st) as [q|] eqn:Hlookup.
    - apply lookup_lt_Some in Hlookup. destruct Hcase as (Hr & _).
      split; [lia|]. rewrite Hr, decide_False by lia.
      rewrite app_nil_r.
      now replace (Nat.min _ _) with (S (questionIndex st)) by lia.
    - destruct Hcase as (Hi & Hr & _).
      split; [lia|]. rewrite Hr, decide_True by exact Hi.
      now replace (Nat.min _ _) with (questionIndex st) by lia. }
  destruct Hrendered as [Hindex Hrendered].
  split; [reflexivity|]. split; [exact Hindex|]. split; [exact Hle|].
  split; [exact Hrendered|]. split.
  - unfold finished. rewrite Hrendered.
    destruct (decide (questionIndex st = length (currentQuestions st)))
      as [Heq|Hne].
    + rewrite !app_assoc, last_snoc. now split.
    + rewrite app_nil_r.
      replace (Nat.min _ _) with (S (questionIndex st)) by lia.
      rewrite seq_S, map_app, app_assoc. cbn [map]. rewrite last_snoc.
      split; [discriminate|contradiction].
  - unfold timesFinished. rewrite Hrendered.
    rewrite !List.filter_app, filter_isResults_questions, !length_app.
    destruct (decide _); cbn; lia.
Qed.

Lemma session_renders_in_order_witness :
  rendered (run (fetchQuestions_then (Resolved [tomAndJerry; twoPlusTwo])
                   0 half requested)
              [Click 1 2300; Click 0 2500; TimerFired 5300 half;
               Click 0 6000])
  = [RenderedQuestion 0; RenderedQuestion 1].
Proof.
  assert (Hevents : Forall (fun event => sessionEvent event = true)
            [Click 1 2300; Click 0 2500; TimerFired 5300 half; Click 0 6000])
    by (repeat constructor).
  destruct (session_renders_in_order requested [tomAndJerry; twoPlusTwo]
              0 half _ eq_refl Hevents) as (_ & _ & _ & Hrendered & _).
  rewrite Hrendered. vm_compute. reflexivity.
Defined.

Lemma onDisplay_assigned (q : Question) (buttons : list Button) :
  onDisplay q buttons ->
  map (fun b => assigned (children b)) buttons
  ≡ₚ map decodeHTML (incorrect_answers q ++ [correct_answer q]).
Proof.
  intros (answers & Hperm & H). rewrite <- Hperm.
  assert (Heq : map (fun b => assigned (children b)) buttons
                = map (fun b => assigned (children b))
                    (map (answerButton (correct_answer q) answers) answers)).
  { clear Hperm. induction H as [|m b ms bs (Hc & _) _ IH]; [reflexivity|].
    cbn [map]. now rewrite Hc, IH. }
  rewrite Heq, map_map. reflexivity.
Qed.

(** X11.  In a session started on a page without pending timer, whatever
    clicks and timers follow, the page shows one question at a time, the one
    at [questionIndex]: the strings on the buttons of [#answers] are the
    decoded answers of this question as a multiset, every button's listener
    carries its correct answer, and the progress line reads
    [Question n/K] with [n] the index plus one, between 1 and the number
    [K] of questions.  When no question is left, [#answers] holds the
    restart button alone and the progress line is empty. *)
Theorem session_page_matches_state (st0 : State) (questions : list Question)
    (now : Z) (random : nat -> Q) (events : list Event) :
  timers st0 = 0%nat ->
  Forall (fun event => sessionEvent event = true) events ->
  let st := run (fetchQuestions_then (Resolved questions) now random st0)
              events in
  match questions !! questionIndex st with
  | Some q =>
      map (fun b => assigned (children b)) (answersContainer st)
      ≡ₚ map decodeHTML (incorrect_answers q ++ [correct_answer q]) /\
      (forall k b,
         answersContainer st !! k = Some b ->
         exists answers, onclick b = SelectAnswer (correct_answer q) answers) /\
      progressContainer st
      = progressLine (S (questionIndex st)) (length questions) /\
      (1 <= S (questionIndex st) <= length questions)%nat
  | None =>
      answersContainer st = [restartButton] /\ progressContainer st = ""
  end.
Proof.
  intros Htimers Hevents st.
  destruct (session_orderly st0 questions now random events Htimers Hevents)
    as [[_ Hcase] Hq].
  fold st in Hcase, Hq. clearbody st. rewrite Hq in Hcase.
  destruct (questions !! questionIndex st) as [q|] eqn:Hlookup.
  - destruct Hcase as (_ & Hdisplay & _ & Hprogress).
    split; [now apply onDisplay_assigned|].
    split; [intros k b; now apply onDisplay_listeners|].
    split; [exact Hprogress|].
    apply lookup_lt_Some in Hlookup. lia.
  - destruct Hcase as (_ & _ & Hrestart & _ & Hprogress). now split.
Qed.

Lemma session_page_matches_state_witness :
  progressContainer
    (run (fetchQuestions_then (Resolved [tomAndJerry; twoPlusTwo])
            0 half requested)
         [Click 1 2300; TimerFired 5300 half])
  = "Question 2/2".
Proof.
  assert (Hevents : Forall (fun event => sessionEvent event = true)
            [Click 1 2300; TimerFired 5300 half])
    by (repeat constructor).
  pose proof (session_page_matches_state requested [tomAndJerry; twoPlusTwo]
                0 half _ eq_refl Hevents) as H.
  cbv zeta in H.
  replace (questionIndex _) with 1%nat in H by (vm_compute; reflexivity).
  cbn [lookup list_lookup] in H.
  destruct H as (_ & _ & Hprogress & _). exact Hprogress.
Defined.

(** ** The running score *)

Lemma click_score (child : nat) (now : Z) (st : State) :
  score st <= score (click child now st).
Proof.
  unfold click.
  destruct (answersContainer st !! child) as [button|]; [|lia].
  destruct (disabled button); [lia|].
  destruct (onclick button) as [correctAnswer answers|]; [|cbn; lia].
  destruct (selectAnswer_vars child button correctAnswer answers now st)
    as (Hscore & _).
  assert (Hpoints : 0 <= scoreForThisQuestion
                           (timeTaken now (questionStartTime st)))
    by (unfold scoreForThisQuestion; lia).
  destruct (selectAnswer child button correctAnswer answers now st)
    as [[|exception] st'];
    cbn [snd] in Hscore; cbn [score set_uncaught];
    destruct (sameAnswer (innerHTML button) correctAnswer); lia.
Qed.

Lemma step_score (st : State) (event : Event) :
  sessionEvent event = true -> score st <= score (step st event).
Proof.
  intros Hevent.
  destruct event as [child now|now random| | |]; try discriminate;
    cbn [step].
  - apply click_score.
  - destruct (timers st) as [|pending]; [lia|].
    unfold nextQuestion.
    destruct (displayQuestion_vars now random
                (set_questionIndex (S (questionIndex (set_timers pending st)))
                   (set_timers pending st))) as (_ & _ & Hscore & _).
    cbn [score set_resultContainer]. rewrite Hscore. cbn. lia.
Qed.

Lemma run_score (st : State) (events : list Event) :
  Forall (fun event => sessionEvent event = true) events ->
  score st <= score (run st events).
Proof.
  intros Hevents. revert st.
  induction Hevents as [|event events Hevent _ IH]; intros st; [cbn; lia|].
  unfold run in *. cbn [foldl].
  pose proof (step_score st event Hevent). specialize (IH (step st event)).
  lia.
Qed.

(** X12.  Within a session the score is never negative and never goes down:
    after any clicks and timers it is at least 0, and whatever clicks and
    timers follow it is at least what it was. *)
Theorem session_score_never_decreases (st0 : State)
    (questions : list Question) (now : Z) (random : nat -> Q)
    (events more : list Event) :
  Forall (fun event => sessionEvent event = true) (events ++ more) ->
  let start := fetchQuestions_then (Resolved questions) now random st0 in
  0 <= score (run start events) <= score (run start (events ++ more)).
Proof.
  intros Hevents start.
  apply Forall_app in Hevents as [Hevents Hmore].
  assert (Hzero : score start = 0)
    by apply (fetchQuestions_then_resolved questions now random st0).
  pose proof (run_score start events Hevents).
  pose proof (run_score (run start events) more Hmore).
  rewrite run_app. lia.
Qed.

Lemma session_score_never_decreases_witness :
  0 <= score (run (fetchQuestions_then (Resolved [twoPlusTwo]) 0 half
                     requested) [Click 1 2300])
  <= score (run (fetchQuestions_then (Resolved [twoPlusTwo]) 0 half
                   requested) ([Click 1 2300] ++ [TimerFired 5300 half])).
Proof.
  apply (session_score_never_decreases requested [twoPlusTwo] 0 half
           [Click 1 2300] [TimerFired 5300 half]).
  repeat constructor.
Defined.

(** ** The high-score line and the stored high score *)

Lemma displayQuestion_highScoreShown (now : Z) (random : nat -> Q)
    (st : State) :
  highScoreShown st -> highScoreShown (displayQuestion now random st).
Proof.
  unfold highScoreShown. intros Hshown. unfold displayQuestion.
  destruct (currentQuestions st !! questionIndex st); [exact Hshown|].
  reflexivity.
Qed.

Lemma step_highScoreShown (st : State) (event : Event) :
  highScoreShown st -> highScoreShown (step st event).
Proof.
  intros Hshown.
  destruct event as [child now|now random|amount category difficulty
                    |outcome now random|outcome]; cbn [step].
  - unfold click.
    destruct (answersContainer st !! child) as [button|]; [|exact Hshown].
    destruct (disabled button); [exact Hshown|].
    destruct (onclick button) as [correctAnswer answers|]; [|exact Hshown].
    destruct (selectAnswer_storage child button correctAnswer answers now st)
      as [Hh _].
    destruct (selectAnswer_frame child button correctAnswer answers now st)
      as (_ & Hd & _).
    destruct (selectAnswer child button correctAnswer answers now st)
      as [[|exception] st']; cbn [snd] in *; unfold highScoreShown in *;
      cbn [highScoreDisplay highScore set_uncaught]; now rewrite Hd, Hh.
  - destruct (timers st) as [|pending]; [exact Hshown|].
    unfold nextQuestion. set (st1 := set_questionIndex _ _).
    exact (displayQuestion_highScoreShown now random st1 Hshown).
  - exact Hshown.
  - destruct outcome as [error|results]; [exact Hshown|].
    cbn [fetchQuestions_then]. set (st1 := set_score 0 _).
    exact (displayQuestion_highScoreShown now random st1 Hshown).
  - destruct outcome as [error|data]; exact Hshown.
Qed.

Lemma run_synced (st : State) (events : list Event) :
  synced st -> synced (run st events) /\ stored st <= stored (run st events).
Proof.
  revert st. induction events as [|event events IH]; intros st Hsync.
  - split; [exact Hsync|]. cbn. lia.
  - destruct (step_synced st event Hsync) as [Hsync' Hle].
    destruct (IH _ Hsync') as [Hfinal Hle'].
    unfold run in *. cbn [foldl]. split; [exact Hfinal|lia].
Qed.

(** X13.  On a page the script has loaded, whatever events follow, the
    high-score line shows the stored high score (0 when the item is
    absent), which is also the value of the variable [highScore]. *)
Theorem highScore_line_shows_stored (item : option Z)
    (options : list OptionElement) (setup quiz : Display)
    (events : list Event) :
  let st := run (pageLoad item options setup quiz) events in
  highScoreDisplay st = "High Score: " +:+ Dom.numberToString (stored st) /\
  highScore st = stored st.
Proof.
  intros st.
  assert (Hsync : synced st).
  { apply run_synced. reflexivity. }
  assert (Hshown : highScoreShown st).
  { subst st. induction events as [|event events IH] using rev_ind.
    - reflexivity.
    - rewrite run_app. apply step_highScoreShown, IH.
      apply run_synced. reflexivity. }
  unfold synced in Hsync. unfold highScoreShown in Hshown.
  split; [now rewrite Hsync|now rewrite Hsync].
Qed.

(** X14.  The stored high score never goes down: on a page the script has
    loaded, after any events, whatever events follow (sessions, restarts,
    failed requests), the stored value is at least what it was. *)
Theorem stored_high_score_monotone (item : option Z)
    (options : list OptionElement) (setup quiz : Display)
    (events more : list Event) :
  let page := pageLoad item options setup quiz in
  stored (run page events) <= stored (run page (events ++ more)).
Proof.
  intros page. rewrite run_app.
  apply run_synced. apply run_synced. reflexivity.
Qed.

(** ** The score line *)

Lemma selectAnswer_scoreLine (selectedButton : nat) (selected : Button)
    (correctAnswer : string) (answers : list string) (now : Z) (st : State) :
  let result := selectAnswer selectedButton selected correctAnswer answers
                  now st in
  match fst result with
  | Normal =>
      currentScoreDisplay (snd result)
      = "Current Score: " +:+ Dom.numberToString (score (snd result))
  | Throw _ =>
      currentScoreDisplay (snd result) = currentScoreDisplay st /\
      score (snd result) = score st
  end.
Proof.
  unfold selectAnswer.
  destruct (sameAnswer (innerHTML selected) correctAnswer); [reflexivity|].
  destruct (findCorrectButton correctAnswer answers (disableButtons st));
    [reflexivity|now split].
Qed.

Lemma displayQuestion_scoreLine (now : Z) (random : nat -> Q) (st : State) :
  currentScoreDisplay (displayQuestion now random st)
  = currentScoreDisplay st.
Proof.
  unfold displayQuestion.
  destruct (currentQuestions st !! questionIndex st); [reflexivity|].
  unfold updateHighScore. now destruct (score st >? highScore st).
Qed.

Lemma step_scoreLine (old : string) (st : State) (event : Event) :
  sessionEvent event = true -> scoreLine old st -> scoreLine old (step st event).
Proof.
  intros Hevent Hline.
  destruct event as [child now|now random| | |]; try discriminate;
    cbn [step].
  - unfold click.
    destruct (answersContainer st !! child) as [button|]; [|exact Hline].
    destruct (disabled button); [exact Hline|].
    destruct (onclick button) as [correctAnswer answers|]; [|exact Hline].
    pose proof (selectAnswer_scoreLine child button correctAnswer answers
                  now st) as H.
    destruct (selectAnswer child button correctAnswer answers now st)
      as [[|exception] st']; cbn [fst snd] in H.
    + now left.
    + destruct H as [Hd Hs]. unfold scoreLine in *.
      cbn [currentScoreDisplay score set_uncaught]. now rewrite Hd, Hs.
  - destruct (timers st) as [|pending]; [exact Hline|].
    unfold nextQuestion. set (st1 := set_questionIndex _ _).
    destruct (displayQuestion_vars now random st1) as (_ & _ & Hs & _).
    pose proof (displayQuestion_scoreLine now random st1) as Hd.
    unfold scoreLine in *.
    cbn [currentScoreDisplay score set_resultContainer].
    now rewrite Hd, Hs.
Qed.

(** X15.  Installing a new question list resets the score to 0 but does not
    touch the score line, which keeps what it showed before (the score of a
    previous session, for one).  From then on, through any clicks and
    timers, the line either still shows that old text while the score is 0,
    or it shows the current score: a submission that completes brings it up
    to date, nothing else writes it. *)
Theorem session_score_line (st0 : State) (questions : list Question)
    (now : Z) (random : nat -> Q) (events : list Event) :
  Forall (fun event => sessionEvent event = true) events ->
  let start := fetchQuestions_then (Resolved questions) now random st0 in
  let st := run start events in
  (currentScoreDisplay start = currentScoreDisplay st0 /\ score start = 0) /\
  (currentScoreDisplay st
   = "Current Score: " +:+ Dom.numberToString (score st)
   \/ (currentScoreDisplay st = currentScoreDisplay st0 /\ score st = 0)).
Proof.
  intros Hevents start st.
  assert (Hstart : currentScoreDisplay start = currentScoreDisplay st0 /\
                   score start = 0).
  { split.
    - subst start. unfold fetchQuestions_then.
      now rewrite displayQuestion_scoreLine.
    - apply (fetchQuestions_then_resolved questions now random st0). }
  split; [exact Hstart|].
  change (scoreLine (currentScoreDisplay st0) st).
  assert (Hline : scoreLine (currentScoreDisplay st0) start) by now right.
  subst st. clear Hstart. clearbody start. revert start Hline.
  induction Hevents as [|event events Hevent _ IH]; intros start Hline;
    [exact Hline|].
  unfold run in *. cbn [foldl]. apply IH.
  now apply step_scoreLine.
Qed.

Lemma session_score_line_witness :
  currentScoreDisplay
    (run (fetchQuestions_then (Resolved [twoPlusTwo]) 0 half
            (set_currentScoreDisplay "Current Score: 980" requested))
         [])
  = "Current Score: 980".
Proof.
  destruct (session_score_line
              (set_currentScoreDisplay "Current Score: 980" requested)
              [twoPlusTwo] 0 half [] (Forall_nil_2 _))
    as [[Hline _] _].
  exact Hline.
Defined.

(** ** Reading a button back *)

(** X16.  For a button that holds a text without U+000D and U+0000 (as
    every text is that [decodeHTML] returned), decoding what [innerHTML]
    returns gives the text the button shows, so that the comparison of
    script.js 143 compares this text with the decoded correct answer; and
    two such buttons read back the same [innerHTML] only when they show the
    same text. *)
Theorem innerHTML_round_trip (b1 b2 : Button) (correctAnswer : string) :
  textual (children b1) = true ->
  textual (children b2) = true ->
  Dom.normalized (textOf (children b1)) = true ->
  Dom.normalized (textOf (children b2)) = true ->
  decodeHTML (innerHTML b1) = textOf (children b1) /\
  sameAnswer (innerHTML b1) correctAnswer
  = bool_decide (textOf (children b1) = decodeHTML correctAnswer) /\
  (innerHTML b1 = innerHTML b2 -> textOf (children b1) = textOf (children b2)).
Proof.
  intros _ _ Hnormal1 Hnormal2.
  split; [now apply decodeHTML_innerHTML|]. split.
  - unfold sameAnswer. now rewrite decodeHTML_innerHTML.
  - intros H.
    rewrite <- (decodeHTML_innerHTML b1 Hnormal1),
            <- (decodeHTML_innerHTML b2 Hnormal2).
    now rewrite H.
Qed.

Lemma innerHTML_round_trip_witness :
  let ampersand := answerButton "&amp;amp;" ["&amp;amp;"] "&amp;amp;" in
  let space := answerButton "4" ["4"] "a&amp;nbsp;b" in
  textOf (children ampersand) = "&" /\
  decodeHTML (innerHTML ampersand) = "&" /\
  decodeHTML (innerHTML space) = textOf (children space).
Proof.
  intros ampersand space.
  assert (H1 : textual (children ampersand) = true)
    by (vm_compute; reflexivity).
  assert (H2 : textual (children space) = true)
    by (vm_compute; reflexivity).
  assert (H3 : Dom.normalized (textOf (children ampersand)) = true)
    by (vm_compute; reflexivity).
  assert (H4 : Dom.normalized (textOf (children space)) = true)
    by (vm_compute; reflexivity).
  destruct (innerHTML_round_trip ampersand space "4" H1 H2 H3 H4)
    as (Hampersand & _).
  destruct (innerHTML_round_trip space ampersand "4" H2 H1 H4 H3)
    as (Hspace & _).
  split; [vm_compute; reflexivity|].
  split; [|exact Hspace].
  rewrite Hampersand. vm_compute. reflexivity.
Defined.

(** ** A bound on the score *)

Lemma anyEnabled_lookup (st : State) (child : nat) (button : Button) :
  answersContainer st !! child = Some button -> disabled button = false ->
  anyEnabled st = true.
Proof.
  intros Hchild Henabled. unfold anyEnabled. apply existsb_exists.
  exists button. split; [|now rewrite Henabled].
  apply list_elem_of_In, list_elem_of_lookup. now exists child.
Qed.

Lemma anyEnabled_none (st : State) :
  Forall (fun b => disabled b = true) (answersContainer st) ->
  anyEnabled st = false.
Proof.
  unfold anyEnabled. induction 1 as [|b l Hb _ IH]; [reflexivity|].
  cbn. now rewrite Hb, IH.
Qed.

Lemma click_scoreBounded (before : list Rendering) (child : nat) (now : Z)
    (st : State) :
  orderly before st -> scoreBounded st -> questionStartTime st <= now ->
  scoreBounded (click child now st).
Proof.
  intros Horderly Hbound Hclock. unfold click.
  destruct (answersContainer st !! child) as [button|] eqn:Hchild;
    [|exact Hbound].
  destruct (disabled button) eqn:Henabled; [exact Hbound|].
  destruct (onclick button) as [correctAnswer answers|] eqn:Hlistener;
    [|exact Hbound].
  unfold scoreBounded in Hbound.
  rewrite (anyEnabled_lookup st child button Hchild Henabled) in Hbound.
  destruct (selectAnswer_vars child button correctAnswer answers now st)
    as (Hscore & _ & _ & Hindex).
  pose proof (selectAnswer_buttons child button correctAnswer answers now st)
    as Hbuttons.
  assert (Hpoints : scoreForThisQuestion (timeTaken now (questionStartTime st))
                    <= 1000).
  { rewrite scoreForThisQuestion_ms.
    assert (0 <= (now - questionStartTime st) / 1000)
      by (apply Z.div_pos; lia).
    lia. }
  assert (Hdisabled :
    Forall (fun b => disabled b = true)
      (answersContainer
         (snd (selectAnswer child button correctAnswer answers now st)))).
  { apply (afterSubmission_all_disabled _ _ Hbuttons).
    destruct Horderly as [_ Hcase].
    destruct (currentQuestions st !! questionIndex st) as [q|].
    - destruct Hcase as (_ & Hdisplay & _). exact (onDisplay_classes q _ Hdisplay).
    - destruct Hcase as (_ & _ & Hrestart & _).
      rewrite Hrestart in Hchild. destruct child; [|discriminate].
      injection Hchild as <-. discriminate. }
  assert (Hgoal : scoreBounded
            (snd (selectAnswer child button correctAnswer answers now st))).
  { unfold scoreBounded. rewrite (anyEnabled_none _ Hdisabled), Hscore, Hindex.
    destruct (sameAnswer (innerHTML button) correctAnswer); lia. }
  destruct (selectAnswer child button correctAnswer answers now st)
    as [[|exception] st']; [exact Hgoal|exact Hgoal].
Qed.

Lemma timer_scoreBounded (before : list Rendering) (now : Z)
    (random : nat -> Q) (st : State) :
  orderly before st -> scoreBounded st ->
  scoreBounded (step st (TimerFired now random)).
Proof.
  intros Horderly Hbound. cbn [step].
  destruct (timers st) as [|pending] eqn:Htimers; [exact Hbound|].
  unfold nextQuestion. set (st3 := set_questionIndex _ _).
  destruct (displayQuestion_vars now random st3) as (_ & Hi & Hs & _).
  unfold scoreBounded in *.
  change (score (set_resultContainer "" (displayQuestion now random st3)))
    with (score (displayQuestion now random st3)).
  change (questionIndex
            (set_resultContainer "" (displayQuestion now random st3)))
    with (questionIndex (displayQuestion now random st3)).
  rewrite Hs, Hi.
  change (score st3) with (score st).
  change (questionIndex st3) with (S (questionIndex st)).
  destruct (anyEnabled st); destruct (anyEnabled _); lia.
Qed.

Lemma run_scoreBounded (before : list Rendering) (st : State)
    (events : list Event) :
  Forall (fun event => sessionEvent event = true) events ->
  clockForward st events ->
  orderly before st -> scoreBounded st ->
  scoreBounded (run st events).
Proof.
  intros Hevents. revert st.
  induction Hevents as [|event events Hevent _ IH];
    intros st Hclock Horderly Hbound; [exact Hbound|].
  destruct Hclock as [Hnow Hclock].
  unfold run in *. cbn [foldl].
  destruct event as [child now|now random| | |]; try discriminate.
  - apply IH; [exact Hclock|now apply click_orderly|].
    now apply (click_scoreBounded before).
  - apply IH; [exact Hclock|now apply timer_orderly|].
    now apply (timer_scoreBounded before).
Qed.

(** X17.  When no click of a session happens before the instant stored for
    the question on display (the clock is not set back), the score never
    exceeds 1000 points per question: in a session over [K] questions,
    started on a page without pending timer, it is at most [1000 * K] after
    any clicks and timers. *)
Theorem session_score_bounded (st0 : State) (questions : list Question)
    (now : Z) (random : nat -> Q) (events : list Event) :
  timers st0 = 0%nat ->
  Forall (fun event => sessionEvent event = true) events ->
  let start := fetchQuestions_then (Resolved questions) now random st0 in
  clockForward start events ->
  score (run start events) <= 1000 * Z.of_nat (length questions).
Proof.
  intros Htimers Hevents start Hclock.
  destruct (session_orderly st0 questions now random [] Htimers
              (Forall_nil_2 _)) as [Hstart _].
  change (run (fetchQuestions_then (Resolved questions) now random st0) [])
    with start in Hstart.
  assert (Hbound : scoreBounded start).
  { unfold scoreBounded.
    destruct (fetchQuestions_then_resolved questions now random st0)
      as (_ & Hi & Hs).
    fold start in Hi, Hs. rewrite Hs, Hi. destruct (anyEnabled start); lia. }
  pose proof (run_scoreBounded _ start events Hevents Hclock Hstart Hbound)
    as Hfinal.
  destruct (session_orderly st0 questions now random events Htimers Hevents)
    as [[_ Hcase] Hq].
  fold start in Hcase, Hq.
  set (st := run start events) in *. clearbody st start.
  unfold scoreBounded in Hfinal. rewrite <- Hq.
  destruct (currentQuestions st !! questionIndex st) as [q|] eqn:Hlookup.
  - apply lookup_lt_Some in Hlookup. destruct (anyEnabled st); lia.
  - destruct Hcase as (Hi & _ & Hrestart & _).
    unfold anyEnabled in Hfinal. rewrite Hrestart in Hfinal.
    cbn in Hfinal. lia.
Qed.

Lemma session_score_bounded_witness :
  score (run (fetchQuestions_then (Resolved [twoPlusTwo]) 0 half requested)
           [Click 1 2300; TimerFired 5300 half])
  <= 1000.
Proof.
  apply (session_score_bounded requested [twoPlusTwo] 0 half
           [Click 1 2300; TimerFired 5300 half] eq_refl).
  - repeat constructor.
  - vm_compute. repeat split; discriminate.
Defined.

(** ** The category selector over any run *)

Lemma selectAnswer_categorySelect (selectedButton : nat) (selected : Button)
    (correctAnswer : string) (answers : list string) (now : Z) (st : State) :
  categorySelect
    (snd (selectAnswer selectedButton selected correctAnswer answers now st))
  = categorySelect st.
Proof.
  unfold selectAnswer.
  destruct (sameAnswer (innerHTML selected) correctAnswer); [reflexivity|].
  now destruct (findCorrectButton correctAnswer answers (disableButtons st)).
Qed.

Lemma displayQuestion_categorySelect (now : Z) (random : nat -> Q)
    (st : State) :
  categorySelect (displayQuestion now random st) = categorySelect st.
Proof.
  unfold displayQuestion.
  destruct (currentQuestions st !! questionIndex st); [reflexivity|].
  unfold updateHighScore. now destruct (score st >? highScore st).
Qed.

Lemma step_categorySelect (st : State) (event : Event) :
  categorySelect (step st event)
  = categorySelect st ++ categoryEntries [event].
Proof.
  destruct event as [child now|now random|amount category difficulty
                    |outcome now random|outcome]; cbn [step categoryEntries].
  - rewrite app_nil_r. unfold click.
    destruct (answersContainer st !! child) as [button|]; [|reflexivity].
    destruct (disabled button); [reflexivity|].
    destruct (onclick button) as [correctAnswer answers|]; [|reflexivity].
    pose proof (selectAnswer_categorySelect child button correctAnswer
                  answers now st) as H.
    now destruct (selectAnswer child button correctAnswer answers now st)
      as [[|exception] st'].
  - rewrite app_nil_r. destruct (timers st) as [|pending]; [reflexivity|].
    unfold nextQuestion. set (st1 := set_questionIndex _ _).
    exact (displayQuestion_categorySelect now random st1).
  - now rewrite app_nil_r.
  - rewrite app_nil_r. destruct outcome as [error|results]; [reflexivity|].
    cbn [fetchQuestions_then]. set (st1 := set_score 0 _).
    exact (displayQuestion_categorySelect now random st1).
  - destruct outcome as [error|data]; [now rewrite app_nil_r|].
    rewrite app_nil_r. apply fetchCategories_then_appends.
Qed.

Lemma categoryEntries_cons (event : Event) (events : list Event) :
  categoryEntries (event :: events)
  = categoryEntries [event] ++ categoryEntries events.
Proof.
  destruct event as [| | | |[error|data]]; cbn [categoryEntries app];
    try reflexivity.
  now rewrite app_nil_r.
Qed.

(** X18.  The category selector only grows: after any events it holds the
    options it had, followed by one entry per category of every successful
    category response, in the order of arrival (value the decimal id, label
    the name).  No handler removes or replaces an option, and a rejected
    category request adds none. *)
Theorem categorySelect_accumulates (st : State) (events : list Event) :
  categorySelect (run st events)
  = categorySelect st ++ categoryEntries events.
Proof.
  revert st. induction events as [|event events IH]; intros st.
  - cbn. now rewrite app_nil_r.
  - unfold run in *. cbn [foldl].
    rewrite IH, step_categorySelect, (categoryEntries_cons event events).
    now rewrite app_assoc.
Qed.

(** ** A failed request for questions *)

(** X19.  When the request for questions fails on a page whose [#answers]
    is empty and that has no pending timer (the first game of a page, for
    one), the page is left in the quiz view with the alert as the only
    trace: the setup panel is hidden, [#answers] is still empty, and no
    click in [#answers] and no timer changes the page any more. *)
Theorem failed_request_dead_end (st : State)
    (amount category difficulty error : string) (now : Z)
    (random : nat -> Q) :
  answersContainer st = [] ->
  timers st = 0%nat ->
  let st' := run st [StartClicked amount category difficulty;
                     QuestionsSettled (Rejected error) now random] in
  quizDiv st' = block /\
  gameSetupDiv st' = none /\
  alerts st' = alerts st ++ ["Error:" +:+ error] /\
  requests st' = requests st ++ [questionsUrl amount category difficulty] /\
  answersContainer st' = [] /\
  forall events : list Event,
    Forall (fun event => sessionEvent event = true) events ->
    run st' events = st'.
Proof.
  intros Hanswers Htimers st'.
  assert (Ha : answersContainer st' = []) by exact Hanswers.
  assert (Ht : timers st' = 0%nat) by exact Htimers.
  do 4 (split; [reflexivity|]). split; [exact Ha|].
  intros events. apply stuck_run. split; [exact Ht|].
  rewrite Ha. constructor.
Qed.

Lemma failed_request_dead_end_witness :
  alerts (run freshPage
            [StartClicked "10" "9" "easy";
             QuestionsSettled (Rejected "TypeError: Failed to fetch") 0 half])
  = ["Error:TypeError: Failed to fetch"].
Proof.
  destruct (failed_request_dead_end freshPage "10" "9" "easy"
              "TypeError: Failed to fetch" 0 half eq_refl eq_refl)
    as (_ & _ & Halerts & _).
  exact Halerts.
Defined.

(** ** The high score of a session *)

Lemma displayQuestion_highScoreSettled (now : Z) (random : nat -> Q)
    (st : State) :
  synced st -> highScoreSettled (stored st) (displayQuestion now random st).
Proof.
  intros Hsync.
  destruct (displayQuestion_synced now random st Hsync) as [Hsync' _].
  split; [exact Hsync'|].
  destruct (displayQuestion_vars now random st) as (Hq & Hi & Hs & _).
  rewrite Hq, Hi, Hs.
  destruct (currentQuestions st !! questionIndex st) as [q|] eqn:Hlookup.
  - unfold displayQuestion. rewrite Hlookup. reflexivity.
  - rewrite (displayQuestion_exhausted now random st Hlookup).
    destruct (updateHighScore_stored st Hsync) as (Hmax & _ & _).
    destruct (showResults_page (updateHighScore st)) as (_ & _ & Hl & _).
    unfold stored in *. now rewrite Hl.
Qed.

Lemma step_highScoreSettled (before : list Rendering) (base : Z)
    (st : State) (event : Event) :
  sessionEvent event = true ->
  orderly before st -> highScoreSettled base st ->
  highScoreSettled base (step st event).
Proof.
  intros Hevent Horderly [Hsync Hcase].
  destruct event as [child now|now random| | |]; try discriminate;
    cbn [step].
  - unfold click.
    destruct (answersContainer st !! child) as [button|] eqn:Hchild;
      [|now split].
    destruct (disabled button) eqn:Henabled; [now split|].
    destruct (onclick button) as [correctAnswer answers|] eqn:Hlistener;
      [|now split].
    destruct (selectAnswer_vars child button correctAnswer answers now st)
      as (_ & _ & Hq & Hi).
    destruct (selectAnswer_storage child button correctAnswer answers now st)
      as [Hh Hl].
    assert (Hgoal : highScoreSettled base
              (snd (selectAnswer child button correctAnswer answers now st))).
    { unfold highScoreSettled, synced, stored in *. rewrite Hq, Hi, Hh, Hl.
      split; [exact Hsync|].
      destruct Horderly as [_ Horderly].
      destruct (currentQuestions st !! questionIndex st) as [q|];
        [exact Hcase|].
      destruct Horderly as (_ & _ & Hrestart & _).
      rewrite Hrestart in Hchild. destruct child; [|discriminate].
      injection Hchild as <-. discriminate. }
    destruct (selectAnswer child button correctAnswer answers now st)
      as [[|exception] st']; exact Hgoal.
  - destruct (timers st) as [|pending] eqn:Htimers; [now split|].
    destruct Horderly as [_ Horderly].
    destruct (currentQuestions st !! questionIndex st) as [q|].
    2:{ destruct Horderly as (_ & _ & _ & Hnone & _). congruence. }
    unfold nextQuestion. set (st3 := set_questionIndex _ _).
    pose proof (displayQuestion_highScoreSettled now random st3 Hsync) as H.
    change (stored st3) with (stored st) in H. rewrite Hcase in H.
    exact H.
Qed.

(** X20.  In a session started on a page the script has kept in step with
    its stored high score and that has no pending timer, whatever clicks
    and timers follow: while a question is on display the stored high score
    is what it was before the session, and once the results view is
    rendered it is the maximum of that value and the final score. *)
Theorem session_high_score (st0 : State) (questions : list Question)
    (now : Z) (random : nat -> Q) (events : list Event) :
  stored st0 = highScore st0 ->
  timers st0 = 0%nat ->
  Forall (fun event => sessionEvent event = true) events ->
  let st := run (fetchQuestions_then (Resolved questions) now random st0)
              events in
  highScore st = stored st /\
  if finished st then stored st = Z.max (stored st0) (score st)
  else stored st = stored st0.
Proof.
  intros Hsync Htimers Hevents st.
  set (st00 := set_score 0 (set_questionIndex 0
                 (set_currentQuestions questions st0))).
  set (start := fetchQuestions_then (Resolved questions) now random st0)
    in *.
  assert (Hstart : highScoreSettled (stored st0) start).
  { exact (displayQuestion_highScoreSettled now random st00 Hsync). }
  destruct (session_orderly st0 questions now random [] Htimers
              (Forall_nil_2 _)) as [Horderly0 _].
  change (run (fetchQuestions_then (Resolved questions) now random st0) [])
    with start in Horderly0.
  assert (Hfinal : highScoreSettled (stored st0) st /\
                   orderly (rendered st0) st).
  { subst st. clearbody start. clear st00. revert start Hstart Horderly0.
    induction Hevents as [|event events Hevent _ IH];
      intros start Hstart Horderly0; [now split|].
    unfold run in *. cbn [foldl]. apply IH.
    - now apply (step_highScoreSettled (rendered st0)).
    - destruct event as [child t|t r| | |]; try discriminate.
      + now apply click_orderly.
      + now apply timer_orderly. }
  destruct Hfinal as [[Hsynced Hcase] [_ Horderly]].
  clearbody st. split; [symmetry; exact Hsynced|].
  unfold finished.
  destruct (currentQuestions st !! questionIndex st) as [q|].
  - destruct Horderly as (Hr & _). rewrite Hr.
    rewrite seq_S, map_app, app_assoc. cbn [map]. now rewrite last_snoc.
  - destruct Horderly as (_ & Hr & _). rewrite Hr.
    now rewrite app_assoc, last_snoc.
Qed.

Lemma session_high_score_witness :
  stored (run (fetchQuestions_then (Resolved [twoPlusTwo]) 0 half requested)
            [Click 1 2300; TimerFired 5300 half])
  = 980.
Proof.
  assert (Hevents : Forall (fun event => sessionEvent event = true)
            [Click 1 2300; TimerFired 5300 half])
    by (repeat constructor).
  pose proof (session_high_score requested [twoPlusTwo] 0 half _
                eq_refl eq_refl Hevents) as [_ H].
  cbv zeta in H.
  replace (finished _) with true in H by (vm_compute; reflexivity).
  rewrite H. vm_compute. reflexivity.
Defined.

(** ** Sessions over answerable questions never get stuck *)

Lemma onDisplay_correct_button (q : Question) (buttons : list Button)
    (k : nat) (b : Button) :
  answerable q -> onDisplay q buttons -> buttons !! k = Some b ->
  exists answers target,
    onclick b = SelectAnswer (correct_answer q) answers /\
    correct_answer q ∈ answers /\
    target ∈ buttons /\
    innerHTML target = decodeHTML (correct_answer q).
Proof.
  intros Hq (answers & Hperm & H) Hk.
  destruct (Forall2_lookup_r _ _ _ _ _ H Hk) as (m & Hm & _ & Ho & _).
  rewrite list_lookup_fmap in Hm.
  destruct (answers !! k) as [a|]; [|discriminate]. injection Hm as <-.
  assert (Hin : correct_answer q ∈ answers).
  { rewrite Hperm. apply elem_of_app. right. now left. }
  apply list_elem_of_lookup in Hin as Hj. destruct Hj as [j Hj].
  assert (Hmade : map (answerButton (correct_answer q) answers) answers !! j
                  = Some (answerButton (correct_answer q) answers
                            (correct_answer q))).
  { now rewrite list_lookup_fmap, Hj. }
  destruct (Forall2_lookup_l _ _ _ _ _ H Hmade) as (target & Ht & Hc & _).
  exists answers, target. split; [exact Ho|]. split; [exact Hin|].
  split; [apply list_elem_of_lookup; now exists j|].
  rewrite <- (innerHTML_answerable q answers Hq).
  unfold innerHTML. now rewrite Hc.
Qed.

Lemma click_lively (before : list Rendering) (child : nat) (now : Z)
    (st : State) :
  Forall answerable (currentQuestions st) ->
  orderly before st -> lively st ->
  lively (click child now st) /\
  uncaught (click child now st) = uncaught st.
Proof.
  intros Hanswerable [Hle Horderly] Hlively. unfold click.
  destruct (answersContainer st !! child) as [button|] eqn:Hchild;
    [|now split].
  destruct (disabled button) eqn:Henabled; [now split|].
  destruct (onclick button) as [correctAnswer answers|] eqn:Hlistener;
    [|now split].
  destruct (currentQuestions st !! questionIndex st) as [q|] eqn:Hlookup.
  2:{ destruct Horderly as (_ & _ & Hrestart & _).
      rewrite Hrestart in Hchild. destruct child; [|discriminate].
      injection Hchild as <-. discriminate. }
  destruct Horderly as (_ & Hdisplay & Hrest).
  assert (Hq : answerable q)
    by exact (Forall_lookup_1 _ _ _ _ Hanswerable Hlookup).
  destruct (onDisplay_correct_button q _ child button Hq Hdisplay Hchild)
    as (answers' & target & Ho & Hin & Htarget & Hhtml).
  rewrite Hlistener in Ho. injection Ho as -> ->.
  destruct (disableButtons_innerHTML st target Htarget)
    as (target' & Htarget' & Hhtml').
  assert (Hfound : is_Some (findCorrectButton (correct_answer q) answers'
                              (disableButtons st))).
  { apply (findCorrectButton_found _ _ _ target' Hin Htarget').
    now rewrite Hhtml'. }
  destruct (selectAnswer_completes child button (correct_answer q) answers'
              now st Hfound) as (Hnormal & Htimers & Huncaught).
  destruct (selectAnswer_vars child button (correct_answer q) answers' now st)
    as (_ & _ & Hquestions & Hindex).
  assert (Hnone : timers st = 0%nat).
  { destruct Hrest as (Hpending & _).
    assert (Hne : timers st <> 1%nat); [|lia].
    intros Hone. specialize (Hpending Hone).
    rewrite Forall_lookup in Hpending.
    rewrite (Hpending _ _ Hchild) in Henabled. discriminate. }
  destruct (selectAnswer child button (correct_answer q) answers' now st)
    as [completion st']. cbn [fst snd] in *. subst completion.
  split; [|exact Huncaught].
  intros q' _. left. lia.
Qed.

Lemma displayQuestion_lively (now : Z) (random : nat -> Q) (st : State) :
  lively (displayQuestion now random st).
Proof.
  intros q.
  destruct (displayQuestion_vars now random st) as (Hq & Hi & _).
  rewrite Hq, Hi. intros Hlookup. right.
  unfold displayQuestion. rewrite Hlookup.
  cbn [answersContainer set_rendered set_questionStartTime updateProgress
       set_progressContainer displayAnswers set_answersContainer
       set_questionContainer app].
  pose proof (shuffleArray_Permutation random
                (incorrect_answers q ++ [correct_answer q])) as Hperm.
  set (answers := shuffleArray random _) in *.
  split.
  - intros Hnil. apply fmap_nil_inv in Hnil.
    apply Permutation_length in Hperm. rewrite Hnil, length_app in Hperm.
    cbn in Hperm. lia.
  - apply Forall_fmap, Forall_forall. now intros a _.
Qed.

Lemma timer_lively (now : Z) (random : nat -> Q) (st : State) :
  lively st ->
  lively (step st (TimerFired now random)) /\
  uncaught (step st (TimerFired now random)) = uncaught st.
Proof.
  intros Hlively. cbn [step].
  destruct (timers st) as [|pending]; [now split|].
  unfold nextQuestion. set (st3 := set_questionIndex _ _).
  destruct (displayQuestion_vars now random st3) as (_ & _ & _ & _ & Hu).
  split; [|exact Hu].
  exact (displayQuestion_lively now random st3).
Qed.

(** X21.  Over answerable questions (the decoded correct answer has none
    of [&], [<], [>] and the no-break space, and no decoded incorrect
    answer opens a tag), a session started on a page without
    pending timer never throws and never comes to a dead end, whatever
    clicks and timers occur: until the results view is rendered, either the
    timer is pending or every button of the question on display is enabled
    (and there is one). *)
Theorem answerable_session_never_stuck (st0 : State)
    (questions : list Question) (now : Z) (random : nat -> Q)
    (events : list Event) :
  timers st0 = 0%nat ->
  Forall answerable questions ->
  Forall (fun event => sessionEvent event = true) events ->
  let st := run (fetchQuestions_then (Resolved questions) now random st0)
              events in
  uncaught st = uncaught st0 /\
  (finished st = false ->
   timers st = 1%nat \/
   (answersContainer st <> [] /\
    Forall (fun b => disabled b = false) (answersContainer st))).
Proof.
  intros Htimers Hanswerable Hevents st.
  set (st00 := set_score 0 (set_questionIndex 0
                 (set_currentQuestions questions st0))).
  set (start := fetchQuestions_then (Resolved questions) now random st0)
    in *.
  destruct (session_orderly st0 questions now random [] Htimers
              (Forall_nil_2 _)) as [Horderly0 Hq0].
  change (run (fetchQuestions_then (Resolved questions) now random st0) [])
    with start in Horderly0, Hq0.
  assert (Hlively0 : lively start)
    by exact (displayQuestion_lively now random st00).
  assert (Hu0 : uncaught start = uncaught st0).
  { exact (proj2 (proj2 (proj2 (proj2
             (displayQuestion_vars now random st00))))). }
  assert (Hfinal : orderly (rendered st0) st /\ lively st /\
                   uncaught st = uncaught start).
  { subst st. rewrite <- Hq0 in Hanswerable.
    clear Hu0 Hq0. clearbody start. clear st00.
    revert start Horderly0 Hlively0 Hanswerable.
    induction Hevents as [|event events Hevent _ IH];
      intros start Horderly0 Hlively0 Hanswerable;
      [split; [exact Horderly0|split; [exact Hlively0|reflexivity]]|].
    unfold run in *. cbn [foldl].
    destruct event as [child t|t r| | |]; try discriminate.
    - destruct (click_orderly (rendered st0) child t start Horderly0)
        as [Ho Hq].
      destruct (click_lively (rendered st0) child t start Hanswerable
                  Horderly0 Hlively0) as [Hl Hu].
      change (step start (Click child t)) with (click child t start).
      destruct (IH (click child t start) Ho Hl) as (Ho' & Hl' & Hu').
      { now rewrite Hq. }
      split; [exact Ho'|]. split; [exact Hl'|congruence].
    - destruct (timer_orderly (rendered st0) t r start Horderly0)
        as [Ho Hq].
      destruct (timer_lively t r start Hlively0) as [Hl Hu].
      destruct (IH (step start (TimerFired t r)) Ho Hl) as (Ho' & Hl' & Hu').
      { now rewrite Hq. }
      split; [exact Ho'|]. split; [exact Hl'|congruence]. }
  destruct Hfinal as ([_ Horderly] & Hlively & Hu).
  clearbody st. split; [congruence|].
  unfold finished. intros Hfinished.
  destruct (currentQuestions st !! questionIndex st) as [q|] eqn:Hlookup.
  - exact (Hlively q Hlookup).
  - destruct Horderly as (_ & Hr & _). rewrite Hr in Hfinished.
    rewrite app_assoc, last_snoc in Hfinished. discriminate.
Qed.

Lemma answerable_session_never_stuck_witness :
  uncaught (run (fetchQuestions_then (Resolved [twoPlusTwo]) 0 half requested)
              [Click 0 2300; Click 1 2500; TimerFired 5300 half])
  = [].
Proof.
  assert (Hevents : Forall (fun event => sessionEvent event = true)
            [Click 0 2300; Click 1 2500; TimerFired 5300 half])
    by (repeat constructor).
  assert (Hquestions : Forall answerable [twoPlusTwo])
    by (repeat constructor).
  destruct (answerable_session_never_stuck requested [twoPlusTwo] 0 half _
              eq_refl Hquestions Hevents) as [Hu _].
  exact Hu.
Defined.

(** ** What the buttons show, for answers without further references *)

Lemma literal_button (correctAnswer answer : string)
    (answers : list string) :
  literal answer ->
  let button := answerButton correctAnswer answers answer in
  textual (children button) = true /\
  textOf (children button) = decodeHTML answer /\
  sameAnswer (innerHTML button) correctAnswer
  = bool_decide (decodeHTML answer = decodeHTML correctAnswer).
Proof.
  intros [Htag Htext] button.
  split; [exact Htag|]. split; [exact Htext|].
  unfold sameAnswer. rewrite decodeHTML_innerHTML; cbn [button answerButton
    children textOf]; rewrite Htext; [reflexivity|].
  apply decodeHTML_normalized.
Qed.

Lemma filter_shown_map (correct : string) (mk : string -> Button)
    (answers : list string) :
  Forall (fun answer => textOf (children (mk answer)) = decodeHTML answer)
    answers ->
  length (filter (fun button => textOf (children button) = correct)
            (map mk answers))
  = length (filter (fun answer => decodeHTML answer = correct) answers).
Proof.
  induction 1 as [|a answers Ha _ IH]; [reflexivity|].
  cbn [map]. rewrite !filter_cons.
  destruct (decide (textOf (children (mk a)) = correct)) as [Hc|Hc];
    destruct (decide (decodeHTML a = correct)) as [Hd|Hd];
    rewrite Ha in Hc; try contradiction;
    cbn [length]; now rewrite IH.
Qed.

Lemma filter_none {A : Type} (P : A -> Prop) `{!forall x, Decision (P x)}
    (l : list A) :
  Forall (fun x => ~ P x) l -> filter P l = [].
Proof.
  induction 1 as [|x l Hx _ IH]; [reflexivity|].
  now rewrite filter_cons_False.
Qed.

(** X23.  Outside of the defect of C4 the claim holds.  For a question
    whose decoded answers open no tag and hold no further character
    reference, and whatever [Math.random] returns (values from 0 up to 1):
    every button holds a text, the texts the buttons show are, as a
    multiset, the decoded incorrect answers together with the decoded
    correct answer, and the test of script.js 143 accepts a button exactly
    when it shows the decoded correct answer; when moreover no incorrect
    answer decodes to the same text as the correct one, exactly one button
    shows the decoded correct answer. *)
Theorem displayAnswers_literal_choices (q : Question) (random : nat -> Q)
    (st : State) :
  (forall n : nat, (0 <= random n)%Q /\ (random n < 1)%Q) ->
  literalQuestion q ->
  let buttons := answersContainer (displayAnswers q random st) in
  let correct := decodeHTML (correct_answer q) in
  Forall (fun button => textual (children button) = true) buttons /\
  map (fun button => textOf (children button)) buttons
  ≡ₚ map decodeHTML (incorrect_answers q ++ [correct_answer q]) /\
  Forall (fun button =>
            sameAnswer (innerHTML button) (correct_answer q)
            = bool_decide (textOf (children button) = correct))
    buttons /\
  (Forall (fun answer => decodeHTML answer <> correct)
     (incorrect_answers q) ->
   length (filter (fun button => textOf (children button) = correct)
             buttons)
   = 1%nat).
Proof.
  intros _ Hliteral buttons correct. subst buttons correct.
  pose proof (shuffleArray_Permutation random
                (incorrect_answers q ++ [correct_answer q])) as Hperm.
  unfold displayAnswers.
  cbn [answersContainer set_answersContainer app].
  set (answers := shuffleArray random _) in *.
  assert (Hanswers : Forall literal answers).
  { unfold literalQuestion in Hliteral. now rewrite Hperm. }
  assert (Hbuttons : Forall (fun answer =>
            let button := answerButton (correct_answer q) answers answer in
            textual (children button) = true /\
            textOf (children button) = decodeHTML answer /\
            sameAnswer (innerHTML button) (correct_answer q)
            = bool_decide (decodeHTML answer = decodeHTML (correct_answer q)))
            answers).
  { apply (Forall_impl _ _ _ Hanswers). intros a Ha.
    exact (literal_button (correct_answer q) a answers Ha). }
  clearbody answers.
  split; [|split; [|split]].
  - apply Forall_fmap. apply (Forall_impl _ _ _ Hbuttons).
    now intros a (Ha & _).
  - rewrite map_map, <- Hperm. apply eq_subrelation; [apply _|].
    apply Forall_fmap_ext_1. apply (Forall_impl _ _ _ Hbuttons).
    now intros a (_ & Ha & _).
  - apply Forall_fmap. apply (Forall_impl _ _ _ Hbuttons).
    intros a (_ & Htext & Hsame). cbn [compose]. now rewrite Hsame, Htext.
  - intros Hincorrect.
    rewrite filter_shown_map.
    2:{ apply (Forall_impl _ _ _ Hbuttons). now intros a (_ & Ha & _). }
    rewrite Hperm, filter_app, length_app.
    rewrite (filter_cons_True _ (correct_answer q)) by reflexivity.
    rewrite filter_nil.
    rewrite (filter_none _ (incorrect_answers q)) by exact Hincorrect.
    reflexivity.
Qed.

Lemma displayAnswers_literal_choices_witness :
  map (fun button => textOf (children button))
    (answersContainer (displayAnswers tomAndJerry half freshPage))
  ≡ₚ ["Looney Tunes"; "Popeye"; "Mickey Mouse"; "Tom & Jerry"].
Proof.
  assert (Hrandom : forall n : nat, (0 <= half n)%Q /\ (half n < 1)%Q).
  { intros n. split; unfold half, Qle, Qlt; simpl; lia. }
  assert (Hliteral : literalQuestion tomAndJerry).
  { repeat constructor; vm_compute; reflexivity. }
  destruct (displayAnswers_literal_choices tomAndJerry half freshPage
              Hrandom Hliteral) as (_ & Hshown & _).
  rewrite Hshown. apply eq_subrelation; [apply _|].
  vm_compute. reflexivity.
Defined.

(** ** The score of a session, question by question *)







